(** * mcp-devop: the log-query poller, the tool error wrappers and the
      Google credential provider

    A shallow embedding of [src/server.py] (the AWS MCP tools, in
    particular [run_cloudwatch_logs_query]) and of
    [src/gdrive_mcp_server.py] ([get_google_credentials] and
    [gdrive_search]).

    Remote services, the clock and the third-party libraries (boto3,
    google-auth, googleapiclient) are not part of the repository: they
    appear as an environment record whose fields give the answer of each
    external call.  Every external call a function makes is appended to a
    chronological log, so that "how many fetches" and "was the
    authorization server contacted" are statements about that log. *)

From Stdlib Require Import ZArith Lia.
From stdpp Require Import gmap strings list pretty.
From stdpp Require Import sorting.

Open Scope string_scope.
Open Scope list_scope.
Open Scope Z_scope.

(** ** Python values and control flow *)

Module Py.

(** An exception instance: a library or built-in exception with its
    class name and its [str(e)], or FastAPI's [HTTPException]. *)
Inductive exn :=
| Exn (class_name : string) (message : string)
| HTTPException (status_code : Z) (detail : string).

(** [str(e)]. *)
Definition exn_str (e : exn) : string :=
  match e with
  | Exn _ message => message
  | HTTPException status_code detail => pretty status_code +:+ ": " +:+ detail
  end.

(** [KeyError(k)]: [str] of a KeyError is the [repr] of the key. *)
Definition KeyError (k : string) : exn :=
  Exn "KeyError" ("'" +:+ k +:+ "'").

(** What a Python expression evaluates to: a value, or a raised
    exception.  [Spin] marks a [while] loop that is still iterating when
    the step budget given to the model is used up; it is not an
    exception and no [except] clause sees it. *)
Inductive result (A : Type) : Type :=
| Ok (a : A)
| Raise (e : exn)
| Spin.
Arguments Ok {A} a.
Arguments Raise {A} e.
Arguments Spin {A}.

(** Computations over a state [S] (the log of external calls, the file
    system). *)
Definition M (S A : Type) : Type := S -> result A * S.

Definition ret {S A} (a : A) : M S A := fun s => (Ok a, s).

Definition bind {S A B} (c : M S A) (k : A -> M S B) : M S B :=
  fun s =>
    match c s with
    | (Ok a, s') => k a s'
    | (Raise e, s') => (Raise e, s')
    | (Spin, s') => (Spin, s')
    end.

Definition raise {S A} (e : exn) : M S A := fun s => (Raise e, s).

(** Lift the result of a pure evaluation or of an external answer. *)
Definition lift {S A} (r : result A) : M S A := fun s => (r, s).

(** [try: body  except Exception as e: handler e]. *)
Definition try_except {S A} (body : M S A) (handler : exn -> M S A) : M S A :=
  fun s =>
    match body s with
    | (Ok a, s') => (Ok a, s')
    | (Raise e, s') => handler e s'
    | (Spin, s') => (Spin, s')
    end.

(** Sequencing of pure evaluations that may raise. *)
Definition and_then {A B} (r : result A) (k : A -> result B) : result B :=
  match r with
  | Ok a => k a
  | Raise e => Raise e
  | Spin => Spin
  end.

(** [d[k]] on a mapping that came back from a library, where the key may
    be absent: [None] is the absent key and raises [KeyError]. *)
Definition getitem {A} (k : string) (o : option A) : result A :=
  match o with
  | Some a => Ok a
  | None => Raise (KeyError k)
  end.

(** A [dict] with string keys.  Python dictionaries keep insertion
    order; assigning to a key that is present replaces the value and
    leaves the key where it was. *)
Definition dict (V : Type) : Type := list (string * V).

Fixpoint dict_set {V} (k : string) (v : V) (d : dict V) : dict V :=
  match d with
  | [] => [(k, v)]
  | (k', v') :: d' =>
      if String.eqb k' k then (k', v) :: d'
      else (k', v') :: dict_set k v d'
  end.

Fixpoint dict_get {V} (k : string) (d : dict V) : option V :=
  match d with
  | [] => None
  | (k', v') :: d' => if String.eqb k' k then Some v' else dict_get k d'
  end.

Definition keys {V} (d : dict V) : list string := map fst d.

(** Numbers as boto3 hands them over and [json.dumps] prints them: an
    [int], or a [float] kept as an uninterpreted mantissa and binary
    exponent (the code never computes with it). *)
Inductive number :=
| Int (z : Z)
| Float (mantissa exponent : Z).

(** The objects the tools pass to [json.dumps]. *)
#[local] Unset Elimination Schemes.
Inductive json :=
| JNum (n : number)
| JStr (s : string)
| JList (l : list json)
| JDict (d : list (string * json)).
#[local] Set Elimination Schemes.

End Py.

Import Py.

Declare Scope py_scope.
Delimit Scope py_scope with py.
Notation "x <- c ;; k" := (bind c (fun x => k))
  (at level 100, c at next level, right associativity) : py_scope.
Notation "c ;;; k" := (bind c (fun _ => k))
  (at level 100, right associativity) : py_scope.
Open Scope py_scope.

(** ** src/server.py *)

Module Server.

(** What a tool returns, a Python [str]: either the rendering
    [json.dumps(j, indent=2)] of an object [j], or a formatted text. *)
Inductive output :=
| Dumps (j : json)
| Text (s : string).

(** *** Responses of the CloudWatch Logs client

    boto3 returns plain dictionaries.  A key the code reads with
    [d['k']] is an [option] here ([None]: the key is absent, the read
    raises [KeyError]); a key read with [d.get('k', default)] is an
    [option] as well, with the default taken at the read. *)

Record StartQueryResponse := { queryId : option string }.

Record ResultField := { field : option string; value : option string }.

Record QueryStatistics := {
  recordsMatched : option number;
  recordsScanned : option number;
  bytesScanned : option number
}.

Record GetQueryResultsResponse := {
  status : option string;
  results : option (list (list ResultField));
  statistics : option QueryStatistics
}.

Record ListBucketsResponse := { Buckets : option (list (option string)) }.

(** The keyword arguments of [start_query]. *)
Record StartQueryArgs := {
  logGroupName : string;
  startTime : Z;
  endTime : Z;
  queryString : string;
  limit : Z
}.

(** External calls, in the order they are made. *)
Inductive call :=
| CStartQuery (args : StartQueryArgs)
| CSleep (seconds : Z)
| CGetQueryResults (query_id : string)
| CListBuckets.

(** The world outside the process: the clock and the answers of AWS.
    The answer to [get_query_results] may depend on how many fetches
    were made before it (the job advances on the service's side). *)
Record Env := {
  time_time : Z;
  start_query : StartQueryArgs -> result StartQueryResponse;
  get_query_results : nat -> string -> result GetQueryResultsResponse;
  list_buckets : result ListBucketsResponse
}.

Definition is_fetch (c : call) : bool :=
  match c with CGetQueryResults _ => true | _ => false end.

Definition is_sleep (c : call) : bool :=
  match c with CSleep _ => true | _ => false end.

Definition is_start (c : call) : bool :=
  match c with CStartQuery _ => true | _ => false end.

(** Number of calls of one kind in a log. *)
Definition count (p : call -> bool) (log : list call) : nat :=
  length (List.filter p log).

Definition fetches (log : list call) : nat := count is_fetch log.

(** Record a call and take the environment's answer to it. *)
Definition external {A} (c : call) (answer : list call -> result A)
  : M (list call) A :=
  fun log => (answer log, log ++ [c]).

Section WithEnv.

Variable env : Env.

Definition time_sleep (seconds : Z) : M (list call) unit :=
  external (CSleep seconds) (fun _ => Ok tt).

Definition cloudwatch_logs_client_start_query (args : StartQueryArgs)
  : M (list call) StartQueryResponse :=
  external (CStartQuery args) (fun _ => start_query env args).

Definition cloudwatch_logs_client_get_query_results (query_id : string)
  : M (list call) GetQueryResultsResponse :=
  external (CGetQueryResults query_id)
           (fun log => get_query_results env (fetches log) query_id).

Definition s3_client_list_buckets : M (list call) ListBucketsResponse :=
  external CListBuckets (fun _ => list_buckets env).

(** The guard of the poll loop,
    [response is None or response['status'] == 'Running']. *)
Definition loop_guard (response : option GetQueryResultsResponse)
  : result bool :=
  match response with
  | None => Ok true
  | Some r =>
      and_then (getitem "status" (status r))
               (fun s => Ok (String.eqb s "Running"))
  end.

(** [while response is None or response['status'] == 'Running':
       time.sleep(1); response = get_query_results(queryId=query_id)]
    run for at most [budget] iterations. *)
Fixpoint poll (budget : nat) (query_id : string)
    (response : option GetQueryResultsResponse)
  : M (list call) (option GetQueryResultsResponse) :=
  g <- lift (loop_guard response) ;;
  if (g : bool) then
    match budget with
    | O => lift Spin
    | S budget' =>
        time_sleep 1 ;;;
        r <- cloudwatch_logs_client_get_query_results query_id ;;
        poll budget' query_id (Some r)
    end
  else ret response.

(** The inner loop over one result row:
    [for field in result: result_dict[field['field']] = field['value']].
    Python evaluates the right-hand side of the assignment first. *)
Fixpoint fill_result_dict (row : list ResultField) (result_dict : dict string)
  : result (dict string) :=
  match row with
  | [] => Ok result_dict
  | f :: row' =>
      and_then (getitem "value" (value f)) (fun v =>
      and_then (getitem "field" (field f)) (fun k =>
      fill_result_dict row' (dict_set k v result_dict)))
  end.

(** The outer loop:
    [for result in ...: result_dict = {}; ...; results.append(result_dict)]. *)
Fixpoint format_results (rows : list (list ResultField))
    (results : list (dict string)) : result (list (dict string)) :=
  match rows with
  | [] => Ok results
  | row :: rows' =>
      and_then (fill_result_dict row [])
               (fun result_dict => format_results rows' (results ++ [result_dict]))
  end.

(** [response.get('statistics', {}).get(name, 0)]. *)
Definition statistic (st : option QueryStatistics)
    (name : QueryStatistics -> option number) : number :=
  match st with
  | None => Int 0
  | Some s => match name s with Some n => n | None => Int 0 end
  end.

Definition json_of_dict (d : dict string) : json :=
  JDict (map (fun kv => (fst kv, JStr (snd kv))) d).

(** The object dumped on status ['Complete']. *)
Definition complete_object (response : GetQueryResultsResponse)
    (results : list (dict string)) : json :=
  JDict [ ("status", JStr "Complete");
          ("statistics",
           JDict [ ("recordsMatched",
                    JNum (statistic (statistics response) recordsMatched));
                   ("recordsScanned",
                    JNum (statistic (statistics response) recordsScanned));
                   ("bytesScanned",
                    JNum (statistic (statistics response) bytesScanned)) ]);
          ("results", JList (map json_of_dict results)) ].

(** The object dumped on any other status. *)
Definition incomplete_object (st : string) : json :=
  JDict [ ("status", JStr st);
          ("error", JStr "Query did not complete successfully") ].

(** The part after the loop, [# Format results]. *)
Definition format_response (response : option GetQueryResultsResponse)
  : result output :=
  match response with
  | None =>
      Raise (Exn "TypeError" "'NoneType' object is not subscriptable")
  | Some r =>
      and_then (getitem "status" (status r)) (fun st =>
      if String.eqb st "Complete" then
        and_then (format_results (default [] (results r)) []) (fun results =>
        Ok (Dumps (complete_object r results)))
      else Ok (Dumps (incomplete_object st)))
  end.

(** The [except Exception as e: return f"...: {str(e)}"] clause shared by
    the tools; each tool has its own prefix. *)
Definition error_text (prefix : string) (e : exn) : M (list call) output :=
  ret (Text (prefix +:+ exn_str e)).

(** The default of the [hours] parameter. *)
Definition default_hours : Z := 24.

(** [run_cloudwatch_logs_query(log_group_name, query, hours)], with at
    most [budget] iterations of its poll loop. *)
Definition run_cloudwatch_logs_query (budget : nat)
    (log_group_name query : string) (hours : Z) : M (list call) output :=
  try_except
    (let end_time := time_time env in
     let start_time := end_time - hours * 3600 in
     start_query_response <-
       cloudwatch_logs_client_start_query
         {| logGroupName := log_group_name;
            startTime := start_time;
            endTime := end_time;
            queryString := query;
            limit := 1000 |} ;;
     query_id <- lift (getitem "queryId" (queryId start_query_response)) ;;
     response <- poll budget query_id None ;;
     lift (format_response response))
    (error_text "Error running CloudWatch Logs query: ").

(** [bucket['Name'] for bucket in response['Buckets']]. *)
Fixpoint bucket_names (buckets : list (option string)) : result (list string) :=
  match buckets with
  | [] => Ok []
  | b :: buckets' =>
      and_then (getitem "Name" b) (fun name =>
      and_then (bucket_names buckets') (fun names => Ok (name :: names)))
  end.

Definition list_s3_buckets : M (list call) output :=
  try_except
    (response <- s3_client_list_buckets ;;
     bs <- lift (getitem "Buckets" (Buckets response)) ;;
     buckets <- lift (bucket_names bs) ;;
     ret (Dumps (JList (map JStr buckets))))
    (error_text "Error listing S3 buckets: ").

End WithEnv.

(** *** Vocabulary of the statements *)

(** The calls made by [n] iterations of the poll loop. *)
Fixpoint poll_calls (query_id : string) (n : nat) : list call :=
  match n with
  | O => []
  | S n' => CSleep 1 :: CGetQueryResults query_id :: poll_calls query_id n'
  end.

(** The arguments under which the tool submits its query. *)
Definition submitted (env : Env) (log_group_name query : string) (hours : Z)
  : StartQueryArgs :=
  {| logGroupName := log_group_name;
     startTime := time_time env - hours * 3600;
     endTime := time_time env;
     queryString := query;
     limit := 1000 |}.

Definition error_prefix : string := "Error running CloudWatch Logs query: ".

(** A result field as the service sends it, from a (field, value) pair. *)
Definition field_of_pair (kv : string * string) : ResultField :=
  {| field := Some kv.1; value := Some kv.2 |}.

(** The dictionary the inner loop builds from a row all of whose fields
    carry both keys. *)
Definition row_dict (row : list (string * string)) : dict string :=
  foldl (fun result_dict kv => dict_set kv.1 kv.2 result_dict) [] row.

(** The mapping a result row denotes, in the words of the
    specification: one pass from left to right over the (field, value)
    pairs, a later pair with the same field name replacing the earlier
    one. *)
Definition row_mapping (row : list (string * string)) : gmap string string :=
  foldl (fun m kv => <[kv.1 := kv.2]> m) ∅ row.

(** The service answers the fetches made from [log] on with the
    observations [obs], in order. *)
Definition answers (env : Env) (query_id : string) (log : list call)
    (obs : list GetQueryResultsResponse) : Prop :=
  forall (i : nat) (r : GetQueryResultsResponse),
    obs !! i = Some r ->
    get_query_results env (fetches log + i) query_id = Ok r.

Definition running (r : GetQueryResultsResponse) : Prop :=
  status r = Some "Running".

(** *** Scripted services, for the examples *)

Definition observation (st : string) : GetQueryResultsResponse :=
  {| status := Some st; results := None; statistics := None |}.

(** A completed job with one row that names the field ["x"] twice, and
    with only one of the three statistics. *)
Definition complete_twice_x : GetQueryResultsResponse :=
  {| status := Some "Complete";
     results := Some [ [ {| field := Some "x"; value := Some "1" |};
                         {| field := Some "x"; value := Some "2" |} ] ];
     statistics := Some {| recordsMatched := Some (Float 1 0);
                           recordsScanned := None;
                           bytesScanned := None |} |}.

(** A service that accepts every query under the id ["q-1"] and answers
    the fetches from a script; a fetch past the script fails. *)
Definition scripted (obs : list GetQueryResultsResponse) : Env :=
  {| time_time := 1700000000;
     start_query := fun _ => Ok {| queryId := Some "q-1" |};
     get_query_results := fun n _ =>
       match obs !! n with
       | Some r => Ok r
       | None => Raise (Exn "ClientError" "no such observation")
       end;
     list_buckets := Ok {| Buckets := Some [Some "logs"; Some "assets"] |} |}.

(** A service whose job never leaves status ["Running"]. *)
Definition always_running : Env :=
  {| time_time := 1700000000;
     start_query := fun _ => Ok {| queryId := Some "q-1" |};
     get_query_results := fun _ _ => Ok (observation "Running");
     list_buckets := Ok {| Buckets := Some [] |} |}.

(** A service that is down: every call fails. *)
Definition unreachable : Env :=
  {| time_time := 1700000000;
     start_query := fun _ => Raise (Exn "EndpointConnectionError" "no route");
     get_query_results := fun _ _ =>
       Raise (Exn "EndpointConnectionError" "no route");
     list_buckets := Raise (Exn "EndpointConnectionError" "no route") |}.

End Server.

(** ** src/gdrive_mcp_server.py *)

Module GDrive.

(** [google.oauth2.credentials.Credentials], by what the code observes
    of it: the access token, the refresh token and whether the expiry
    has passed.  [valid] is the library's property: there is a token and
    it is not expired. *)
Record Credentials := {
  token : option string;
  refresh_token : option string;
  expired : bool
}.

Definition valid (c : Credentials) : bool :=
  match token c with
  | Some _ => negb (expired c)
  | None => false
  end.

(** Truth value of an optional string ([None] and [''] are false). *)
Definition truthy (o : option string) : bool :=
  match o with
  | Some s => negb (String.eqb s "")
  | None => false
  end.

Definition SCOPES : list string :=
  [ "https://www.googleapis.com/auth/drive.readonly";
    "https://www.googleapis.com/auth/spreadsheets" ].

Record Flow := { client_config : string; flow_scopes : list string }.

Record FilesListArgs := {
  q : string;
  list_pageSize : Z;
  list_pageToken : option string;
  fields : string
}.

Record FilesListResponse := {
  files : option (list json);
  nextPageToken : option string
}.

(** Requests to the outside, in the order they are made.  [CRefresh] and
    [CRunLocalServer] go to the authorization server; [CWrite] is a
    write to a local file. *)
Inductive call :=
| CRefresh (creds : Credentials)
| CRunLocalServer (flow : Flow) (port : Z)
| CWrite (path content : string)
| CBuild (serviceName version : string)
| CFilesList (args : FilesListArgs).

(** The local files (path to content) and the log of requests. *)
Record World := { fs : gmap string string; calls : list call }.

(** The libraries and the services behind them. *)
Record Env := {
  from_authorized_user_info : string -> list string -> result Credentials;
  to_json : Credentials -> string;
  refresh : Credentials -> result Credentials;
  from_client_config : string -> list string -> result Flow;
  run_local_server : Flow -> Z -> result Credentials;
  build : string -> string -> Credentials -> result unit;
  files_list_execute : FilesListArgs -> result FilesListResponse
}.

Definition FileNotFoundError (path : string) : exn :=
  Exn "FileNotFoundError"
      ("[Errno 2] No such file or directory: '" +:+ path +:+ "'").

(** The world after one more request. *)
Definition logged (w : World) (c : call) : World :=
  {| fs := fs w; calls := calls w ++ [c] |}.

Definition external {A} (c : call) (answer : result A) : M World A :=
  fun w => (answer, logged w c).

Definition os_path_exists (path : string) : M World bool :=
  fun w => (Ok (bool_decide (is_Some (fs w !! path))), w).

Definition read_file {A} (path : string) (parse : string -> result A)
  : M World A :=
  fun w =>
    match fs w !! path with
    | Some content => (parse content, w)
    | None => (Raise (FileNotFoundError path), w)
    end.

(** [with open(path, 'w') as f: f.write(content)]. *)
Definition write_file (path content : string) : M World unit :=
  fun w => (Ok tt, {| fs := <[path := content]> (fs w);
                       calls := calls w ++ [CWrite path content] |}).

Section WithEnv.

Variable env : Env.

(** [creds.refresh(Request())] updates the object in place; the model
    returns the updated object. *)
Definition creds_refresh (creds : Credentials) : M World Credentials :=
  external (CRefresh creds) (refresh env creds).

Definition InstalledAppFlow_from_client_secrets_file
    (path : string) (scopes : list string) : M World Flow :=
  read_file path (fun content => from_client_config env content scopes).

Definition flow_run_local_server (flow : Flow) (port : Z)
  : M World Credentials :=
  external (CRunLocalServer flow port) (run_local_server env flow port).

(** [creds] starts as [None] and is loaded from [token.json] when the
    file exists; the function returns it once it is set and valid, and
    otherwise refreshes it or runs the interactive flow, and writes the
    outcome to [token.json]. *)
Definition get_google_credentials : M World Credentials :=
  ex <- os_path_exists "token.json" ;;
  creds <- (if (ex : bool)
            then c <- read_file "token.json"
                        (fun content =>
                           from_authorized_user_info env content SCOPES) ;;
                 ret (Some c)
            else ret None) ;;
  match creds with
  | Some c =>
      if valid c then ret c
      else
        creds' <- (if expired c && truthy (refresh_token c)
                   then creds_refresh c
                   else flow <- InstalledAppFlow_from_client_secrets_file
                                  "credentials.json" SCOPES ;;
                        flow_run_local_server flow 0) ;;
        write_file "token.json" (to_json env creds') ;;;
        ret creds'
  | None =>
      flow <- InstalledAppFlow_from_client_secrets_file
                "credentials.json" SCOPES ;;
      creds' <- flow_run_local_server flow 0 ;;
      write_file "token.json" (to_json env creds') ;;;
      ret creds'
  end.

(** [SearchRequest]; [pageSize] is [Optional[int]] with default 10. *)
Record SearchRequest := {
  query : string;
  pageToken : option string;
  pageSize : option Z
}.

Definition default_pageSize : option Z := Some 10.

Record SearchResult := {
  result_files : list json;
  result_nextPageToken : option string
}.

(** [min(a, 100)] for an [Optional[int]] [a]: Python returns the first
    argument unless the second is smaller, and cannot order [None]. *)
Definition py_min (a : option Z) (b : Z) : result Z :=
  match a with
  | Some n => Ok (if b <? n then b else n)
  | None =>
      Raise (Exn "TypeError"
        "'<' not supported between instances of 'int' and 'NoneType'")
  end.

(** [except Exception as e: raise HTTPException(status_code=500,
    detail=str(e))], the clause shared by the four endpoints. *)
Definition http_500 {A} (e : exn) : M World A :=
  raise (HTTPException 500 (exn_str e)).

Definition gdrive_search (request : SearchRequest) : M World SearchResult :=
  try_except
    (creds <- get_google_credentials ;;
     external (CBuild "drive" "v3") (build env "drive" "v3" creds) ;;;
     page_size <- lift (py_min (pageSize request) 100) ;;
     response <-
       (let args := {| q := query request;
                       list_pageSize := page_size;
                       list_pageToken := pageToken request;
                       fields := "nextPageToken, files(id, name, mimeType)" |}
        in external (CFilesList args) (files_list_execute env args)) ;;
     ret {| result_files := default [] (files response);
            result_nextPageToken := nextPageToken response |})
    http_500.

End WithEnv.

(** *** Vocabulary of the statements *)

Definition is_files_list (c : call) : bool :=
  match c with CFilesList _ => true | _ => false end.

(** The arguments [gdrive_search] would list files with, for a page
    size [n]. *)
Definition list_args (request : SearchRequest) (n : Z) : FilesListArgs :=
  {| q := query request;
     list_pageSize := n;
     list_pageToken := pageToken request;
     fields := "nextPageToken, files(id, name, mimeType)" |}.

(** *** A scripted Google, for the examples *)

Definition fresh : Credentials :=
  {| token := Some "ya29.new"; refresh_token := Some "1//rt";
     expired := false |}.

Definition stale : Credentials :=
  {| token := Some "ya29.old"; refresh_token := Some "1//rt";
     expired := true |}.

Definition render (c : Credentials) : string :=
  default "-" (token c) +:+ " " +:+ default "-" (refresh_token c) +:+ " "
  +:+ (if expired c then "expired" else "live").

Definition parse (content : string) : result Credentials :=
  if String.eqb content (render fresh) then Ok fresh
  else if String.eqb content (render stale) then Ok stale
  else Raise (Exn "ValueError" "malformed token file").

(** A Google whose authorization server accepts refreshes or not, and
    whose Drive answers every listing with [drive]. *)
Definition google (accepts : bool) (drive : result FilesListResponse) : Env :=
  {| from_authorized_user_info := fun content _ => parse content;
     to_json := render;
     refresh := fun _ =>
       if accepts then Ok fresh
       else Raise (Exn "RefreshError"
                       "invalid_grant: Token has been expired or revoked.");
     from_client_config := fun content scopes =>
       Ok {| client_config := content; flow_scopes := scopes |};
     run_local_server := fun _ _ => Ok fresh;
     build := fun _ _ _ => Ok tt;
     files_list_execute := fun _ => drive |}.

(** A disk whose token cache holds [c], and nothing requested yet. *)
Definition cached (c : Credentials) : World :=
  {| fs := {[ "token.json" := render c ]}; calls := [] |}.

Definition no_files : FilesListResponse :=
  {| files := None; nextPageToken := None |}.

Definition quota_exceeded : exn :=
  Exn "HttpError" "User rate limit exceeded.".

Definition ten_reports : SearchRequest :=
  {| query := "name contains 'report'"; pageToken := None;
     pageSize := Some 10 |}.

End GDrive.

(** ** More vocabulary and scripted services for src/server.py *)

Module ServerCases.

Import Server.

(** The key a result field lacks, in the order the inner loop reads
    them: ['value'] first (the right-hand side of the assignment), then
    ['field']. *)
Definition missing_key (f : ResultField) : option string :=
  match value f with
  | None => Some "value"
  | Some _ => match field f with
              | None => Some "field"
              | Some _ => None
              end
  end.


(** A service whose answer to [start_query] lacks the ['queryId']. *)
Definition without_query_id : Env :=
  {| time_time := 1700000000;
     start_query := fun _ => Ok {| queryId := None |};
     get_query_results := fun _ _ => Ok (observation "Complete");
     list_buckets := Ok {| Buckets := None |} |}.

(** An answer to [get_query_results] without the ['status']. *)
Definition no_status : GetQueryResultsResponse :=
  {| status := None; results := None; statistics := None |}.

(** A completed job whose second row has a field without value. *)
Definition complete_with_hole : GetQueryResultsResponse :=
  {| status := Some "Complete";
     results := Some [ [ {| field := Some "a"; value := Some "1" |} ];
                       [ {| field := Some "a"; value := Some "2" |};
                         {| field := Some "b"; value := None |} ] ];
     statistics := None |}.

(** A completed job with three rows: one that repeats its first field
    after another field, one that names the field ["x"] twice, and an
    empty one; two of the three statistics are missing. *)
Definition complete_three_rows : GetQueryResultsResponse :=
  {| status := Some "Complete";
     results := Some [ [ {| field := Some "a"; value := Some "1" |};
                         {| field := Some "b"; value := Some "2" |};
                         {| field := Some "a"; value := Some "3" |} ];
                       [ {| field := Some "x"; value := Some "1" |};
                         {| field := Some "x"; value := Some "2" |} ];
                       [] ];
     statistics := Some {| recordsMatched := None;
                           recordsScanned := Some (Float 7 0);
                           bytesScanned := None |} |}.

(** An S3 whose second bucket has no ['Name']. *)
Definition nameless_bucket : Env :=
  {| time_time := 1700000000;
     start_query := fun _ => Ok {| queryId := Some "q-1" |};
     get_query_results := fun _ _ => Ok (observation "Complete");
     list_buckets := Ok {| Buckets := Some [Some "logs"; None] |} |}.

End ServerCases.

(** ** More vocabulary and scripted services for src/gdrive_mcp_server.py *)

Module GDriveCases.

Import GDrive.

(** Requests that reach the authorization server. *)
Definition is_auth_request (c : call) : bool :=
  match c with
  | CRefresh _ | CRunLocalServer _ _ => true
  | _ => false
  end.


Definition count (p : call -> bool) (l : list call) : nat :=
  length (List.filter p l).

(** A credential without access token, not expired, with a refresh
    token; and an expired one without refresh token. *)
Definition tokenless : Credentials :=
  {| token := None; refresh_token := Some "1//rt"; expired := false |}.

Definition unrefreshable : Credentials :=
  {| token := Some "ya29.old"; refresh_token := None; expired := true |}.

Definition known : list Credentials :=
  [fresh; stale; tokenless; unrefreshable].

Definition parse_known (content : string) : result Credentials :=
  match List.find (fun c => String.eqb content (render c)) known with
  | Some c => Ok c
  | None => Raise (Exn "ValueError" "malformed token file")
  end.

(** A Google like [google], that reads the four credentials above,
    accepts every refresh and grants [fresh] in the interactive flow. *)
Definition desk : Env :=
  {| from_authorized_user_info := fun content _ => parse_known content;
     to_json := render;
     refresh := fun _ => Ok fresh;
     from_client_config := fun content scopes =>
       Ok {| client_config := content; flow_scopes := scopes |};
     run_local_server := fun _ _ => Ok fresh;
     build := fun _ _ _ => Ok tt;
     files_list_execute := fun _ => Ok no_files |}.

Definition secrets : string := "{installed: {client_id: 42}}".

Definition the_flow : Flow :=
  {| client_config := secrets; flow_scopes := SCOPES |}.

(** A disk with the client secrets only; one that also caches [c]; one
    with a token file that is no credential; and an empty one. *)
Definition first_run : World :=
  {| fs := {[ "credentials.json" := secrets ]}; calls := [] |}.

Definition installed (c : Credentials) : World :=
  {| fs := <[ "token.json" := render c ]> {[ "credentials.json" := secrets ]};
     calls := [] |}.

Definition garbled : World :=
  {| fs := <[ "token.json" := "not json" ]>
             {[ "credentials.json" := secrets ]};
     calls := [] |}.

Definition empty_disk : World := {| fs := ∅; calls := [] |}.

(** The interactive flow and the write that follows it, as
    [get_google_credentials] runs them. *)
Definition interactive (env : Env) (w : World) : result Credentials * World :=
  bind (bind (InstalledAppFlow_from_client_secrets_file env
                "credentials.json" SCOPES)
             (fun flow => flow_run_local_server env flow 0))
       (fun creds' =>
          bind (write_file "token.json" (to_json env creds'))
               (fun _ => ret creds')) w.

Definition null_page_size : SearchRequest :=
  {| query := "name contains 'report'"; pageToken := None;
     pageSize := None |}.

End GDriveCases.

(** ** src/server.py: configuration and the other tools *)

Module Aws.

(** *** Objects and [json.dumps]

    What the tools below hand to [json.dumps] can hold [None] and, where
    they pass a part of the answer through as it came, [datetime]
    values, which the encoder refuses. *)
#[local] Unset Elimination Schemes.
Inductive pyobj :=
| PNone
| PBool (b : bool)
| PNum (n : number)
| PStr (s : string)
| PDatetime (t : Z)
| PList (l : list pyobj)
| PDict (d : list (string * pyobj)).
#[local] Set Elimination Schemes.

Fixpoint serializable (o : pyobj) : bool :=
  match o with
  | PDatetime _ => false
  | PList l => forallb serializable l
  | PDict d => forallb (fun kv => serializable (snd kv)) d
  | _ => true
  end.

(** What a tool returns: [json.dumps(o, indent=2)] or a text. *)
Inductive output :=
| Dumps (o : pyobj)
| Text (s : string).

(** [json.dumps(o, indent=2)], without a [default] hook. *)
Definition json_dumps (o : pyobj) : result output :=
  if serializable o then Ok (Dumps o)
  else Raise (Exn "TypeError"
                  "Object of type datetime is not JSON serializable").

(** [d.get(k)] for JSON: an absent key reads as [None]. *)
Definition opt_str (o : option string) : pyobj :=
  match o with Some s => PStr s | None => PNone end.

Definition opt_num (o : option number) : pyobj :=
  match o with Some n => PNum n | None => PNone end.

(** *** Configuration (the top of the file) *)

(** Truth value of [os.environ.get(name)]. *)
Definition is_set (o : option string) : bool :=
  match o with
  | Some s => negb (String.eqb s "")
  | None => false
  end.

Definition AWS_REGION (environ : gmap string string) : string :=
  default "us-east-1" (environ !! "AWS_DEFAULT_REGION").

(** The keyword arguments added to every [boto3.client] call. *)
Definition boto3_config (environ : gmap string string) : dict string :=
  let AWS_ACCESS_KEY_ID := environ !! "AWS_ACCESS_KEY_ID" in
  let AWS_SECRET_ACCESS_KEY := environ !! "AWS_SECRET_ACCESS_KEY" in
  let AWS_SESSION_TOKEN := environ !! "AWS_SESSION_TOKEN" in
  if is_set AWS_ACCESS_KEY_ID && is_set AWS_SECRET_ACCESS_KEY then
    let config :=
      dict_set "aws_secret_access_key" (default "" AWS_SECRET_ACCESS_KEY)
        (dict_set "aws_access_key_id" (default "" AWS_ACCESS_KEY_ID) []) in
    if is_set AWS_SESSION_TOKEN
    then dict_set "aws_session_token" (default "" AWS_SESSION_TOKEN) config
    else config
  else [].

(** *** Answers of the AWS clients *)

Record S3Object := { Key : option string }.

Record ListObjectsV2Response := {
  Contents : option (list S3Object);
  IsTruncated : option bool;
  NextContinuationToken : option string
}.

Record HeadObjectResponse := {
  ContentLength : option number;
  ContentType : option string;
  LastModified : option Z;
  Metadata : option (dict string);
  StorageClass : option string;
  ETag : option string
}.

Record Datapoint := {
  Timestamp : option Z;
  Sum : option number;
  Average : option number;
  Maximum : option number;
  Minimum : option number;
  Unit : option string
}.

Record GetMetricStatisticsResponse := { Datapoints : option (list Datapoint) }.

Record GetMetricStatisticsArgs := {
  Namespace : string;
  MetricName : string;
  Dimensions : list (string * string);
  StartTime : Z;
  EndTime : Z;
  Period : Z;
  Statistics : list string
}.

Record Tag := { tag_Key : option string; tag_Value : option string }.

(** [State] is a dictionary of its own: [None] when the instance has
    none, [Some None] when it has one without ['Name']. *)
Record Instance := {
  InstanceId : option string;
  InstanceType : option string;
  State : option (option string);
  PublicIpAddress : option string;
  PrivateIpAddress : option string;
  Tags : option (list Tag)
}.

Record Reservation := { Instances : option (list Instance) }.

Record DescribeInstancesResponse := {
  Reservations : option (list Reservation);
  NextToken : option string
}.

Record InstanceStatus := {
  status_InstanceId : option string;
  InstanceState : option (option string);
  InstanceStatus_ : option (option string);
  SystemStatus : option (option string);
  Events : option (list pyobj)
}.

Record DescribeInstanceStatusResponse := {
  InstanceStatuses : option (list InstanceStatus)
}.

(** A [timedelta], by the keyword it is built with. *)
Inductive timedelta :=
| days (n : Z)
| minutes (n : Z).

Inductive call :=
| CListObjectsV2 (Bucket Prefix : string)
| CHeadObject (Bucket Key : string)
| CGetMetricStatistics (args : GetMetricStatisticsArgs)
| CDescribeInstances
| CDescribeInstanceStatus (InstanceIds : list string).

(** The clock, the [datetime] library (points in time are integers;
    subtracting a [timedelta] can overflow; [strftime] is the one with
    format ['%Y-%m-%d %H:%M:%S']), [int] on strings, and the clients. *)
Record Env := {
  utcnow : Z;
  datetime_sub : Z -> timedelta -> result Z;
  strftime : Z -> string;
  int : string -> result Z;
  list_objects_v2 : string -> string -> result ListObjectsV2Response;
  head_object : string -> string -> result HeadObjectResponse;
  get_metric_statistics :
    GetMetricStatisticsArgs -> result GetMetricStatisticsResponse;
  describe_instances : result DescribeInstancesResponse;
  describe_instance_status :
    list string -> result DescribeInstanceStatusResponse
}.

Definition external {A} (c : call) (answer : result A) : M (list call) A :=
  fun log => (answer, log ++ [c]).

Definition error_text (prefix : string) (e : exn) : M (list call) output :=
  ret (Text (prefix +:+ exn_str e)).

(** [sorted(xs, key=key)]: the keys are computed first, in order; the
    sort is stable. *)
Fixpoint insert_by_key {A} (k : Z) (x : A) (l : list (Z * A))
  : list (Z * A) :=
  match l with
  | [] => [(k, x)]
  | (k', x') :: l' =>
      if k <=? k' then (k, x) :: l
      else (k', x') :: insert_by_key k x l'
  end.

Definition sort_by_key {A} (l : list (Z * A)) : list (Z * A) :=
  foldr (fun kx acc => insert_by_key (fst kx) (snd kx) acc) [] l.

Fixpoint with_keys {A} (key : A -> result Z) (xs : list A)
  : result (list (Z * A)) :=
  match xs with
  | [] => Ok []
  | x :: xs' =>
      and_then (key x) (fun k =>
      and_then (with_keys key xs') (fun rest => Ok ((k, x) :: rest)))
  end.

Definition sorted {A} (key : A -> result Z) (xs : list A) : result (list A) :=
  and_then (with_keys key xs) (fun kxs => Ok (map snd (sort_by_key kxs))).

(** [for x in xs: out.append(f(x))], where [f] may raise. *)
Fixpoint for_each {A B} (f : A -> result B) (xs : list A) : result (list B) :=
  match xs with
  | [] => Ok []
  | x :: xs' =>
      and_then (f x) (fun y =>
      and_then (for_each f xs') (fun ys => Ok (y :: ys)))
  end.

Section WithEnv.

Variable env : Env.

(** **** S3 *)

Definition list_s3_objects (bucket prefix : string) : M (list call) output :=
  try_except
    (response <- external (CListObjectsV2 bucket prefix)
                          (list_objects_v2 env bucket prefix) ;;
     objects <- lift (for_each (fun obj => getitem "Key" (Key obj))
                               (default [] (Contents response))) ;;
     lift (json_dumps (PList (map PStr objects))))
    (error_text "Error listing S3 objects: ").

Definition default_prefix : string := "".

Definition get_s3_object_info (bucket key : string) : M (list call) output :=
  try_except
    (response <- external (CHeadObject bucket key)
                          (head_object env bucket key) ;;
     last_modified <-
       lift (match LastModified response with
             | Some t => Ok (strftime env t)
             | None =>
                 Raise (Exn "AttributeError"
                          "'NoneType' object has no attribute 'strftime'")
             end) ;;
     lift (json_dumps
             (PDict
                [ ("ContentLength", opt_num (ContentLength response));
                  ("ContentType", opt_str (ContentType response));
                  ("LastModified", PStr last_modified);
                  ("Metadata",
                   PDict (map (fun kv => (fst kv, PStr (snd kv)))
                              (default [] (Metadata response))));
                  ("StorageClass", opt_str (StorageClass response));
                  ("ETag", opt_str (ETag response)) ])))
    (error_text "Error getting S3 object info: ").

(** **** CloudWatch metrics *)

Definition by_timestamp (x : Datapoint) : result Z :=
  getitem "Timestamp" (Timestamp x).

Definition statistics_point (point : Datapoint) : result pyobj :=
  and_then (getitem "Timestamp" (Timestamp point)) (fun t =>
  Ok (PDict [ ("Timestamp", PStr (strftime env t));
              ("Average", opt_num (Average point));
              ("Maximum", opt_num (Maximum point));
              ("Minimum", opt_num (Minimum point));
              ("Unit", opt_str (Unit point)) ])).

Definition cloudwatch_resource (namespace metric_name period : string)
  : M (list call) output :=
  try_except
    (period_mins <- lift (int env period) ;;
     let period_seconds := period_mins * 60 in
     let end_time := utcnow env in
     start_time <- lift (datetime_sub env end_time (minutes period_mins)) ;;
     response <-
       (let args := {| Namespace := namespace;
                       MetricName := metric_name;
                       Dimensions := [];
                       StartTime := start_time;
                       EndTime := end_time;
                       Period := period_seconds;
                       Statistics := ["Average"; "Maximum"; "Minimum"] |}
        in external (CGetMetricStatistics args)
                    (get_metric_statistics env args)) ;;
     let datapoints := default [] (Datapoints response) in
     sorted_datapoints <- lift (sorted by_timestamp datapoints) ;;
     formatted_datapoints <-
       lift (for_each statistics_point sorted_datapoints) ;;
     lift (json_dumps (PList formatted_datapoints)))
    (error_text "Error accessing CloudWatch metrics: ").

Definition invocations_point (point : Datapoint) : result pyobj :=
  and_then (getitem "Timestamp" (Timestamp point)) (fun t =>
  Ok (PDict [ ("Timestamp", PStr (strftime env t));
              ("Invocations", PNum (default (Int 0) (Sum point))) ])).

Definition default_days : Z := 1.

Definition get_lambda_invocations (function_name : string) (n_days : Z)
  : M (list call) output :=
  try_except
    (let end_time := utcnow env in
     start_time <- lift (datetime_sub env end_time (days n_days)) ;;
     response <-
       (let args := {| Namespace := "AWS/Lambda";
                       MetricName := "Invocations";
                       Dimensions := [("FunctionName", function_name)];
                       StartTime := start_time;
                       EndTime := end_time;
                       Period := 3600;
                       Statistics := ["Sum"] |}
        in external (CGetMetricStatistics args)
                    (get_metric_statistics env args)) ;;
     let datapoints := default [] (Datapoints response) in
     sorted_datapoints <- lift (sorted by_timestamp datapoints) ;;
     formatted_datapoints <-
       lift (for_each invocations_point sorted_datapoints) ;;
     lift (json_dumps (PList formatted_datapoints)))
    (error_text "Error getting Lambda invocations: ").

(** **** EC2 *)

(** [next((tag.get('Value') for tag in tags if tag.get('Key') == 'Name'),
    ""]. *)
Fixpoint name_of_tags (tags : list Tag) : pyobj :=
  match tags with
  | [] => PStr ""
  | tag :: tags' =>
      match tag_Key tag with
      | Some k => if String.eqb k "Name" then opt_str (tag_Value tag)
                  else name_of_tags tags'
      | None => name_of_tags tags'
      end
  end.

Definition instance_entry (instance : Instance) : pyobj :=
  PDict [ ("InstanceId", opt_str (InstanceId instance));
          ("InstanceType", opt_str (InstanceType instance));
          ("State", opt_str (mjoin (State instance)));
          ("PublicIpAddress", opt_str (PublicIpAddress instance));
          ("PrivateIpAddress", opt_str (PrivateIpAddress instance));
          ("Name", name_of_tags (default [] (Tags instance))) ].

Definition list_ec2_instances : M (list call) output :=
  try_except
    (response <- external CDescribeInstances (describe_instances env) ;;
     let instances :=
       concat (map (fun reservation =>
                      map instance_entry
                          (default [] (Instances reservation)))
                   (default [] (Reservations response))) in
     lift (json_dumps (PList instances)))
    (error_text "Error listing EC2 instances: ").

Definition get_ec2_status (instance_id : string) : M (list call) output :=
  try_except
    (response <- external (CDescribeInstanceStatus [instance_id])
                          (describe_instance_status env [instance_id]) ;;
     match InstanceStatuses response with
     | None | Some [] =>
         ret (Text ("No status information available for instance: "
                    +:+ instance_id))
     | Some (status :: _) =>
         lift (json_dumps
                 (PDict
                    [ ("InstanceId", opt_str (status_InstanceId status));
                      ("InstanceState",
                       opt_str (mjoin (InstanceState status)));
                      ("InstanceStatus",
                       opt_str (mjoin (InstanceStatus_ status)));
                      ("SystemStatus",
                       opt_str (mjoin (SystemStatus status)));
                      ("Events", PList (default [] (Events status))) ]))
     end)
    (error_text "Error getting EC2 status: ").

End WithEnv.

End Aws.

(** ** Vocabulary and scripted services for the other tools *)

Module AwsCases.

Import Aws.

(** The time of a datapoint that has one. *)
Definition stamp (p : Datapoint) : Z := default 0 (Timestamp p).

(** A datapoint that carries its ['Timestamp']. *)
Definition timed (p : Datapoint) : Prop := is_Some (Timestamp p).

Definition ascending (points : list Datapoint) : Prop :=
  StronglySorted (fun a b => stamp a <= stamp b) points.

(** The entry [get_lambda_invocations] makes of a datapoint, and the
    one [cloudwatch_resource] makes. *)
Definition invocations_entry (env : Env) (p : Datapoint) : pyobj :=
  PDict [ ("Timestamp", PStr (strftime env (stamp p)));
          ("Invocations", PNum (default (Int 0) (Sum p))) ].

Definition statistics_entry (env : Env) (p : Datapoint) : pyobj :=
  PDict [ ("Timestamp", PStr (strftime env (stamp p)));
          ("Average", opt_num (Average p));
          ("Maximum", opt_num (Maximum p));
          ("Minimum", opt_num (Minimum p));
          ("Unit", opt_str (Unit p)) ].

(** A list of elements paired with their keys under [f]. *)
Definition decorated {A} (f : A -> Z) (l : list (Z * A)) : Prop :=
  Forall (fun kx => kx.1 = f kx.2) l.

(** The datapoints in the order of [sorted]. *)
Definition in_time_order (points : list Datapoint) : list Datapoint :=
  map snd (sort_by_key (map (fun p => (stamp p, p)) points)).

(** The arguments of the two metric requests. *)
Definition invocations_args (env : Env) (function_name : string)
    (start_time : Z) : GetMetricStatisticsArgs :=
  {| Namespace := "AWS/Lambda";
     MetricName := "Invocations";
     Dimensions := [("FunctionName", function_name)];
     StartTime := start_time;
     EndTime := utcnow env;
     Period := 3600;
     Statistics := ["Sum"] |}.

Definition statistics_args (env : Env) (namespace metric_name : string)
    (period_mins start_time : Z) : GetMetricStatisticsArgs :=
  {| Namespace := namespace;
     MetricName := metric_name;
     Dimensions := [];
     StartTime := start_time;
     EndTime := utcnow env;
     Period := period_mins * 60;
     Statistics := ["Average"; "Maximum"; "Minimum"] |}.

(** All instances of an answer, reservation after reservation. *)
Definition instances_of (response : DescribeInstancesResponse)
  : list Instance :=
  concat (map (fun r => default [] (Instances r))
              (default [] (Reservations response))).

Definition is_name_tag (tag : Tag) : bool :=
  match tag_Key tag with
  | Some k => String.eqb k "Name"
  | None => false
  end.

Definition object_of_key (k : string) : S3Object := {| Key := Some k |}.

(** *** A scripted AWS *)

Definition point (t : Z) (sum : option number) : Datapoint :=
  {| Timestamp := Some t; Sum := sum; Average := None; Maximum := None;
     Minimum := None; Unit := Some "Count" |}.

Definition three_points : list Datapoint :=
  [ point 300 (Some (Float 3 0)); point 100 None;
    point 200 (Some (Float 2 0)) ].

Definition web : Instance :=
  {| InstanceId := Some "i-01"; InstanceType := Some "t3.micro";
     State := Some (Some "running"); PublicIpAddress := None;
     PrivateIpAddress := Some "10.0.0.4";
     Tags := Some [ {| tag_Key := Some "env"; tag_Value := Some "prod" |};
                    {| tag_Key := Some "Name"; tag_Value := Some "web" |} ] |}.

Definition worker : Instance :=
  {| InstanceId := Some "i-02"; InstanceType := Some "t3.small";
     State := Some (Some "stopped"); PublicIpAddress := None;
     PrivateIpAddress := None; Tags := None |}.

(** A scheduled event as EC2 describes it, with its [NotBefore] time. *)
Definition retirement : pyobj :=
  PDict [ ("Code", PStr "instance-retirement");
          ("Description", PStr "The instance is running on degraded hardware");
          ("NotBefore", PDatetime 1700003600) ].

Definition impaired : InstanceStatus :=
  {| status_InstanceId := Some "i-01";
     InstanceState := Some (Some "running");
     InstanceStatus_ := Some (Some "impaired");
     SystemStatus := Some (Some "ok");
     Events := Some [retirement] |}.

(** Seconds since the epoch, printed as they are; subtraction that
    never overflows; decimal [int] for the periods of the examples. *)
Definition aws (datapoints : option (list Datapoint))
    (statuses : option (list InstanceStatus)) : Env :=
  {| utcnow := 1700000000;
     datetime_sub := fun t d =>
       match d with
       | days n => Ok (t - n * 86400)
       | minutes n => Ok (t - n * 60)
       end;
     strftime := fun t => pretty t;
     int := fun s =>
       if String.eqb s "5" then Ok 5
       else if String.eqb s "60" then Ok 60
       else Raise (Exn "ValueError"
                     ("invalid literal for int() with base 10: '" +:+ s
                      +:+ "'"));
     list_objects_v2 := fun _ _ =>
       Ok {| Contents := Some [object_of_key "a"; object_of_key "b"];
             IsTruncated := Some true;
             NextContinuationToken := Some "token-2" |};
     head_object := fun _ _ =>
       Ok {| ContentLength := Some (Int 12); ContentType := None;
             LastModified := None; Metadata := None;
             StorageClass := None; ETag := Some "etag" |};
     get_metric_statistics := fun _ =>
       Ok {| Datapoints := datapoints |};
     describe_instances :=
       Ok {| Reservations :=
               Some [ {| Instances := Some [web] |};
                      {| Instances := None |};
                      {| Instances := Some [worker] |} ];
             NextToken := Some "page-2" |};
     describe_instance_status := fun _ =>
       Ok {| InstanceStatuses := statuses |} |}.

Definition configured : gmap string string :=
  {[ "AWS_ACCESS_KEY_ID" := "AKIA"; "AWS_SECRET_ACCESS_KEY" := "s3cr3t" ]}.

Definition half_configured : gmap string string :=
  {[ "AWS_ACCESS_KEY_ID" := "AKIA"; "AWS_SECRET_ACCESS_KEY" := "";
     "AWS_SESSION_TOKEN" := "tok" ]}.

End AwsCases.

(** ** src/gdrive_mcp_server.py: reading files and sheets *)

Module GDriveRest.

Import GDrive.

Record FileReadRequest := { fileId : string }.

(** [SheetsReadRequest]; [ranges] and [sheetId] are optional. *)
Record SheetsReadRequest := {
  spreadsheetId : string;
  ranges : option (list string);
  sheetId : option Z
}.

(** The answer of [files().get]: the metadata, of which the code reads
    ['name']. *)
Record FileMetadata := { name : option string }.

Record BatchGetResponse := { valueRanges : option (list Aws.pyobj) }.

Record ValuesResponse := { values : option (list Aws.pyobj) }.

Record ReadResult := { filename : string; content : string }.

Inductive SheetsResult :=
| ValueRanges (l : list Aws.pyobj)
| Values (rows : list Aws.pyobj).

(** The requests of these endpoints; [Base] are those of the
    credential provider and of [build]. *)
Inductive call :=
| Base (c : GDrive.call)
| CFilesGet (file_id : string)
| CNextChunk (file_id : string)
| CValuesBatchGet (spreadsheet_id : string) (ranges : list string)
| CValuesGet (spreadsheet_id range : string).

Record World := { fs : gmap string string; calls : list call }.

Definition is_chunk (c : call) : bool :=
  match c with CNextChunk _ => true | _ => false end.

Definition chunks_fetched (log : list call) : nat :=
  length (List.filter is_chunk log).

(** Google: the part behind the credential provider, the Drive and
    Sheets services, and the decoder of [bytes.decode('utf-8')].
    [next_chunk] gives what the downloader appends to the buffer at its
    [n]-th call and whether the download is done. *)
Record Env := {
  auth : GDrive.Env;
  files_get_execute : string -> result FileMetadata;
  next_chunk : string -> nat -> result (string * bool);
  decode_utf8 : string -> result string;
  values_batchGet_execute : string -> list string -> result BatchGetResponse;
  values_get_execute : string -> string -> result ValuesResponse
}.

(** A computation of the credential provider, run in this world: its
    requests are added to the log, its files are the files. *)
Definition base {A} (c : M GDrive.World A) : M World A :=
  fun w =>
    match c {| GDrive.fs := fs w; GDrive.calls := [] |} with
    | (r, w') =>
        (r, {| fs := GDrive.fs w';
               calls := calls w ++ map Base (GDrive.calls w') |})
    end.

Definition external {A} (c : call) (answer : list call -> result A)
  : M World A :=
  fun w => (answer (calls w), {| fs := fs w; calls := calls w ++ [c] |}).

Definition http_500 {A} (e : exn) : M World A :=
  raise (HTTPException 500 (exn_str e)).

Section WithEnv.

Variable env : Env.

(** [while not done: status, done = downloader.next_chunk()], for at
    most [budget] iterations; [fh] is the buffer. *)
Fixpoint download (budget : nat) (file_id : string) (fh : string)
    (done : bool) : M World string :=
  if done then ret fh
  else
    match budget with
    | O => lift Spin
    | S budget' =>
        chunk <- external (CNextChunk file_id)
                   (fun log => next_chunk env file_id (chunks_fetched log)) ;;
        download budget' file_id (fh +:+ fst chunk) (snd chunk)
    end.

Definition gdrive_read_file (budget : nat) (request : FileReadRequest)
  : M World ReadResult :=
  try_except
    (creds <- base (get_google_credentials (auth env)) ;;
     base (GDrive.external (CBuild "drive" "v3")
             (build (auth env) "drive" "v3" creds)) ;;;
     file <- external (CFilesGet (fileId request))
               (fun _ => files_get_execute env (fileId request)) ;;
     fh <- download budget (fileId request) "" false ;;
     content <- lift (decode_utf8 env fh) ;;
     file_name <- lift (getitem "name" (name file)) ;;
     ret {| filename := file_name; content := content |})
    http_500.

(** Truth value of [request.ranges]: a list that is there and not
    empty. *)
Definition given (ranges : option (list string)) : bool :=
  match ranges with
  | Some (_ :: _) => true
  | _ => false
  end.

Definition gsheets_read (request : SheetsReadRequest)
  : M World SheetsResult :=
  try_except
    (creds <- base (get_google_credentials (auth env)) ;;
     base (GDrive.external (CBuild "sheets" "v4")
             (build (auth env) "sheets" "v4" creds)) ;;;
     if given (ranges request) then
       result <- external (CValuesBatchGet (spreadsheetId request)
                             (default [] (ranges request)))
                   (fun _ => values_batchGet_execute env
                               (spreadsheetId request)
                               (default [] (ranges request))) ;;
       ret (ValueRanges (default [] (valueRanges result)))
     else
       result <- external (CValuesGet (spreadsheetId request) "A1:ZZ")
                   (fun _ => values_get_execute env
                               (spreadsheetId request) "A1:ZZ") ;;
       ret (Values (default [] (values result))))
    http_500.

End WithEnv.

(** *** Vocabulary and a scripted Drive *)

(** The downloader hands over [chunks], one per call from [log] on,
    and reports done with the last of them. *)
Definition hands_over (env : Env) (file_id : string) (log : list call)
    (chunks : list string) : Prop :=
  forall (i : nat) (bytes : string),
    chunks !! i = Some bytes ->
    next_chunk env file_id (chunks_fetched log + i)
    = Ok (bytes, bool_decide (S i = length chunks)).

Definition joined (chunks : list string) : string :=
  foldl (fun fh bytes => fh +:+ bytes) "" chunks.

(** What the provider and [build] add to the log of a world. *)
Definition after_base (w : World) (wa : GDrive.World) (service version : string)
  : World :=
  {| fs := GDrive.fs wa;
     calls := (calls w ++ map Base (GDrive.calls wa))
              ++ [Base (CBuild service version)] |}.

Definition start (c : Credentials) : World :=
  {| fs := {[ "token.json" := render c ]}; calls := [] |}.

(** A Drive that serves one file in the given chunks and refuses to
    decode what is not the text ["hello world"]. *)
Definition drive (chunks : list string) : Env :=
  {| auth := google true (Ok no_files);
     files_get_execute := fun _ => Ok {| name := Some "notes.txt" |};
     next_chunk := fun _ n =>
       match chunks !! n with
       | Some bytes => Ok (bytes, bool_decide (S n = length chunks))
       | None => Raise (Exn "HttpError" "range not satisfiable")
       end;
     decode_utf8 := fun fh =>
       if String.eqb fh "hello world" then Ok fh
       else Raise (Exn "UnicodeDecodeError"
                     "'utf-8' codec can't decode byte 0x89 in position 0: invalid start byte");
     values_batchGet_execute := fun _ _ =>
       Ok {| valueRanges := None |};
     values_get_execute := fun _ _ =>
       Ok {| values := Some [Aws.PList [Aws.PStr "a"; Aws.PStr "b"]] |} |}.

End GDriveRest.

(** ** src/server.py: the remaining resources and tools *)

Module AwsRest.

(** *** Objects and [json.dumps]

    The answers of these services can hold [bytes] (a binary DynamoDB
    attribute) and [datetime] values; the encoder refuses both, and
    names the class of the first one it meets.  A [VDict] lists the
    entries of a dictionary in their order, under the keys as they are
    written out. *)
#[local] Unset Elimination Schemes.
Inductive pyval :=
| VNone
| VBool (b : bool)
| VNum (n : number)
| VStr (s : string)
| VBytes (b : string)
| VDatetime (t : Z)
| VList (l : list pyval)
| VDict (d : list (string * pyval)).
#[local] Set Elimination Schemes.

(** The class of the first object the encoder cannot write, if any. *)
Fixpoint refused (o : pyval) : option string :=
  match o with
  | VBytes _ => Some "bytes"
  | VDatetime _ => Some "datetime"
  | VList l =>
      (fix go (l : list pyval) : option string :=
         match l with
         | [] => None
         | x :: l' => match refused x with
                      | Some c => Some c
                      | None => go l'
                      end
         end) l
  | VDict d =>
      (fix go (d : list (string * pyval)) : option string :=
         match d with
         | [] => None
         | kv :: d' => match refused (snd kv) with
                       | Some c => Some c
                       | None => go d'
                       end
         end) d
  | _ => None
  end.

Inductive output :=
| Dumps (o : pyval)
| Text (s : string).

(** [json.dumps(o, indent=2)]. *)
Definition json_dumps (o : pyval) : result output :=
  match refused o with
  | None => Ok (Dumps o)
  | Some c =>
      Raise (Exn "TypeError"
               ("Object of type " +:+ c +:+ " is not JSON serializable"))
  end.

(** [d.get(k)]: the value, or [None]. *)
Definition opt (o : option pyval) : pyval := default VNone o.

(** *** Answers *)

(** ['Body'] is a stream; reading it gives the bytes or fails. *)
Record GetObjectResponse := { Body : option (result string) }.

Record GetItemResponse := { Item : option pyval }.

Record ListTablesResponse := { TableNames : option pyval }.

Record QueryResponse := { Items : option pyval }.

Record ProvisionedThroughputDescription := {
  ReadCapacityUnits : option pyval;
  WriteCapacityUnits : option pyval
}.

Record TableDescription := {
  TableName : option pyval;
  TableStatus : option pyval;
  ProvisionedThroughput : option ProvisionedThroughputDescription;
  KeySchema : option pyval;
  ItemCount : option pyval;
  CreationDateTime : option Z;
  TableSizeBytes : option pyval
}.

Record DescribeTableResponse := { Table : option TableDescription }.

Record Metric := {
  MetricName : option pyval;
  Namespace : option pyval;
  Dimensions : option pyval
}.

Record ListMetricsResponse := { Metrics : option (list Metric) }.

Record MetricAlarm := {
  AlarmName : option pyval;
  AlarmDescription : option pyval;
  StateValue : option pyval;
  alarm_MetricName : option pyval;
  alarm_Namespace : option pyval;
  Threshold : option pyval;
  ComparisonOperator : option pyval
}.

Record DescribeAlarmsResponse := { MetricAlarms : option (list MetricAlarm) }.

Record EnvironmentResponse := { Variables : option pyval }.

Record FunctionConfiguration := {
  FunctionName : option pyval;
  Runtime : option pyval;
  Handler : option pyval;
  CodeSize : option pyval;
  Description : option pyval;
  Timeout : option pyval;
  MemorySize : option pyval;
  LastModified : option pyval;
  Role_ : option pyval;
  Environment : option EnvironmentResponse
}.

Record GetFunctionResponse := { Configuration : option FunctionConfiguration }.

Record ListFunctionsResponse := {
  Functions : option (list FunctionConfiguration)
}.

Record SecurityGroup := { GroupName : option pyval }.

Record Tag := { Key : option string; Value : option pyval }.

Record InstanceState := { Name : option pyval }.

Record Instance := {
  InstanceId : option pyval;
  InstanceType : option pyval;
  State : option InstanceState;
  LaunchTime : option Z;
  PublicIpAddress : option pyval;
  PrivateIpAddress : option pyval;
  SecurityGroups : option (list SecurityGroup);
  Tags : option (list Tag)
}.

Record Reservation := { Instances : option (list Instance) }.

Record DescribeInstancesResponse := {
  Reservations : option (list Reservation)
}.

Record Role := {
  RoleName : option pyval;
  RoleId : option pyval;
  Arn : option pyval;
  Path : option pyval;
  CreateDate : option Z;
  AssumeRolePolicyDocument : option pyval
}.

Record GetRoleResponse := { Role_of : option Role }.

Record ListRolesResponse := { Roles : option (list Role) }.

Record AttachedPolicy := {
  PolicyName : option pyval;
  PolicyArn : option pyval
}.

Record ListAttachedRolePoliciesResponse := {
  AttachedPolicies : option (list AttachedPolicy)
}.

Record LogGroup := {
  logGroupName : option pyval;
  storedBytes : option pyval;
  creationTime : option Z;
  retentionInDays : option pyval
}.

Record DescribeLogGroupsResponse := { logGroups : option (list LogGroup) }.

Inductive call :=
| CGetObject (bucket key : string)
| CGetItem (table key_name key_value : string)
| CListTables
| CQuery (table key_condition_expression value : string) (limit : Z)
| CDescribeTable (table : string)
| CListMetrics (namespace : string)
| CDescribeAlarms
| CGetFunction (function_name : string)
| CListFunctions
| CDescribeInstances (instance_ids : list string)
| CGetRole (role_name : string)
| CListRoles
| CListAttachedRolePolicies (role_name : string)
| CDescribeLogGroups.

(** The libraries ([strftime] with its format; [fromtimestamp] applied
    to a number of milliseconds divided by 1000, in local time; the
    UTF-8 decoder) and the clients. *)
Record Env := {
  strftime : string -> Z -> string;
  fromtimestamp_of_ms : Z -> result Z;
  decode_utf8 : string -> result string;
  get_object : string -> string -> result GetObjectResponse;
  get_item : string -> string -> string -> result GetItemResponse;
  list_tables : result ListTablesResponse;
  query : string -> string -> string -> Z -> result QueryResponse;
  describe_table : string -> result DescribeTableResponse;
  list_metrics : string -> result ListMetricsResponse;
  describe_alarms : result DescribeAlarmsResponse;
  get_function : string -> result GetFunctionResponse;
  list_functions : result ListFunctionsResponse;
  describe_instances : list string -> result DescribeInstancesResponse;
  get_role : string -> result GetRoleResponse;
  list_roles : result ListRolesResponse;
  list_attached_role_policies :
    string -> result ListAttachedRolePoliciesResponse;
  describe_log_groups : result DescribeLogGroupsResponse
}.

Definition external {A} (c : call) (answer : result A) : M (list call) A :=
  fun log => (answer, log ++ [c]).

Definition error_text (prefix : string) (e : exn) : M (list call) output :=
  ret (Text (prefix +:+ exn_str e)).

Definition datetime_format : string := "%Y-%m-%d %H:%M:%S".

(** A dictionary whose keys may be [None], as the comprehension over
    the tags builds it, and the way the encoder writes it. *)
Fixpoint odict_set (k : option string) (v : pyval)
    (d : list (option string * pyval)) : list (option string * pyval) :=
  match d with
  | [] => [(k, v)]
  | (k', v') :: d' =>
      if decide (k' = k) then (k', v) :: d'
      else (k', v') :: odict_set k v d'
  end.

Definition written (d : list (option string * pyval)) : pyval :=
  VDict (map (fun kv => (default "null" (fst kv), snd kv)) d).

Section WithEnv.

Variable env : Env.

(** **** S3 *)

Definition s3_resource (bucket key : string) : M (list call) output :=
  try_except
    (response <- external (CGetObject bucket key)
                          (get_object env bucket key) ;;
     body <- lift (getitem "Body" (Body response)) ;;
     bytes <- lift body ;;
     content <- lift (decode_utf8 env bytes) ;;
     ret (Text content))
    (error_text "Error accessing S3: ").

(** **** DynamoDB *)

Definition dynamodb_resource (table key_name key_value : string)
  : M (list call) output :=
  try_except
    (response <- external (CGetItem table key_name key_value)
                          (get_item env table key_name key_value) ;;
     let item := default (VDict []) (Item response) in
     lift (json_dumps item))
    (error_text "Error accessing DynamoDB: ").

Definition list_dynamodb_tables : M (list call) output :=
  try_except
    (response <- external CListTables (list_tables env) ;;
     let tables := default (VList []) (TableNames response) in
     lift (json_dumps tables))
    (error_text "Error listing DynamoDB tables: ").

Definition default_limit : Z := 10.

Definition query_dynamodb (table key_name key_value : string) (limit : Z)
  : M (list call) output :=
  try_except
    (response <-
       external (CQuery table (key_name +:+ " = :value") key_value limit)
                (query env table (key_name +:+ " = :value") key_value limit) ;;
     let items := default (VList []) (Items response) in
     lift (json_dumps items))
    (error_text "Error querying DynamoDB: ").

Definition no_table : TableDescription :=
  {| TableName := None; TableStatus := None; ProvisionedThroughput := None;
     KeySchema := None; ItemCount := None; CreationDateTime := None;
     TableSizeBytes := None |}.

Definition describe_dynamodb_table (table : string) : M (list call) output :=
  try_except
    (response <- external (CDescribeTable table)
                          (describe_table env table) ;;
     let table_info := default no_table (Table response) in
     let info :=
       VDict
         [ ("TableName", opt (TableName table_info));
           ("Status", opt (TableStatus table_info));
           ("ProvisionedThroughput",
            VDict
              [ ("ReadCapacityUnits",
                 opt (ProvisionedThroughput table_info
                        ≫= ReadCapacityUnits));
                ("WriteCapacityUnits",
                 opt (ProvisionedThroughput table_info
                        ≫= WriteCapacityUnits)) ]);
           ("KeySchema", default (VList []) (KeySchema table_info));
           ("ItemCount", opt (ItemCount table_info));
           ("CreationDateTime",
            match CreationDateTime table_info with
            | Some t => VStr (strftime env datetime_format t)
            | None => VNone
            end);
           ("TableSizeBytes", opt (TableSizeBytes table_info)) ] in
     lift (json_dumps info))
    (error_text "Error describing DynamoDB table: ").

(** **** CloudWatch *)

Definition list_cloudwatch_metrics (namespace : string)
  : M (list call) output :=
  try_except
    (response <- external (CListMetrics namespace)
                          (list_metrics env namespace) ;;
     let metrics := default [] (Metrics response) in
     let formatted_metrics :=
       map (fun metric =>
              VDict [ ("MetricName", opt (MetricName metric));
                      ("Namespace", opt (Namespace metric));
                      ("Dimensions",
                       default (VList []) (Dimensions metric)) ])
           metrics in
     lift (json_dumps (VList formatted_metrics)))
    (error_text "Error listing CloudWatch metrics: ").

Definition get_cloudwatch_alarms : M (list call) output :=
  try_except
    (response <- external CDescribeAlarms (describe_alarms env) ;;
     let alarms := default [] (MetricAlarms response) in
     let formatted_alarms :=
       map (fun alarm =>
              VDict [ ("AlarmName", opt (AlarmName alarm));
                      ("AlarmDescription", opt (AlarmDescription alarm));
                      ("StateValue", opt (StateValue alarm));
                      ("MetricName", opt (alarm_MetricName alarm));
                      ("Namespace", opt (alarm_Namespace alarm));
                      ("Threshold", opt (Threshold alarm));
                      ("ComparisonOperator",
                       opt (ComparisonOperator alarm)) ])
           alarms in
     lift (json_dumps (VList formatted_alarms)))
    (error_text "Error getting CloudWatch alarms: ").

(** **** Lambda *)

Definition no_configuration : FunctionConfiguration :=
  {| FunctionName := None; Runtime := None; Handler := None;
     CodeSize := None; Description := None; Timeout := None;
     MemorySize := None; LastModified := None; Role_ := None;
     Environment := None |}.

Definition lambda_resource (function_name : string) : M (list call) output :=
  try_except
    (response <- external (CGetFunction function_name)
                          (get_function env function_name) ;;
     let configuration :=
       default no_configuration (Configuration response) in
     let info :=
       VDict
         [ ("FunctionName", opt (FunctionName configuration));
           ("Runtime", opt (Runtime configuration));
           ("Handler", opt (Handler configuration));
           ("CodeSize", opt (CodeSize configuration));
           ("Description", opt (Description configuration));
           ("Timeout", opt (Timeout configuration));
           ("MemorySize", opt (MemorySize configuration));
           ("LastModified", opt (LastModified configuration));
           ("Role", opt (Role_ configuration));
           ("Environment",
            default (VDict [])
                    (Environment configuration ≫= Variables)) ] in
     lift (json_dumps info))
    (error_text "Error accessing Lambda function: ").

Definition list_lambda_functions : M (list call) output :=
  try_except
    (response <- external CListFunctions (list_functions env) ;;
     let functions := default [] (Functions response) in
     let formatted_functions :=
       map (fun function =>
              VDict [ ("FunctionName", opt (FunctionName function));
                      ("Runtime", opt (Runtime function));
                      ("Handler", opt (Handler function));
                      ("LastModified", opt (LastModified function));
                      ("MemorySize", opt (MemorySize function));
                      ("Timeout", opt (Timeout function)) ])
           functions in
     lift (json_dumps (VList formatted_functions)))
    (error_text "Error listing Lambda functions: ").

(** **** EC2 *)

(** [response['Reservations'][0]['Instances'][0]], the list of
    reservations being non-empty. *)
Definition first_instance (reservation : Reservation) : result Instance :=
  and_then (getitem "Instances" (Instances reservation)) (fun instances =>
  match instances with
  | instance :: _ => Ok instance
  | [] => Raise (Exn "IndexError" "list index out of range")
  end).

Definition ec2_resource (instance_id : string) : M (list call) output :=
  try_except
    (response <- external (CDescribeInstances [instance_id])
                          (describe_instances env [instance_id]) ;;
     match Reservations response with
     | None | Some [] =>
         ret (Text ("No instance found with ID: " +:+ instance_id))
     | Some (reservation :: _) =>
         instance <- lift (first_instance reservation) ;;
         let info :=
           VDict
             [ ("InstanceId", opt (InstanceId instance));
               ("InstanceType", opt (InstanceType instance));
               ("State", opt (State instance ≫= Name));
               ("LaunchTime",
                match LaunchTime instance with
                | Some t => VStr (strftime env datetime_format t)
                | None => VNone
                end);
               ("PublicIpAddress", opt (PublicIpAddress instance));
               ("PrivateIpAddress", opt (PrivateIpAddress instance));
               ("SecurityGroups",
                VList (map (fun sg => opt (GroupName sg))
                           (default [] (SecurityGroups instance))));
               ("Tags",
                written
                  (foldl (fun d tag => odict_set (Key tag) (opt (Value tag)) d)
                         [] (default [] (Tags instance)))) ] in
         lift (json_dumps info)
     end)
    (error_text "Error accessing EC2 instance: ").

(** **** IAM *)

Definition no_role : Role :=
  {| RoleName := None; RoleId := None; Arn := None; Path := None;
     CreateDate := None; AssumeRolePolicyDocument := None |}.

Definition iam_role_resource (role_name : string) : M (list call) output :=
  try_except
    (response <- external (CGetRole role_name) (get_role env role_name) ;;
     let role := default no_role (Role_of response) in
     let info :=
       VDict
         [ ("RoleName", opt (RoleName role));
           ("RoleId", opt (RoleId role));
           ("Arn", opt (Arn role));
           ("Path", opt (Path role));
           ("CreateDate",
            match CreateDate role with
            | Some t => VStr (strftime env datetime_format t)
            | None => VNone
            end);
           ("AssumeRolePolicyDocument",
            opt (AssumeRolePolicyDocument role)) ] in
     lift (json_dumps info))
    (error_text "Error accessing IAM role: ").

Definition list_iam_roles : M (list call) output :=
  try_except
    (response <- external CListRoles (list_roles env) ;;
     let roles := default [] (Roles response) in
     let formatted_roles :=
       map (fun role =>
              VDict [ ("RoleName", opt (RoleName role));
                      ("Path", opt (Path role));
                      ("Created",
                       match CreateDate role with
                       | Some t => VStr (strftime env "%Y-%m-%d" t)
                       | None => VNone
                       end) ])
           roles in
     lift (json_dumps (VList formatted_roles)))
    (error_text "Error listing IAM roles: ").

Definition list_iam_policies (role_name : string) : M (list call) output :=
  try_except
    (response <- external (CListAttachedRolePolicies role_name)
                          (list_attached_role_policies env role_name) ;;
     let policies := default [] (AttachedPolicies response) in
     let formatted_policies :=
       map (fun policy =>
              VDict [ ("PolicyName", opt (PolicyName policy));
                      ("PolicyArn", opt (PolicyArn policy)) ])
           policies in
     lift (json_dumps (VList formatted_policies)))
    (error_text "Error listing IAM policies: ").

(** **** CloudWatch Logs *)

Definition log_group_entry (group : LogGroup) : result pyval :=
  and_then (fromtimestamp_of_ms env (default 0 (creationTime group)))
    (fun created =>
       Ok (VDict
             [ ("logGroupName", opt (logGroupName group));
               ("storedBytes", opt (storedBytes group));
               ("creationTime", VStr (strftime env datetime_format created));
               ("retentionInDays",
                default (VStr "Never Expire") (retentionInDays group)) ])).

Definition list_cloudwatch_log_groups : M (list call) output :=
  try_except
    (response <- external CDescribeLogGroups (describe_log_groups env) ;;
     let log_groups := default [] (logGroups response) in
     formatted_groups <- lift (Aws.for_each log_group_entry log_groups) ;;
     lift (json_dumps (VList formatted_groups)))
    (error_text "Error listing CloudWatch log groups: ").

End WithEnv.

End AwsRest.

(** ** src/gdrive_mcp_server.py: updating a cell *)

Module GDriveCell.

Import GDrive.

Record SheetsUpdateRequest := {
  fileId : string;
  range : string;
  value : string
}.

Record UpdateValuesResponse := {
  updatedRange : option Aws.pyobj;
  updatedCells : option Aws.pyobj
}.

(** The dictionary the endpoint returns. *)
Record UpdateResult := {
  result_updatedRange : option Aws.pyobj;
  result_updatedCells : option Aws.pyobj
}.

Inductive call :=
| Base (c : GDrive.call)
| CValuesUpdate (spreadsheet_id range value_input_option : string)
                (values : list (list string)).

Record World := { fs : gmap string string; calls : list call }.

Record Env := {
  auth : GDrive.Env;
  values_update_execute :
    string -> string -> string -> list (list string)
    -> result UpdateValuesResponse
}.

Definition base {A} (c : M GDrive.World A) : M World A :=
  fun w =>
    match c {| GDrive.fs := fs w; GDrive.calls := [] |} with
    | (r, w') =>
        (r, {| fs := GDrive.fs w';
               calls := calls w ++ map Base (GDrive.calls w') |})
    end.

Definition external {A} (c : call) (answer : result A) : M World A :=
  fun w => (answer, {| fs := fs w; calls := calls w ++ [c] |}).

Definition http_500 {A} (e : exn) : M World A :=
  raise (HTTPException 500 (exn_str e)).

Section WithEnv.

Variable env : Env.

Definition gsheets_update_cell (request : SheetsUpdateRequest)
  : M World UpdateResult :=
  try_except
    (creds <- base (get_google_credentials (auth env)) ;;
     base (GDrive.external (CBuild "sheets" "v4")
             (build (auth env) "sheets" "v4" creds)) ;;;
     let body := [[value request]] in
     result <- external (CValuesUpdate (fileId request) (range request)
                           "RAW" body)
                 (values_update_execute env (fileId request)
                    (range request) "RAW" body) ;;
     ret {| result_updatedRange := updatedRange result;
            result_updatedCells := updatedCells result |})
    http_500.

End WithEnv.

End GDriveCell.

(** ** A scripted AWS that is down, for the remaining tools *)

Module RestCases.

Import AwsRest.

Definition no_route : exn := Exn "EndpointConnectionError" "no route".

Definition down : Env :=
  {| strftime := fun _ t => pretty t;
     fromtimestamp_of_ms := fun ms => Ok (ms / 1000);
     decode_utf8 := fun b => Ok b;
     get_object := fun _ _ => Raise no_route;
     get_item := fun _ _ _ => Raise no_route;
     list_tables := Raise no_route;
     query := fun _ _ _ _ => Raise no_route;
     describe_table := fun _ => Raise no_route;
     list_metrics := fun _ => Raise no_route;
     describe_alarms := Raise no_route;
     get_function := fun _ => Raise no_route;
     list_functions := Raise no_route;
     describe_instances := fun _ => Raise no_route;
     get_role := fun _ => Raise no_route;
     list_roles := Raise no_route;
     list_attached_role_policies := fun _ => Raise no_route;
     describe_log_groups := Raise no_route |}.

End RestCases.

(** ** Facts about the Python layer *)

Module PyFacts.

Lemma dict_get_set_eq {V} (k : string) (v : V) (d : dict V) :
  dict_get k (dict_set k v d) = Some v.
Proof.
  induction d as [|[k' v'] d IH]; simpl.
  - by rewrite String.eqb_refl.
  - destruct (String.eqb k' k) eqn:E; simpl; rewrite E; done.
Qed.

Lemma dict_get_set_ne {V} (k j : string) (v : V) (d : dict V) :
  k <> j -> dict_get j (dict_set k v d) = dict_get j d.
Proof.
  intros Hne. induction d as [|[k' v'] d IH]; simpl.
  - destruct (String.eqb k j) eqn:E; [|done].
    apply String.eqb_eq in E. congruence.
  - destruct (String.eqb k' k) eqn:E; simpl.
    + apply String.eqb_eq in E. subst k'.
      destruct (String.eqb k j) eqn:E'; [|done].
      apply String.eqb_eq in E'. congruence.
    + by rewrite IH.
Qed.

Lemma dict_get_None_keys {V} (k : string) (d : dict V) :
  dict_get k d = None <-> k ∉ keys d.
Proof.
  induction d as [|[k' v'] d IH]; simpl.
  - split; [intros _; apply not_elem_of_nil | done].
  - destruct (String.eqb k' k) eqn:E.
    + apply String.eqb_eq in E. subst. split; [done|].
      intros H. exfalso. apply H. left.
    + rewrite IH. apply String.eqb_neq in E.
      rewrite not_elem_of_cons. split; [by intros; split|by intros []].
Qed.

Lemma keys_dict_set {V} (k : string) (v : V) (d : dict V) :
  keys (dict_set k v d) = if bool_decide (k ∈ keys d) then keys d
                          else keys d ++ [k].
Proof.
  induction d as [|[k' v'] d IH]; simpl.
  - done.
  - destruct (String.eqb k' k) eqn:E; simpl.
    + apply String.eqb_eq in E. subst.
      rewrite bool_decide_eq_true_2; [done | left].
    + apply String.eqb_neq in E. fold (keys (dict_set k v d)) (keys d).
      rewrite IH.
      destruct (decide (k ∈ keys d)) as [Hin|Hin].
      * rewrite !bool_decide_eq_true_2; [done | by right | done].
      * rewrite !bool_decide_eq_false_2; [done | | done].
        rewrite not_elem_of_cons. naive_solver.
Qed.

Lemma NoDup_keys_dict_set {V} (k : string) (v : V) (d : dict V) :
  NoDup (keys d) -> NoDup (keys (dict_set k v d)).
Proof.
  intros H. rewrite keys_dict_set. case_bool_decide; [done|].
  apply NoDup_app. split; [done|]. split.
  - intros x Hx Hx'. apply list_elem_of_singleton in Hx'. by subst.
  - apply NoDup_singleton.
Qed.

End PyFacts.

(** ** Facts about src/server.py *)

Module ServerFacts.

Import Server PyFacts.

Lemma count_app (p : call -> bool) (l1 l2 : list call) :
  count p (l1 ++ l2) = (count p l1 + count p l2)%nat.
Proof. unfold count. by rewrite List.filter_app, length_app. Qed.

Lemma fetches_poll_calls (query_id : string) (n : nat) :
  fetches (poll_calls query_id n) = n.
Proof. induction n as [|n IH]; [done|]. simpl. unfold fetches, count in *. simpl. by rewrite IH. Qed.

Lemma sleeps_poll_calls (query_id : string) (n : nat) :
  count is_sleep (poll_calls query_id n) = n.
Proof. induction n as [|n IH]; [done|]. unfold count in *. simpl. by rewrite IH. Qed.

Lemma starts_poll_calls (query_id : string) (n : nat) :
  count is_start (poll_calls query_id n) = 0%nat.
Proof. induction n as [|n IH]; [done|]. unfold count in *. by simpl. Qed.

Lemma poll_calls_snoc (query_id : string) (n : nat) :
  poll_calls query_id (S n)
  = poll_calls query_id n ++ [CSleep 1; CGetQueryResults query_id].
Proof. induction n as [|n IH]; [done|]. simpl in *. by rewrite IH. Qed.

Section Poll.

Variable env : Env.

(** One iteration of the loop, when the guard holds. *)
Lemma poll_step (budget : nat) (query_id : string)
    (response : option GetQueryResultsResponse) (log : list call) :
  loop_guard response = Ok true ->
  poll env (S budget) query_id response log
  = match get_query_results env (fetches log) query_id with
    | Ok r => poll env budget query_id (Some r)
                   (log ++ poll_calls query_id 1)
    | Raise e => (Raise e, log ++ poll_calls query_id 1)
    | Spin => (Spin, log ++ poll_calls query_id 1)
    end.
Proof.
  intros Hg. simpl. unfold bind at 1. unfold lift at 1. rewrite Hg.
  unfold bind, time_sleep, cloudwatch_logs_client_get_query_results, external.
  replace (fetches (log ++ [CSleep 1])) with (fetches log)
    by (unfold fetches; rewrite count_app; unfold count; simpl; lia).
  rewrite <- app_assoc. simpl.
  by destruct (get_query_results env (fetches log) query_id).
Qed.

Lemma poll_exit (budget : nat) (query_id : string)
    (response : option GetQueryResultsResponse) (log : list call) :
  loop_guard response = Ok false ->
  poll env budget query_id response log = (Ok response, log).
Proof. intros Hg. destruct budget; simpl; unfold bind, lift; by rewrite Hg. Qed.

Lemma poll_out_of_budget (query_id : string)
    (response : option GetQueryResultsResponse) (log : list call) :
  loop_guard response = Ok true ->
  poll env 0 query_id response log = (Spin, log).
Proof. intros Hg. simpl. unfold bind, lift. by rewrite Hg. Qed.

Lemma loop_guard_running (r : GetQueryResultsResponse) :
  running r -> loop_guard (Some r) = Ok true.
Proof. unfold running. intros H. simpl. by rewrite H. Qed.

Lemma loop_guard_other (r : GetQueryResultsResponse) (st : string) :
  status r = Some st -> st <> "Running" -> loop_guard (Some r) = Ok false.
Proof.
  intros H Hne. simpl. rewrite H. simpl. f_equal.
  by apply String.eqb_neq.
Qed.

Lemma answers_tail (query_id : string) (log : list call)
    (r : GetQueryResultsResponse) (obs : list GetQueryResultsResponse) :
  answers env query_id log (r :: obs) ->
  get_query_results env (fetches log) query_id = Ok r /\
  answers env query_id (log ++ poll_calls query_id 1) obs.
Proof.
  intros H. split.
  - specialize (H 0%nat r eq_refl). by rewrite Nat.add_0_r in H.
  - intros i r' Hi. specialize (H (S i) r' Hi).
    unfold fetches in *. rewrite count_app.
    replace (count is_fetch (poll_calls query_id 1)) with 1%nat by done.
    by replace (count is_fetch log + 1 + i)%nat
      with (count is_fetch log + S i)%nat by lia.
Qed.

(** While the service keeps answering ["Running"], the loop keeps
    sleeping and fetching: after a prefix [obs] of such answers it has made
    [length obs] iterations and continues from the last of them. *)
Lemma poll_running_prefix (obs : list GetQueryResultsResponse) :
  forall (budget : nat) (query_id : string)
         (response : option GetQueryResultsResponse) (log : list call),
    loop_guard response = Ok true ->
    Forall running obs ->
    answers env query_id log obs ->
    poll env (length obs + budget) query_id response log
    = poll env budget query_id
           (match last obs with Some r => Some r | None => response end)
           (log ++ poll_calls query_id (length obs)).
Proof.
  induction obs as [|r obs IH]; intros budget query_id response log Hg Hrun Hans.
  - simpl. by rewrite app_nil_r.
  - apply Forall_cons in Hrun as [Hr Hrun].
    apply answers_tail in Hans as [Hr0 Hans].
    change (length (r :: obs) + budget)%nat with (S (length obs + budget)).
    rewrite poll_step by done. rewrite Hr0.
    rewrite (IH budget query_id (Some r) _ (loop_guard_running r Hr) Hrun Hans).
    rewrite <- app_assoc. simpl poll_calls at 2 3. simpl app.
    rewrite last_cons. by destruct (last obs).
Qed.

Lemma answers_app_l (query_id : string) (log : list call)
    (obs1 obs2 : list GetQueryResultsResponse) :
  answers env query_id log (obs1 ++ obs2) -> answers env query_id log obs1.
Proof.
  intros H i r Hi. apply H. by apply lookup_app_l_Some.
Qed.

Lemma answers_next (query_id : string) (log : list call)
    (obs : list GetQueryResultsResponse) (final : GetQueryResultsResponse) :
  answers env query_id log (obs ++ [final]) ->
  get_query_results env
    (fetches (log ++ poll_calls query_id (length obs))) query_id = Ok final.
Proof.
  intros H. unfold fetches. rewrite count_app.
  fold (fetches (poll_calls query_id (length obs))).
  rewrite fetches_poll_calls. apply H.
  rewrite lookup_app_r by lia. by rewrite Nat.sub_diag.
Qed.

Lemma last_running_guard (obs : list GetQueryResultsResponse)
    (response : option GetQueryResultsResponse) :
  loop_guard response = Ok true ->
  Forall running obs ->
  loop_guard (match last obs with Some r => Some r | None => response end)
  = Ok true.
Proof.
  intros Hg Hrun. destruct (last obs) as [r|] eqn:E; [|done].
  apply loop_guard_running. rewrite Forall_forall in Hrun. apply Hrun.
  by apply last_Some_elem_of.
Qed.

(** After a prefix of ["Running"] answers the loop is still going. *)
Lemma poll_spin (obs : list GetQueryResultsResponse) (query_id : string)
    (response : option GetQueryResultsResponse) (log : list call) :
  loop_guard response = Ok true ->
  Forall running obs ->
  answers env query_id log obs ->
  poll env (length obs) query_id response log
  = (Spin, log ++ poll_calls query_id (length obs)).
Proof.
  intros Hg Hrun Hans.
  rewrite <- (Nat.add_0_r (length obs)) at 1.
  rewrite poll_running_prefix by done.
  apply poll_out_of_budget. by apply last_running_guard.
Qed.

(** The fetch after the prefix returns a status other than ["Running"]:
    the loop ends there, with that response. *)
Lemma poll_terminal (obs : list GetQueryResultsResponse)
    (final : GetQueryResultsResponse) (st : string) (budget : nat)
    (query_id : string) (response : option GetQueryResultsResponse)
    (log : list call) :
  loop_guard response = Ok true ->
  Forall running obs ->
  status final = Some st -> st <> "Running" ->
  answers env query_id log (obs ++ [final]) ->
  poll env (length obs + S budget) query_id response log
  = (Ok (Some final), log ++ poll_calls query_id (S (length obs))).
Proof.
  intros Hg Hrun Hst Hne Hans.
  rewrite poll_running_prefix by eauto using answers_app_l.
  rewrite poll_step by (by apply last_running_guard).
  rewrite (answers_next _ _ _ _ Hans).
  rewrite poll_exit by eauto using loop_guard_other.
  by rewrite <- app_assoc, (poll_calls_snoc query_id (length obs)).
Qed.

(** The fetch after the prefix fails: the exception leaves the loop. *)
Lemma poll_fetch_raises (obs : list GetQueryResultsResponse) (e : exn)
    (budget : nat) (query_id : string)
    (response : option GetQueryResultsResponse) (log : list call) :
  loop_guard response = Ok true ->
  Forall running obs ->
  answers env query_id log obs ->
  get_query_results env (fetches log + length obs) query_id = Raise e ->
  poll env (length obs + S budget) query_id response log
  = (Raise e, log ++ poll_calls query_id (S (length obs))).
Proof.
  intros Hg Hrun Hans He.
  rewrite poll_running_prefix by done.
  rewrite poll_step by (by apply last_running_guard).
  unfold fetches in *. rewrite count_app.
  fold (fetches (poll_calls query_id (length obs))).
  rewrite fetches_poll_calls, He.
  by rewrite <- app_assoc, (poll_calls_snoc query_id (length obs)).
Qed.

(** The loop only ever sleeps and fetches. *)
Lemma poll_log (budget : nat) :
  forall (query_id : string) (response : option GetQueryResultsResponse)
         (log : list call),
    exists n : nat,
      (n <= budget)%nat /\
      snd (poll env budget query_id response log)
      = log ++ poll_calls query_id n.
Proof.
  induction budget as [|budget IH]; intros query_id response log.
  - exists 0%nat. split; [done|]. simpl. unfold bind, lift.
    destruct (loop_guard response) as [[]| |]; simpl; by rewrite app_nil_r.
  - destruct (loop_guard response) as [[]| |] eqn:Hg.
    + rewrite poll_step by done.
      destruct (get_query_results env (fetches log) query_id) as [r| |].
      * destruct (IH query_id (Some r) (log ++ poll_calls query_id 1))
          as (n & Hn & ->).
        exists (S n). split; [lia|]. by rewrite <- app_assoc.
      * exists 1%nat. split; [lia|done].
      * exists 1%nat. split; [lia|done].
    + exists 0%nat. split; [lia|]. rewrite poll_exit by done.
      simpl. by rewrite app_nil_r.
    + exists 0%nat. split; [lia|]. simpl. unfold bind, lift. rewrite Hg.
      simpl. by rewrite app_nil_r.
    + exists 0%nat. split; [lia|]. simpl. unfold bind, lift. rewrite Hg.
      simpl. by rewrite app_nil_r.
Qed.

(** The tool, once its query has been accepted under [query_id]: the
    poll loop, then the formatting, inside the [try]. *)
Lemma run_accepted (budget : nat) (log_group_name query : string) (hours : Z)
    (query_id : string) (log : list call) :
  start_query env (submitted env log_group_name query hours)
  = Ok {| queryId := Some query_id |} ->
  run_cloudwatch_logs_query env budget log_group_name query hours log
  = match poll env budget query_id None
            (log ++ [CStartQuery (submitted env log_group_name query hours)])
    with
    | (Ok response, log') =>
        (match format_response response with
         | Ok o => Ok o
         | Raise e => Ok (Text (error_prefix +:+ exn_str e))
         | Spin => Spin
         end, log')
    | (Raise e, log') => (Ok (Text (error_prefix +:+ exn_str e)), log')
    | (Spin, log') => (Spin, log')
    end.
Proof.
  intros Hs. unfold run_cloudwatch_logs_query, try_except.
  unfold bind at 1. unfold cloudwatch_logs_client_start_query, external.
  fold (submitted env log_group_name query hours). rewrite Hs.
  unfold bind at 1. unfold lift at 1. simpl getitem. cbv iota beta.
  unfold bind.
  destruct (poll env budget query_id None _) as [[response| |] log']; try done.
  unfold lift. by destruct (format_response response).
Qed.

Lemma answers_after_start (query_id : string) (log : list call)
    (args : StartQueryArgs) (obs : list GetQueryResultsResponse) :
  answers env query_id log obs ->
  answers env query_id (log ++ [CStartQuery args]) obs.
Proof.
  intros H i r Hi. unfold fetches. rewrite count_app.
  replace (count is_fetch [CStartQuery args]) with 0%nat by done.
  rewrite Nat.add_0_r. by apply H.
Qed.

(** The tool on a job that is accepted, answers ["Running"] for a while
    and then something else. *)
Lemma run_terminal (budget : nat) (log_group_name query : string) (hours : Z)
    (query_id : string) (log : list call)
    (obs : list GetQueryResultsResponse) (final : GetQueryResultsResponse)
    (st : string) :
  start_query env (submitted env log_group_name query hours)
  = Ok {| queryId := Some query_id |} ->
  Forall running obs ->
  status final = Some st -> st <> "Running" ->
  answers env query_id log (obs ++ [final]) ->
  (length obs < budget)%nat ->
  run_cloudwatch_logs_query env budget log_group_name query hours log
  = (match format_response (Some final) with
     | Ok o => Ok o
     | Raise e => Ok (Text (error_prefix +:+ exn_str e))
     | Spin => Spin
     end,
     log ++ CStartQuery (submitted env log_group_name query hours)
         :: poll_calls query_id (S (length obs))).
Proof.
  intros Hs Hrun Hst Hne Hans Hb.
  rewrite (run_accepted _ _ _ _ query_id) by done.
  replace budget with (length obs + S (budget - S (length obs)))%nat by lia.
  rewrite (poll_terminal obs final st) by eauto using answers_after_start.
  by rewrite <- app_assoc.
Qed.

End Poll.

(** *** The rows of a completed query *)

Lemma fill_result_dict_pairs (row : list (string * string)) :
  forall result_dict : dict string,
    fill_result_dict (map field_of_pair row) result_dict
    = Ok (foldl (fun d kv => dict_set kv.1 kv.2 d) result_dict row).
Proof.
  induction row as [|[k v] row IH]; intros result_dict; [done|].
  simpl. by rewrite IH.
Qed.

Lemma format_results_pairs (rows : list (list (string * string))) :
  forall results : list (dict string),
    format_results (map (map field_of_pair) rows) results
    = Ok (results ++ map row_dict rows).
Proof.
  induction rows as [|row rows IH]; intros results; simpl.
  - by rewrite app_nil_r.
  - rewrite fill_result_dict_pairs. simpl. rewrite IH.
    by rewrite <- app_assoc.
Qed.

Lemma foldl_dict_set_lookup (row : list (string * string)) :
  forall (d : dict string) (m : gmap string string),
    (forall k, dict_get k d = m !! k) ->
    forall k,
      dict_get k (foldl (fun d kv => dict_set kv.1 kv.2 d) d row)
      = foldl (fun m kv => <[kv.1 := kv.2]> m) m row !! k.
Proof.
  induction row as [|[k0 v0] row IH]; intros d m Hdm k; simpl; [done|].
  apply IH. intros j. destruct (decide (k0 = j)) as [->|Hne].
  - by rewrite dict_get_set_eq, lookup_insert_eq.
  - by rewrite dict_get_set_ne, lookup_insert_ne.
Qed.

Lemma foldl_dict_set_NoDup (row : list (string * string)) :
  forall d : dict string,
    NoDup (keys d) ->
    NoDup (keys (foldl (fun d kv => dict_set kv.1 kv.2 d) d row)).
Proof.
  induction row as [|[k0 v0] row IH]; intros d Hd; simpl; [done|].
  apply IH. by apply NoDup_keys_dict_set.
Qed.

Lemma statistic_default (st : option QueryStatistics)
    (name : QueryStatistics -> option number) :
  statistic st name = default (Int 0) (st ≫= name).
Proof. destruct st as [s|]; [|done]. simpl. by destruct (name s). Qed.

(** *** Failing calls *)

Lemma except_returns_text (prefix : string) (body : M (list call) output)
    (log log' : list call) (e : exn) :
  body log = (Raise e, log') ->
  try_except body (error_text prefix) log
  = (Ok (Text (prefix +:+ exn_str e)), log').
Proof. intros H. unfold try_except. by rewrite H. Qed.

Lemma list_s3_buckets_fails (env : Env) (log : list call) (e : exn) :
  list_buckets env = Raise e ->
  list_s3_buckets env log
  = (Ok (Text ("Error listing S3 buckets: " +:+ exn_str e)),
     log ++ [CListBuckets]).
Proof.
  intros H. apply except_returns_text.
  unfold bind, s3_client_list_buckets, external. by rewrite H.
Qed.

Lemma submission_fails (env : Env) (budget : nat)
    (log_group_name query : string) (hours : Z) (log : list call) (e : exn) :
  start_query env (submitted env log_group_name query hours) = Raise e ->
  run_cloudwatch_logs_query env budget log_group_name query hours log
  = (Ok (Text (error_prefix +:+ exn_str e)),
     log ++ [CStartQuery (submitted env log_group_name query hours)]).
Proof.
  intros H. apply except_returns_text.
  unfold bind, cloudwatch_logs_client_start_query, external.
  fold (submitted env log_group_name query hours). by rewrite H.
Qed.

Lemma fetch_fails (env : Env) (budget : nat)
    (log_group_name query : string) (hours : Z) (query_id : string)
    (log : list call) (obs : list GetQueryResultsResponse) (e : exn) :
  start_query env (submitted env log_group_name query hours)
  = Ok {| queryId := Some query_id |} ->
  Forall running obs ->
  answers env query_id log obs ->
  get_query_results env (fetches log + length obs) query_id = Raise e ->
  (length obs < budget)%nat ->
  run_cloudwatch_logs_query env budget log_group_name query hours log
  = (Ok (Text (error_prefix +:+ exn_str e)),
     log ++ CStartQuery (submitted env log_group_name query hours)
         :: poll_calls query_id (S (length obs))).
Proof.
  intros Hs Hrun Hans He Hb.
  rewrite (run_accepted _ _ _ _ _ query_id) by done.
  replace budget with (length obs + S (budget - S (length obs)))%nat by lia.
  rewrite (poll_fetch_raises env obs e).
  - by rewrite <- app_assoc.
  - done.
  - done.
  - by apply answers_after_start.
  - unfold fetches in *. rewrite count_app.
    replace (count is_fetch [CStartQuery _]) with 0%nat by done.
    by rewrite Nat.add_0_r.
Qed.

(** *** The poll loop *)

(** C1. Whatever the service answers, the loop of
    [run_cloudwatch_logs_query] goes on fetching exactly as long as it
    has no response yet or the last response says ["Running"]: if the
    answers are [obs], all ["Running"], followed by [final] with another
    status, then after any [n <= length obs] iterations the loop is
    still going, having slept and fetched [n] times, and with any larger
    budget it ends with [final] after [length obs + 1] fetches and
    fetches no more. *)
Theorem poll_stops_at_first_non_running (env : Env) (query_id : string)
    (log : list call) (obs : list GetQueryResultsResponse)
    (final : GetQueryResultsResponse) (st : string) :
  Forall running obs ->
  status final = Some st -> st <> "Running" ->
  answers env query_id log (obs ++ [final]) ->
  (forall n : nat, (n <= length obs)%nat ->
     poll env n query_id None log = (Spin, log ++ poll_calls query_id n)) /\
  (forall budget : nat, (length obs < budget)%nat ->
     poll env budget query_id None log
     = (Ok (Some final), log ++ poll_calls query_id (length obs + 1))) /\
  fetches (poll_calls query_id (length obs + 1)) = (length obs + 1)%nat.
Proof.
  intros Hrun Hst Hne Hans. split; [|split].
  - intros n Hn.
    assert (Hlen : length (take n obs) = n) by (rewrite length_take; lia).
    rewrite <- Hlen at 1 2. apply poll_spin; [done | by apply Forall_take |].
    apply answers_app_l with (obs2 := drop n obs ++ [final]).
    by rewrite app_assoc, take_drop.
  - intros budget Hb.
    replace budget with (length obs + S (budget - S (length obs)))%nat by lia.
    rewrite (poll_terminal env obs final st) by done.
    by rewrite Nat.add_1_r.
  - apply fetches_poll_calls.
Qed.

(** The observations Running, Running, Failed: three fetches, then the
    loop is over although seven more iterations were allowed. *)
Lemma poll_running_running_failed :
  poll (scripted [observation "Running"; observation "Running";
                  observation "Failed"]) 10 "q-1" None []
  = (Ok (Some (observation "Failed")), poll_calls "q-1" 3) /\
  fetches (poll_calls "q-1" 3) = 3%nat.
Proof.
  destruct (poll_stops_at_first_non_running
              (scripted [observation "Running"; observation "Running";
                         observation "Failed"])
              "q-1" [] [observation "Running"; observation "Running"]
              (observation "Failed") "Failed") as (_ & Hend & Hfetch).
  - repeat constructor.
  - reflexivity.
  - discriminate.
  - intros i r Hi. destruct i as [|[|[|i]]]; simpl in Hi; inversion Hi;
      reflexivity.
  - split; [apply (Hend 10%nat); simpl; lia | exact Hfetch].
Defined.

(** C3. The loop has no bound of its own: against a service that
    answers ["Running"] to every fetch, after [n] iterations, for every
    [n], the loop is still going and has made [n] fetches; and the tool
    itself has not returned. *)
Theorem poll_never_ends_while_running (env : Env) (query_id : string)
    (log : list call) :
  (forall n : nat, exists r : GetQueryResultsResponse,
      get_query_results env n query_id = Ok r /\ running r) ->
  forall n : nat,
    poll env n query_id None log = (Spin, log ++ poll_calls query_id n) /\
    fetches (log ++ poll_calls query_id n) = (fetches log + n)%nat /\
    (forall (log_group_name query : string) (hours : Z),
        start_query env (submitted env log_group_name query hours)
        = Ok {| queryId := Some query_id |} ->
        fst (run_cloudwatch_logs_query env n log_group_name query hours log)
        = Spin).
Proof.
  intros Hsvc.
  assert (Hspin : forall n response log0,
             loop_guard response = Ok true ->
             poll env n query_id response log0
             = (Spin, log0 ++ poll_calls query_id n)).
  { induction n as [|n IH]; intros response log0 Hg.
    - rewrite poll_out_of_budget by done. by rewrite app_nil_r.
    - rewrite poll_step by done.
      destruct (Hsvc (fetches log0)) as (r & -> & Hr).
      rewrite IH by (by apply loop_guard_running).
      by rewrite <- app_assoc. }
  intros n. split; [by apply Hspin | split].
  - unfold fetches. rewrite count_app.
    fold (fetches (poll_calls query_id n)). by rewrite fetches_poll_calls.
  - intros log_group_name query hours Hs.
    rewrite (run_accepted _ _ _ _ _ query_id) by done.
    by rewrite Hspin.
Qed.

Lemma poll_always_running_1000 :
  poll always_running 1000 "q-1" None [] = (Spin, poll_calls "q-1" 1000) /\
  fetches (poll_calls "q-1" 1000) = 1000%nat /\
  fst (run_cloudwatch_logs_query always_running 1000 "/aws/lambda/app"
         "fields @message" 24 []) = Spin.
Proof.
  destruct (poll_never_ends_while_running always_running "q-1" []) with
    (n := 1000%nat) as (Hp & Hf & Hrun).
  - intros n. exists (observation "Running"). split; reflexivity.
  - split; [exact Hp | split; [exact Hf | apply Hrun; reflexivity]].
Defined.

(** *** What the tool returns *)

Lemma row_dict_after (row : list (string * string)) (k v : string) :
  row_dict (row ++ [(k, v)]) = dict_set k v (row_dict row).
Proof. unfold row_dict. by rewrite foldl_snoc. Qed.

(** The keys of a row's dictionary: the field names, each where it
    occurs first. *)
Lemma keys_row_dict (row : list (string * string)) :
  keys (row_dict row) = reverse (remove_dups (reverse row.*1)).
Proof.
  induction row as [|[k0 v0] row IH] using rev_ind; [done|].
  rewrite row_dict_after, keys_dict_set, fmap_app, reverse_app. simpl.
  rewrite IH.
  destruct (decide_rel elem_of k0 (reverse row.*1)) as [Hin|Hnin].
  - rewrite bool_decide_eq_true_2; [done|].
    by rewrite elem_of_reverse, elem_of_remove_dups.
  - rewrite bool_decide_eq_false_2.
    + by rewrite reverse_cons.
    + by rewrite elem_of_reverse, elem_of_remove_dups.
Qed.

(** A dictionary is its keys, in order, each with the value found
    under it. *)
Lemma dict_by_keys (d : dict string) :
  NoDup (keys d) ->
  map (fun kv => (kv.1, JStr kv.2)) d
  = map (fun k => (k, JStr (default "" (dict_get k d)))) (keys d).
Proof.
  induction d as [|[k v] d IH]; intros Hnd; [done|].
  apply NoDup_cons in Hnd as [Hnin Hnd]. simpl.
  rewrite String.eqb_refl. simpl. f_equal.
  rewrite IH by done. apply map_ext_in. intros k' Hin.
  destruct (String.eqb k k') eqn:E; [|done].
  apply String.eqb_eq in E. subst k'.
  exfalso. apply Hnin. by apply list_elem_of_In.
Qed.

(** What the tool dumps for a row, said with the mapping the row
    denotes. *)
Lemma json_of_row (row : list (string * string)) :
  json_of_dict (row_dict row)
  = JDict (map (fun k => (k, JStr (default "" (row_mapping row !! k))))
               (reverse (remove_dups (reverse row.*1)))).
Proof.
  unfold json_of_dict. f_equal.
  rewrite dict_by_keys
    by (apply foldl_dict_set_NoDup; apply NoDup_nil_2).
  rewrite keys_row_dict. apply map_ext. intros k. do 3 f_equal.
  apply foldl_dict_set_lookup. intros k'. by rewrite lookup_empty.
Qed.

(** C2. When the status that ends the loop is ["Complete"], the tool
    dumps the status, the three statistics, each 0 when the service left
    it out, and the rows in their order.  Each row has become one
    object: its keys are the field names of the row, each once, at the
    place of its first occurrence, and the value under a key is the one
    the row's mapping has there, that mapping being built by one pass
    from left to right in which a later pair with the same field name
    replaces the earlier one.  So the row x=1, x=2 becomes the object
    x=2. *)
Theorem complete_rows_become_mappings (env : Env) (budget : nat)
    (log_group_name query : string) (hours : Z) (query_id : string)
    (log : list call) (obs : list GetQueryResultsResponse)
    (final : GetQueryResultsResponse) (rows : list (list (string * string))) :
  start_query env (submitted env log_group_name query hours)
  = Ok {| queryId := Some query_id |} ->
  Forall running obs ->
  status final = Some "Complete" ->
  default [] (results final) = map (map field_of_pair) rows ->
  answers env query_id log (obs ++ [final]) ->
  (length obs < budget)%nat ->
  fst (run_cloudwatch_logs_query env budget log_group_name query hours log)
  = Ok (Dumps (JDict
      [ ("status", JStr "Complete");
        ("statistics",
         JDict
           [ ("recordsMatched",
              JNum (default (Int 0) (statistics final ≫= recordsMatched)));
             ("recordsScanned",
              JNum (default (Int 0) (statistics final ≫= recordsScanned)));
             ("bytesScanned",
              JNum (default (Int 0) (statistics final ≫= bytesScanned))) ]);
        ("results",
         JList
           (map (fun row : list (string * string) =>
                   JDict
                     (map (fun k : string =>
                             (k, JStr (default "" (row_mapping row !! k))))
                          (reverse (remove_dups (reverse row.*1)))))
                rows)) ])) /\
  (forall row : list (string * string),
      NoDup (keys (row_dict row)) /\
      forall k : string, dict_get k (row_dict row) = row_mapping row !! k) /\
  row_dict [("x", "1"); ("x", "2")] = [("x", "2")] /\
  row_mapping [("x", "1"); ("x", "2")] !! "x" = Some "2".
Proof.
  intros Hs Hrun Hst Hrows Hans Hb. split; [|split; [|split]].
  - rewrite (run_terminal env budget _ _ _ query_id log obs final "Complete")
      by done.
    simpl. rewrite Hst. simpl. rewrite Hrows, format_results_pairs. simpl.
    unfold complete_object. rewrite !statistic_default.
    do 8 f_equal. rewrite <- list_fmap_compose.
    apply map_ext. intros row. simpl. apply json_of_row.
  - intros row. split.
    + apply foldl_dict_set_NoDup. apply NoDup_nil_2.
    + apply foldl_dict_set_lookup. intros k. by rewrite lookup_empty.
  - reflexivity.
  - vm_compute. reflexivity.
Qed.

(** Three rows, the first with a field repeated after another one: the
    repeated field keeps its place and takes the later value; the empty
    row gives the empty object; the two missing statistics are 0. *)
Lemma three_rows_become_objects :
  fst (run_cloudwatch_logs_query
         (scripted [observation "Running"; ServerCases.complete_three_rows])
         5 "/aws/lambda/app" "fields a, b, x" 24 [])
  = Ok (Dumps (JDict
      [ ("status", JStr "Complete");
        ("statistics",
         JDict [ ("recordsMatched", JNum (Int 0));
                 ("recordsScanned", JNum (Float 7 0));
                 ("bytesScanned", JNum (Int 0)) ]);
        ("results",
         JList [ JDict [ ("a", JStr "3"); ("b", JStr "2") ];
                 JDict [ ("x", JStr "2") ];
                 JDict [] ]) ])).
Proof.
  destruct (complete_rows_become_mappings
              (scripted [observation "Running";
                         ServerCases.complete_three_rows]) 5
              "/aws/lambda/app" "fields a, b, x" 24 "q-1" []
              [observation "Running"] ServerCases.complete_three_rows
              [ [("a", "1"); ("b", "2"); ("a", "3")];
                [("x", "1"); ("x", "2")];
                [] ])
    as (Hout & _).
  - reflexivity.
  - repeat constructor.
  - reflexivity.
  - reflexivity.
  - intros i r Hi. destruct i as [|[|i]]; simpl in Hi; inversion Hi;
      reflexivity.
  - simpl; lia.
  - etransitivity; [exact Hout|]. vm_compute. reflexivity.
Defined.

(** C4. When the status that ends the loop is anything but
    ["Complete"], the tool returns, without raising, the dump of an
    object with exactly two entries: that status, and the error text
    "Query did not complete successfully"; there are no rows in it. *)
Theorem other_status_is_reported (env : Env) (budget : nat)
    (log_group_name query : string) (hours : Z) (query_id : string)
    (log : list call) (obs : list GetQueryResultsResponse)
    (final : GetQueryResultsResponse) (st : string) :
  start_query env (submitted env log_group_name query hours)
  = Ok {| queryId := Some query_id |} ->
  Forall running obs ->
  status final = Some st -> st <> "Running" -> st <> "Complete" ->
  answers env query_id log (obs ++ [final]) ->
  (length obs < budget)%nat ->
  fst (run_cloudwatch_logs_query env budget log_group_name query hours log)
  = Ok (Dumps (JDict
      [ ("status", JStr st);
        ("error", JStr "Query did not complete successfully") ])).
Proof.
  intros Hs Hrun Hst Hne Hnc Hans Hb.
  rewrite (run_terminal env budget _ _ _ query_id log obs final st) by done.
  simpl. rewrite Hst. simpl.
  by rewrite (proj2 (String.eqb_neq st "Complete") Hnc).
Qed.

Lemma timeout_status_is_reported :
  fst (run_cloudwatch_logs_query
         (scripted [observation "Running"; observation "Timeout"]) 5
         "/aws/lambda/app" "fields @message" 24 [])
  = Ok (Dumps (JDict
      [ ("status", JStr "Timeout");
        ("error", JStr "Query did not complete successfully") ])).
Proof.
  apply (other_status_is_reported
           (scripted [observation "Running"; observation "Timeout"]) 5
           "/aws/lambda/app" "fields @message" 24 "q-1" []
           [observation "Running"] (observation "Timeout") "Timeout").
  - reflexivity.
  - repeat constructor.
  - reflexivity.
  - discriminate.
  - discriminate.
  - intros i r Hi. destruct i as [|[|i]]; simpl in Hi; inversion Hi;
      reflexivity.
  - simpl; lia.
Defined.

(** C10. Whatever log group, query text and number of hours the caller
    passes, the first thing the tool does is to submit the query with
    [limit] 1000, and it submits nothing else afterwards; no parameter of
    the tool reaches that argument. *)
Theorem query_limit_is_1000 (env : Env) (budget : nat)
    (log_group_name query : string) (hours : Z) (log : list call) :
  exists rest : list call,
    snd (run_cloudwatch_logs_query env budget log_group_name query hours log)
    = log ++ CStartQuery {| logGroupName := log_group_name;
                            startTime := time_time env - hours * 3600;
                            endTime := time_time env;
                            queryString := query;
                            limit := 1000 |} :: rest /\
    count is_start rest = 0%nat.
Proof.
  fold (submitted env log_group_name query hours).
  destruct (start_query env (submitted env log_group_name query hours))
    as [[[query_id|]]|e|] eqn:Hs.
  - rewrite (run_accepted env budget _ _ _ query_id) by done.
    destruct (poll_log env budget query_id None
                (log ++ [CStartQuery (submitted env log_group_name query hours)]))
      as (n & _ & Hlog).
    exists (poll_calls query_id n). split; [|apply starts_poll_calls].
    destruct (poll env budget query_id None _) as [[response| |] log'];
      simpl in *; subst log'; by rewrite <- app_assoc.
  - exists []. split; [|done].
    unfold run_cloudwatch_logs_query, try_except, bind,
      cloudwatch_logs_client_start_query, external.
    fold (submitted env log_group_name query hours). by rewrite Hs.
  - exists []. split; [|done].
    unfold run_cloudwatch_logs_query, try_except, bind,
      cloudwatch_logs_client_start_query, external.
    fold (submitted env log_group_name query hours). by rewrite Hs.
  - exists []. split; [|done].
    unfold run_cloudwatch_logs_query, try_except, bind,
      cloudwatch_logs_client_start_query, external.
    fold (submitted env log_group_name query hours). by rewrite Hs.
Qed.

End ServerFacts.

(** ** Facts about src/gdrive_mcp_server.py *)

Module GDriveFacts.

Import GDrive.

Section Credentials.

Variable env : Env.

(** The function up to the point where the cached credential has been
    loaded. *)
Lemma get_google_credentials_cached (w : World) (content : string)
    (c : Credentials) :
  fs w !! "token.json" = Some content ->
  from_authorized_user_info env content SCOPES = Ok c ->
  get_google_credentials env w
  = if valid c then (Ok c, w)
    else
      bind (if expired c && truthy (refresh_token c)
            then creds_refresh env c
            else bind (InstalledAppFlow_from_client_secrets_file env
                         "credentials.json" SCOPES)
                      (fun flow => flow_run_local_server env flow 0))
           (fun creds' =>
              bind (write_file "token.json" (to_json env creds'))
                   (fun _ => ret creds')) w.
Proof.
  intros Hfile Hparse.
  unfold get_google_credentials. unfold bind at 1. unfold os_path_exists.
  rewrite bool_decide_eq_true_2 by (rewrite Hfile; eauto).
  unfold bind at 1. unfold bind at 1. unfold read_file at 1.
  rewrite Hfile, Hparse. unfold ret at 1.
  by destruct (valid c).
Qed.

Lemma expired_not_valid (c : Credentials) : expired c = true -> valid c = false.
Proof. unfold valid. intros ->. by destruct (token c). Qed.

(** C6. With a valid credential in [token.json],
    [get_google_credentials] returns that credential and leaves the
    world as it was: nothing is asked of the authorization server (no
    refresh, no interactive flow) and nothing is written. *)
Theorem valid_cached_credential_is_returned (w : World) (content : string)
    (c : Credentials) :
  fs w !! "token.json" = Some content ->
  from_authorized_user_info env content SCOPES = Ok c ->
  valid c = true ->
  get_google_credentials env w = (Ok c, w).
Proof.
  intros Hfile Hparse Hvalid.
  rewrite (get_google_credentials_cached w content c) by done.
  by rewrite Hvalid.
Qed.

(** C7. With an expired credential in [token.json] that has a refresh
    token, and an authorization server that accepts the refresh and
    issues [c'], [get_google_credentials] makes that one request,
    returns [c'], still valid as issued, and then writes it to
    [token.json], so that the file holds the serialization of exactly
    the credential returned in place of what was there. *)
Theorem expired_credential_is_refreshed_and_cached (w : World)
    (content : string) (c c' : Credentials) :
  fs w !! "token.json" = Some content ->
  from_authorized_user_info env content SCOPES = Ok c ->
  expired c = true ->
  truthy (refresh_token c) = true ->
  refresh env c = Ok c' ->
  valid c' = true ->
  exists (r : Credentials) (w' : World),
    get_google_credentials env w = (Ok r, w') /\
    r = c' /\ valid r = true /\
    fs w' = <["token.json" := to_json env r]> (fs w) /\
    fs w' !! "token.json" = Some (to_json env r) /\
    calls w' = calls w ++ [CRefresh c; CWrite "token.json" (to_json env r)].
Proof.
  intros Hfile Hparse Hexp Hrt Hacc Hvalid.
  exists c', {| fs := <["token.json" := to_json env c']> (fs w);
                calls := calls w ++ [CRefresh c;
                                     CWrite "token.json" (to_json env c')] |}.
  rewrite (get_google_credentials_cached w content c) by done.
  rewrite (expired_not_valid c Hexp), Hexp, Hrt. simpl andb. cbv iota.
  unfold bind, creds_refresh, external, write_file, ret. rewrite Hacc.
  simpl. rewrite <- app_assoc. simpl.
  repeat split; try done. apply lookup_insert_eq.
Qed.

(** C8. With an expired credential in [token.json] that has a refresh
    token, and an authorization server that rejects the refresh,
    [get_google_credentials] fails with the exception of the refresh;
    the files are as before and the one request made is the refresh:
    nothing was written. *)
Theorem rejected_refresh_leaves_cache (w : World) (content : string)
    (c : Credentials) (e : exn) :
  fs w !! "token.json" = Some content ->
  from_authorized_user_info env content SCOPES = Ok c ->
  expired c = true ->
  truthy (refresh_token c) = true ->
  refresh env c = Raise e ->
  exists w' : World,
    get_google_credentials env w = (Raise e, w') /\
    fs w' = fs w /\
    calls w' = calls w ++ [CRefresh c].
Proof.
  intros Hfile Hparse Hexp Hrt Hrej.
  exists (logged w (CRefresh c)).
  rewrite (get_google_credentials_cached w content c) by done.
  rewrite (expired_not_valid c Hexp), Hexp, Hrt. simpl andb. cbv iota.
  unfold bind, creds_refresh, external. by rewrite Hrej.
Qed.

End Credentials.

(** *** The search endpoint *)

Lemma py_min_100 (n : Z) : py_min (Some n) 100 = Ok (Z.min n 100).
Proof.
  unfold py_min. f_equal. destruct (Z.ltb_spec 100 n); lia.
Qed.

Section Search.

Variable env : Env.
Variable request : SearchRequest.

Lemma gdrive_search_credentials_fail (w w1 : World) (e : exn) :
  get_google_credentials env w = (Raise e, w1) ->
  gdrive_search env request w = (Raise (HTTPException 500 (exn_str e)), w1).
Proof.
  intros H. unfold gdrive_search, try_except. unfold bind at 1.
  by rewrite H.
Qed.

Lemma gdrive_search_credentials_spin (w w1 : World) :
  get_google_credentials env w = (Spin, w1) ->
  gdrive_search env request w = (Spin, w1).
Proof.
  intros H. unfold gdrive_search, try_except. unfold bind at 1.
  by rewrite H.
Qed.

(** The endpoint once the credentials are there. *)
Lemma gdrive_search_with_credentials (w w1 : World) (c : Credentials) :
  get_google_credentials env w = (Ok c, w1) ->
  gdrive_search env request w
  = match build env "drive" "v3" c with
    | Ok _ =>
        match pageSize request with
        | Some n =>
            (match files_list_execute env
                     (list_args request (Z.min n 100)) with
             | Ok response =>
                 Ok {| result_files := default [] (files response);
                       result_nextPageToken := nextPageToken response |}
             | Raise e => Raise (HTTPException 500 (exn_str e))
             | Spin => Spin
             end,
             logged (logged w1 (CBuild "drive" "v3"))
                    (CFilesList (list_args request (Z.min n 100))))
        | None =>
            (Raise (HTTPException 500
               "'<' not supported between instances of 'int' and 'NoneType'"),
             logged w1 (CBuild "drive" "v3"))
        end
    | Raise e =>
        (Raise (HTTPException 500 (exn_str e)),
         logged w1 (CBuild "drive" "v3"))
    | Spin => (Spin, logged w1 (CBuild "drive" "v3"))
    end.
Proof.
  intros H. unfold gdrive_search, try_except. unfold bind at 1.
  rewrite H. unfold bind at 1. unfold external at 1.
  destruct (build env "drive" "v3" c) as [[]|e|]; [|done|done].
  destruct (pageSize request) as [n|]; [|done].
  rewrite py_min_100. unfold bind, lift, external.
  fold (list_args request (Z.min n 100)).
  by destruct (files_list_execute env (list_args request (Z.min n 100))).
Qed.

End Search.

(** Obtaining the credentials never lists files. *)
Lemma get_google_credentials_calls (env : Env) (w : World) :
  exists l : list call,
    calls (snd (get_google_credentials env w)) = calls w ++ l /\
    Forall (fun c => is_files_list c = false) l.
Proof.
  unfold get_google_credentials, bind, os_path_exists, read_file, ret,
    InstalledAppFlow_from_client_secrets_file, read_file,
    flow_run_local_server, creds_refresh, external, write_file, logged.
  repeat case_match; simplify_eq/=;
    try (exists []; rewrite app_nil_r; split; [done | constructor]);
    try (eexists [_]; split; [done | by repeat constructor]);
    try (eexists [_; _]; rewrite <- app_assoc; split;
         [done | by repeat constructor]).
Qed.

(** C9. Whenever [gdrive_search] lists files, the page size it passes
    is the smaller of the requested [pageSize] and 100: every listing in
    the log that was not there before comes from a request with an
    integer [pageSize] [n] and carries [min n 100]; and for such a
    request, once the credentials are obtained and the service object is
    built, exactly that one listing is made.  So more than 100 becomes
    100 and anything up to 100 goes through as it is. *)
Theorem page_size_is_capped_at_100 (env : Env) (request : SearchRequest)
    (w : World) :
  (forall args : FilesListArgs,
      CFilesList args ∈ calls (snd (gdrive_search env request w)) ->
      CFilesList args ∈ calls w \/
      exists n : Z, pageSize request = Some n /\
                    list_pageSize args = Z.min n 100) /\
  (forall (n : Z) (c : Credentials) (w1 : World),
      pageSize request = Some n ->
      get_google_credentials env w = (Ok c, w1) ->
      build env "drive" "v3" c = Ok tt ->
      calls (snd (gdrive_search env request w))
      = calls w1 ++ [ CBuild "drive" "v3";
                      CFilesList {| q := query request;
                                    list_pageSize := Z.min n 100;
                                    list_pageToken := pageToken request;
                                    fields :=
                                      "nextPageToken, files(id, name, mimeType)"
                                 |} ]) /\
  (forall n : Z, 100 < n -> Z.min n 100 = 100) /\
  (forall n : Z, n <= 100 -> Z.min n 100 = n).
Proof.
  split; [|split; [|split; intros; lia]].
  - intros args Hin.
    destruct (get_google_credentials_calls env w) as (l & Hl & Hnone).
    assert (Hl' : forall c, c ∈ l -> is_files_list c = false)
      by (by apply Forall_forall).
    destruct (get_google_credentials env w) as [[c| |] w1] eqn:Hc;
      simpl in Hl.
    + rewrite (gdrive_search_with_credentials env request w w1 c Hc) in Hin.
      destruct (build env "drive" "v3" c) as [[]| |];
        [destruct (pageSize request) as [n|] eqn:Hn|..];
        simpl in Hin; rewrite ?Hl in Hin;
        repeat (apply elem_of_app in Hin as [Hin|Hin]);
        try (by left);
        try (by apply Hl' in Hin);
        try (apply list_elem_of_singleton in Hin; try discriminate).
      right. exists n. split; [done|]. by inversion Hin.
    + rewrite (gdrive_search_credentials_fail env request w w1 e Hc) in Hin.
      simpl in Hin. rewrite Hl in Hin.
      apply elem_of_app in Hin as [Hin|Hin]; [by left|].
      by apply Hl' in Hin.
    + rewrite (gdrive_search_credentials_spin env request w w1 Hc) in Hin.
      simpl in Hin. rewrite Hl in Hin.
      apply elem_of_app in Hin as [Hin|Hin]; [by left|].
      by apply Hl' in Hin.
  - intros n c w1 Hn Hc Hb.
    rewrite (gdrive_search_with_credentials env request w w1 c Hc), Hb, Hn.
    simpl. by rewrite <- app_assoc.
Qed.

Lemma page_size_250_becomes_100 :
  calls (snd (gdrive_search (google true (Ok no_files))
                {| query := "name contains 'report'";
                   pageToken := None;
                   pageSize := Some 250 |}
                (cached fresh)))
  = [ CBuild "drive" "v3";
      CFilesList {| q := "name contains 'report'";
                    list_pageSize := 100;
                    list_pageToken := None;
                    fields := "nextPageToken, files(id, name, mimeType)" |} ].
Proof.
  apply (proj1 (proj2 (page_size_is_capped_at_100
                         (google true (Ok no_files))
                         {| query := "name contains 'report'";
                            pageToken := None;
                            pageSize := Some 250 |}
                         (cached fresh)))
           250 fresh (cached fresh)).
  - reflexivity.
  - reflexivity.
  - reflexivity.
Defined.

Lemma fresh_is_returned_unchanged :
  get_google_credentials (google true (Ok no_files)) (cached fresh)
  = (Ok fresh, cached fresh).
Proof.
  apply (valid_cached_credential_is_returned
           (google true (Ok no_files)) (cached fresh) (render fresh) fresh).
  - reflexivity.
  - reflexivity.
  - reflexivity.
Defined.

Lemma stale_is_refreshed :
  exists (r : Credentials) (w' : World),
    get_google_credentials (google true (Ok no_files)) (cached stale)
    = (Ok r, w') /\
    r = fresh /\ valid r = true /\
    fs w' = <["token.json" := render r]> (fs (cached stale)) /\
    fs w' !! "token.json" = Some (render r) /\
    calls w' = [CRefresh stale; CWrite "token.json" (render r)].
Proof.
  apply (expired_credential_is_refreshed_and_cached
           (google true (Ok no_files)) (cached stale) (render stale)
           stale fresh).
  - reflexivity.
  - reflexivity.
  - reflexivity.
  - reflexivity.
  - reflexivity.
  - reflexivity.
Defined.

Lemma revoked_refresh_fails :
  exists w' : World,
    get_google_credentials (google false (Ok no_files)) (cached stale)
    = (Raise (Exn "RefreshError"
                  "invalid_grant: Token has been expired or revoked."), w') /\
    fs w' = fs (cached stale) /\
    calls w' = [CRefresh stale].
Proof.
  apply (rejected_refresh_leaves_cache
           (google false (Ok no_files)) (cached stale) (render stale) stale).
  - reflexivity.
  - reflexivity.
  - reflexivity.
  - reflexivity.
  - reflexivity.
Defined.

End GDriveFacts.


(** ** More facts about src/server.py *)

Module ServerMoreFacts.

Import Server ServerCases PyFacts ServerFacts.

Lemma except_never_raises (prefix : string) (body : M (list call) output)
    (log : list call) (e : exn) :
  fst (try_except body (error_text prefix) log) <> Raise e.
Proof.
  unfold try_except. by destruct (body log) as [[o|e'|] log'].
Qed.

(** X1. Whatever the services answer, well-formed or not, neither
    [run_cloudwatch_logs_query] nor [list_s3_buckets] ever raises: the
    result is a returned string (or, for the query, a loop that is still
    polling). *)
Theorem tools_never_raise (env : Env) (budget : nat)
    (log_group_name query : string) (hours : Z) (log : list call) (e : exn) :
  fst (run_cloudwatch_logs_query env budget log_group_name query hours log)
  <> Raise e /\
  fst (list_s3_buckets env log) <> Raise e.
Proof. split; apply except_never_raises. Qed.

(** X2. The calls of [run_cloudwatch_logs_query] are always one
    [start_query] followed by [n] rounds of "sleep one second, then
    fetch", all fetches for the same query id, which is the one the
    service returned; it never fetches without having slept, and makes
    at most as many rounds as the loop iterates. *)
Theorem every_fetch_follows_a_sleep (env : Env) (budget : nat)
    (log_group_name query : string) (hours : Z) (log : list call) :
  exists (n : nat) (query_id : string),
    (n <= budget)%nat /\
    snd (run_cloudwatch_logs_query env budget log_group_name query hours log)
    = log ++ CStartQuery (submitted env log_group_name query hours)
          :: poll_calls query_id n /\
    (n <> 0%nat ->
     start_query env (submitted env log_group_name query hours)
     = Ok {| queryId := Some query_id |}).
Proof.
  destruct (start_query env (submitted env log_group_name query hours))
    as [[[query_id|]]|e|] eqn:Hs.
  - rewrite (run_accepted env budget _ _ _ query_id) by done.
    destruct (poll_log env budget query_id None
                (log ++ [CStartQuery (submitted env log_group_name query hours)]))
      as (n & Hn & Hlog).
    exists n, query_id. split; [done|]. split; [|done].
    destruct (poll env budget query_id None _) as [[response| |] log'];
      simpl in *; subst log'; by rewrite <- app_assoc.
  - exists 0%nat, "". split; [lia|]. split; [|done].
    unfold run_cloudwatch_logs_query, try_except, bind,
      cloudwatch_logs_client_start_query, external.
    fold (submitted env log_group_name query hours). by rewrite Hs.
  - exists 0%nat, "". split; [lia|]. split; [|done].
    unfold run_cloudwatch_logs_query, try_except, bind,
      cloudwatch_logs_client_start_query, external.
    fold (submitted env log_group_name query hours). by rewrite Hs.
  - exists 0%nat, "". split; [lia|]. split; [|done].
    unfold run_cloudwatch_logs_query, try_except, bind,
      cloudwatch_logs_client_start_query, external.
    fold (submitted env log_group_name query hours). by rewrite Hs.
Qed.

(** X3. When the answer to [start_query] has no ['queryId'], the tool
    returns the error text with the message of the [KeyError], and has
    neither slept nor fetched. *)
Theorem missing_query_id_is_reported (env : Env) (budget : nat)
    (log_group_name query : string) (hours : Z) (log : list call) :
  start_query env (submitted env log_group_name query hours)
  = Ok {| queryId := None |} ->
  run_cloudwatch_logs_query env budget log_group_name query hours log
  = (Ok (Text "Error running CloudWatch Logs query: 'queryId'"),
     log ++ [CStartQuery (submitted env log_group_name query hours)]).
Proof.
  intros Hs.
  unfold run_cloudwatch_logs_query, try_except, bind,
    cloudwatch_logs_client_start_query, external.
  fold (submitted env log_group_name query hours). by rewrite Hs.
Qed.

Lemma missing_query_id_example :
  run_cloudwatch_logs_query without_query_id 5 "/aws/lambda/app"
    "fields @message" 24 []
  = (Ok (Text "Error running CloudWatch Logs query: 'queryId'"),
     [CStartQuery (submitted without_query_id "/aws/lambda/app"
                     "fields @message" 24)]).
Proof.
  apply (missing_query_id_is_reported without_query_id 5 "/aws/lambda/app"
           "fields @message" 24 []).
  reflexivity.
Defined.

Lemma poll_guard_raises (env : Env) (budget : nat) (query_id : string)
    (response : option GetQueryResultsResponse) (log : list call) (e : exn) :
  loop_guard response = Raise e ->
  poll env budget query_id response log = (Raise e, log).
Proof. intros Hg. destruct budget; simpl; unfold bind, lift; by rewrite Hg. Qed.

(** X4. When, after any number of ["Running"] answers, a fetch returns
    a response without ['status'], the loop stops at that fetch and the
    tool returns the error text with the message of the [KeyError]. *)
Theorem missing_status_is_reported (env : Env) (budget : nat)
    (log_group_name query : string) (hours : Z) (query_id : string)
    (log : list call) (obs : list GetQueryResultsResponse)
    (final : GetQueryResultsResponse) :
  start_query env (submitted env log_group_name query hours)
  = Ok {| queryId := Some query_id |} ->
  Forall running obs ->
  status final = None ->
  answers env query_id log (obs ++ [final]) ->
  (length obs < budget)%nat ->
  run_cloudwatch_logs_query env budget log_group_name query hours log
  = (Ok (Text "Error running CloudWatch Logs query: 'status'"),
     log ++ CStartQuery (submitted env log_group_name query hours)
         :: poll_calls query_id (S (length obs))).
Proof.
  intros Hs Hrun Hst Hans Hb.
  rewrite (run_accepted env budget _ _ _ query_id) by done.
  replace budget with (length obs + S (budget - S (length obs)))%nat by lia.
  rewrite poll_running_prefix;
    [| done | done | eauto using answers_app_l, answers_after_start].
  rewrite poll_step by (by apply last_running_guard).
  rewrite (answers_next env query_id _ obs final)
    by (by apply answers_after_start).
  rewrite (poll_guard_raises env _ _ _ _ (KeyError "status"))
    by (simpl; by rewrite Hst).
  by rewrite <- !app_assoc, (poll_calls_snoc query_id (length obs)).
Qed.

Lemma missing_status_example :
  run_cloudwatch_logs_query (scripted [observation "Running"; no_status]) 5
    "/aws/lambda/app" "fields @message" 24 []
  = (Ok (Text "Error running CloudWatch Logs query: 'status'"),
     CStartQuery (submitted (scripted [observation "Running"; no_status])
                    "/aws/lambda/app" "fields @message" 24)
     :: poll_calls "q-1" 2).
Proof.
  apply (missing_status_is_reported
           (scripted [observation "Running"; no_status]) 5
           "/aws/lambda/app" "fields @message" 24 "q-1" []
           [observation "Running"] no_status).
  - reflexivity.
  - repeat constructor.
  - reflexivity.
  - intros i r Hi. destruct i as [|[|i]]; simpl in Hi; inversion Hi;
      reflexivity.
  - simpl; lia.
Defined.

(** *** Rows *)

Lemma fill_result_dict_prefix (row : list (string * string))
    (rest : list ResultField) :
  forall result_dict : dict string,
    fill_result_dict (map field_of_pair row ++ rest) result_dict
    = fill_result_dict rest
        (foldl (fun d kv => dict_set kv.1 kv.2 d) result_dict row).
Proof.
  induction row as [|[k v] row IH]; intros result_dict; [done|].
  simpl. by rewrite IH.
Qed.

Lemma format_results_prefix (rows : list (list (string * string)))
    (rest : list (list ResultField)) :
  forall results : list (dict string),
    format_results (map (map field_of_pair) rows ++ rest) results
    = format_results rest (results ++ map row_dict rows).
Proof.
  induction rows as [|row rows IH]; intros results; simpl.
  - by rewrite app_nil_r.
  - rewrite fill_result_dict_pairs. simpl. rewrite IH.
    by rewrite <- app_assoc.
Qed.

Lemma fill_result_dict_hole (bad : ResultField) (k : string)
    (rest : list ResultField) (result_dict : dict string) :
  missing_key bad = Some k ->
  fill_result_dict (bad :: rest) result_dict = Raise (KeyError k).
Proof.
  unfold missing_key. simpl.
  destruct (value bad) as [v|]; simpl.
  - destruct (field bad) as [f|]; simpl; [done|]. by intros [= <-].
  - by intros [= <-].
Qed.

(** X5. A completed query in which some field of some row lacks its
    ['value'] or its ['field'] yields no rows at all: the tool returns
    the error text with the [KeyError] of the first such field, where
    ['value'] is the key it reads first. *)
Theorem incomplete_field_discards_all_rows (env : Env) (budget : nat)
    (log_group_name query : string) (hours : Z) (query_id : string)
    (log : list call) (obs : list GetQueryResultsResponse)
    (final : GetQueryResultsResponse)
    (rows : list (list (string * string))) (row : list (string * string))
    (bad : ResultField) (k : string)
    (fields_after : list ResultField) (rows_after : list (list ResultField)) :
  start_query env (submitted env log_group_name query hours)
  = Ok {| queryId := Some query_id |} ->
  Forall running obs ->
  status final = Some "Complete" ->
  results final
  = Some (map (map field_of_pair) rows
          ++ (map field_of_pair row ++ bad :: fields_after) :: rows_after) ->
  missing_key bad = Some k ->
  answers env query_id log (obs ++ [final]) ->
  (length obs < budget)%nat ->
  fst (run_cloudwatch_logs_query env budget log_group_name query hours log)
  = Ok (Text ("Error running CloudWatch Logs query: '" +:+ k +:+ "'")).
Proof.
  intros Hs Hrun Hst Hres Hbad Hans Hb.
  rewrite (run_terminal env budget _ _ _ query_id log obs final "Complete")
    by done.
  simpl. rewrite Hst. simpl. rewrite Hres. simpl.
  rewrite format_results_prefix. simpl.
  rewrite fill_result_dict_prefix.
  by rewrite (fill_result_dict_hole bad k).
Qed.

Lemma hole_in_second_row :
  fst (run_cloudwatch_logs_query (scripted [complete_with_hole]) 5
         "/aws/lambda/app" "fields a, b" 24 [])
  = Ok (Text "Error running CloudWatch Logs query: 'value'").
Proof.
  apply (incomplete_field_discards_all_rows
           (scripted [complete_with_hole]) 5 "/aws/lambda/app" "fields a, b"
           24 "q-1" [] [] complete_with_hole
           [[("a", "1")]] [("a", "2")]
           {| field := Some "b"; value := None |} "value" [] []).
  - reflexivity.
  - constructor.
  - reflexivity.
  - reflexivity.
  - reflexivity.
  - intros i r Hi. destruct i as [|i]; simpl in Hi; inversion Hi; reflexivity.
  - simpl; lia.
Defined.






Lemma row_dict_snoc (row : list (string * string)) (k v : string) :
  row_dict (row ++ [(k, v)]) = dict_set k v (row_dict row).
Proof. unfold row_dict. by rewrite foldl_snoc. Qed.

Lemma elem_of_keys_row_dict (row : list (string * string)) (k : string) :
  k ∈ keys (row_dict row) <-> k ∈ row.*1.
Proof.
  induction row as [|[k0 v0] row IH] using rev_ind; [done|].
  rewrite row_dict_snoc, keys_dict_set, fmap_app, elem_of_app. simpl.
  rewrite list_elem_of_singleton.
  case_bool_decide as Hin.
  - rewrite IH. split; [by left|]. intros [H| ->]; [done|]. by apply IH.
  - rewrite elem_of_app, list_elem_of_singleton, IH. done.
Qed.


(** *** Buckets *)

Lemma bucket_names_all (names : list string) :
  bucket_names (map Some names) = Ok names.
Proof. induction names as [|n names IH]; [done|]. simpl. by rewrite IH. Qed.

Lemma bucket_names_hole (names : list string) (rest : list (option string)) :
  bucket_names (map Some names ++ None :: rest) = Raise (KeyError "Name").
Proof. induction names as [|n names IH]; [done|]. simpl. by rewrite IH. Qed.

(** X8. When every bucket of the answer has a name, [list_s3_buckets]
    makes its one call and returns the dump of the list of names, in the
    order of the answer. *)
Theorem bucket_names_are_listed_in_order (env : Env) (log : list call)
    (names : list string) :
  list_buckets env = Ok {| Buckets := Some (map Some names) |} ->
  list_s3_buckets env log
  = (Ok (Dumps (JList (map JStr names))), log ++ [CListBuckets]).
Proof.
  intros H. unfold list_s3_buckets, try_except, bind,
    s3_client_list_buckets, external, lift.
  rewrite H. simpl. by rewrite bucket_names_all.
Qed.

Lemma two_buckets_listed :
  list_s3_buckets (scripted []) []
  = (Ok (Dumps (JList [JStr "logs"; JStr "assets"])), [CListBuckets]).
Proof.
  apply (bucket_names_are_listed_in_order (scripted []) []
           ["logs"; "assets"]).
  reflexivity.
Defined.

(** X9. When the answer has no ['Buckets'], or one of its buckets has
    no ['Name'], [list_s3_buckets] returns the error text with the
    [KeyError], and none of the names. *)
Theorem malformed_bucket_list_is_reported (env : Env) (log : list call) :
  (list_buckets env = Ok {| Buckets := None |} ->
   list_s3_buckets env log
   = (Ok (Text "Error listing S3 buckets: 'Buckets'"),
      log ++ [CListBuckets])) /\
  (forall (names : list string) (rest : list (option string)),
      list_buckets env
      = Ok {| Buckets := Some (map Some names ++ None :: rest) |} ->
      list_s3_buckets env log
      = (Ok (Text "Error listing S3 buckets: 'Name'"),
         log ++ [CListBuckets])).
Proof.
  split.
  - intros H. unfold list_s3_buckets, try_except, bind,
      s3_client_list_buckets, external, lift. by rewrite H.
  - intros names rest H. unfold list_s3_buckets, try_except, bind,
      s3_client_list_buckets, external, lift.
    rewrite H. simpl. by rewrite bucket_names_hole.
Qed.

Lemma malformed_bucket_lists :
  list_s3_buckets without_query_id []
  = (Ok (Text "Error listing S3 buckets: 'Buckets'"), [CListBuckets]) /\
  list_s3_buckets nameless_bucket []
  = (Ok (Text "Error listing S3 buckets: 'Name'"), [CListBuckets]).
Proof.
  split.
  - apply (proj1 (malformed_bucket_list_is_reported without_query_id [])).
    reflexivity.
  - apply (proj2 (malformed_bucket_list_is_reported nameless_bucket [])
             ["logs"] []).
    reflexivity.
Defined.

End ServerMoreFacts.

(** ** More facts about src/gdrive_mcp_server.py *)

Module GDriveMoreFacts.

Import GDrive GDriveCases GDriveFacts.

Section Credentials.

Variable env : Env.

Lemma get_google_credentials_uncached (w : World) :
  fs w !! "token.json" = None ->
  get_google_credentials env w = interactive env w.
Proof.
  intros Hfile. unfold get_google_credentials, interactive.
  unfold bind at 1. unfold os_path_exists.
  rewrite bool_decide_eq_false_2 by (rewrite Hfile; by intros [? ?]).
  unfold bind at 1. unfold ret at 1. unfold bind.
  by destruct (InstalledAppFlow_from_client_secrets_file env
                 "credentials.json" SCOPES w) as [[?| |] ?].
Qed.

Lemma get_google_credentials_unrefreshable (w : World) (content : string)
    (c : Credentials) :
  fs w !! "token.json" = Some content ->
  from_authorized_user_info env content SCOPES = Ok c ->
  valid c = false ->
  expired c && truthy (refresh_token c) = false ->
  get_google_credentials env w = interactive env w.
Proof.
  intros Hfile Hparse Hvalid Hno.
  rewrite (get_google_credentials_cached env w content c) by done.
  by rewrite Hvalid, Hno.
Qed.

Lemma interactive_succeeds (w : World) (content : string) (flow : Flow)
    (c' : Credentials) :
  fs w !! "credentials.json" = Some content ->
  from_client_config env content SCOPES = Ok flow ->
  run_local_server env flow 0 = Ok c' ->
  interactive env w
  = (Ok c',
     {| fs := <["token.json" := to_json env c']> (fs w);
        calls := calls w ++ [CRunLocalServer flow 0;
                             CWrite "token.json" (to_json env c')] |}).
Proof.
  intros Hfile Hflow Hrun.
  unfold interactive, bind, InstalledAppFlow_from_client_secrets_file,
    read_file, flow_run_local_server, external, write_file, ret, logged.
  rewrite Hfile, Hflow, Hrun. simpl. by rewrite <- app_assoc.
Qed.

Lemma interactive_without_secrets (w : World) :
  fs w !! "credentials.json" = None ->
  interactive env w = (Raise (FileNotFoundError "credentials.json"), w).
Proof.
  intros Hfile.
  unfold interactive, bind, InstalledAppFlow_from_client_secrets_file,
    read_file.
  by rewrite Hfile.
Qed.

End Credentials.

(** X10. Without a [token.json], [get_google_credentials] reads the
    client secrets from [credentials.json], runs the interactive flow on
    port 0, writes the credential it is granted to [token.json] and
    returns it; it makes no refresh request. *)
Theorem first_run_is_interactive (env : Env) (w : World) (content : string)
    (flow : Flow) (c' : Credentials) :
  fs w !! "token.json" = None ->
  fs w !! "credentials.json" = Some content ->
  from_client_config env content SCOPES = Ok flow ->
  run_local_server env flow 0 = Ok c' ->
  get_google_credentials env w
  = (Ok c',
     {| fs := <["token.json" := to_json env c']> (fs w);
        calls := calls w ++ [CRunLocalServer flow 0;
                             CWrite "token.json" (to_json env c')] |}).
Proof.
  intros Hnone Hfile Hflow Hrun.
  rewrite get_google_credentials_uncached by done.
  by apply (interactive_succeeds env w content).
Qed.

Lemma first_run_example :
  get_google_credentials desk first_run
  = (Ok fresh,
     {| fs := <["token.json" := render fresh]> (fs first_run);
        calls := [CRunLocalServer the_flow 0;
                  CWrite "token.json" (render fresh)] |}).
Proof.
  apply (first_run_is_interactive desk first_run secrets the_flow fresh);
    reflexivity.
Defined.

(** X11. A cached credential that is not valid is refreshed only if it
    is expired and has a non-empty refresh token.  Otherwise (no refresh
    token, or no access token although not expired)
    [get_google_credentials] runs the interactive flow, writes what it
    is granted and returns it, without any refresh request. *)
Theorem no_refresh_unless_expired_with_refresh_token (env : Env) (w : World)
    (content : string) (c : Credentials) (content' : string) (flow : Flow)
    (c' : Credentials) :
  fs w !! "token.json" = Some content ->
  from_authorized_user_info env content SCOPES = Ok c ->
  valid c = false ->
  expired c && truthy (refresh_token c) = false ->
  fs w !! "credentials.json" = Some content' ->
  from_client_config env content' SCOPES = Ok flow ->
  run_local_server env flow 0 = Ok c' ->
  get_google_credentials env w
  = (Ok c',
     {| fs := <["token.json" := to_json env c']> (fs w);
        calls := calls w ++ [CRunLocalServer flow 0;
                             CWrite "token.json" (to_json env c')] |}).
Proof.
  intros Hfile Hparse Hvalid Hno Hsec Hflow Hrun.
  rewrite (get_google_credentials_unrefreshable env w content c) by done.
  by apply (interactive_succeeds env w content').
Qed.

Lemma tokenless_goes_interactive :
  get_google_credentials desk (installed tokenless)
  = (Ok fresh,
     {| fs := <["token.json" := render fresh]> (fs (installed tokenless));
        calls := [CRunLocalServer the_flow 0;
                  CWrite "token.json" (render fresh)] |}).
Proof.
  apply (no_refresh_unless_expired_with_refresh_token desk
           (installed tokenless) (render tokenless) tokenless secrets
           the_flow fresh); reflexivity.
Defined.

(** X12. When the interactive flow is needed and there is no
    [credentials.json], [get_google_credentials] fails with
    [FileNotFoundError] and has requested and written nothing. *)
Theorem missing_client_secrets (env : Env) (w : World) :
  fs w !! "credentials.json" = None ->
  (fs w !! "token.json" = None \/
   exists (content : string) (c : Credentials),
     fs w !! "token.json" = Some content /\
     from_authorized_user_info env content SCOPES = Ok c /\
     valid c = false /\
     expired c && truthy (refresh_token c) = false) ->
  get_google_credentials env w
  = (Raise (Exn "FileNotFoundError"
              "[Errno 2] No such file or directory: 'credentials.json'"),
     w).
Proof.
  intros Hsec [Hnone | (content & c & Hfile & Hparse & Hvalid & Hno)].
  - rewrite get_google_credentials_uncached by done.
    by apply interactive_without_secrets.
  - rewrite (get_google_credentials_unrefreshable env w content c) by done.
    by apply interactive_without_secrets.
Qed.

Lemma empty_disk_fails :
  get_google_credentials desk empty_disk
  = (Raise (Exn "FileNotFoundError"
              "[Errno 2] No such file or directory: 'credentials.json'"),
     empty_disk).
Proof.
  apply (missing_client_secrets desk empty_disk).
  - reflexivity.
  - left. reflexivity.
Defined.

(** X13. When [token.json] exists but cannot be read as a credential,
    the exception of the parser leaves [get_google_credentials]: there
    is no fall-back to the interactive flow, nothing is requested and
    the file stays as it is. *)
Theorem malformed_token_file_is_fatal (env : Env) (w : World)
    (content : string) (e : exn) :
  fs w !! "token.json" = Some content ->
  from_authorized_user_info env content SCOPES = Raise e ->
  get_google_credentials env w = (Raise e, w).
Proof.
  intros Hfile Hparse.
  unfold get_google_credentials. unfold bind at 1. unfold os_path_exists.
  rewrite bool_decide_eq_true_2 by (rewrite Hfile; eauto).
  unfold bind at 1. unfold bind at 1. unfold read_file at 1.
  by rewrite Hfile, Hparse.
Qed.

Lemma garbled_token_file_fails :
  get_google_credentials desk garbled
  = (Raise (Exn "ValueError" "malformed token file"), garbled).
Proof.
  apply (malformed_token_file_is_fatal desk garbled "not json");
    reflexivity.
Defined.

(** Every way [get_google_credentials] can end. *)
Lemma get_google_credentials_outcomes (env : Env) (w : World) :
  match get_google_credentials env w with
  | (Ok c, w') =>
      (w' = w /\ valid c = true /\
       exists content : string,
         fs w !! "token.json" = Some content /\
         from_authorized_user_info env content SCOPES = Ok c) \/
      (exists req : call,
          is_auth_request req = true /\
          w' = {| fs := <["token.json" := to_json env c]> (fs w);
                  calls := calls w ++ [req; CWrite "token.json"
                                                   (to_json env c)] |})
  | (_, w') =>
      fs w' = fs w /\
      (calls w' = calls w \/
       exists req : call,
         is_auth_request req = true /\ calls w' = calls w ++ [req])
  end.
Proof.
  unfold get_google_credentials, bind, os_path_exists, read_file, ret,
    InstalledAppFlow_from_client_secrets_file, read_file,
    flow_run_local_server, creds_refresh, external, write_file, logged.
  repeat case_match; simplify_eq/=;
    try (split; [done | by left]);
    try (split; [done | right; eexists; split; [|done]; done]);
    try (left; split; [done | split; [done | eauto]]);
    try (right; eexists; split; [|by rewrite <- app_assoc]; done).
Qed.


(** X15. Calling [get_google_credentials] again after it has returned
    a credential returns the same credential and does nothing else,
    provided the credential is valid and reading back its [to_json]
    gives it again. *)
Theorem second_call_is_silent (env : Env) (w w1 : World) (c : Credentials) :
  get_google_credentials env w = (Ok c, w1) ->
  from_authorized_user_info env (to_json env c) SCOPES = Ok c ->
  valid c = true ->
  get_google_credentials env w1 = (Ok c, w1).
Proof.
  intros Hfirst Hround Hvalid.
  pose proof (get_google_credentials_outcomes env w) as H.
  rewrite Hfirst in H.
  destruct H as [(-> & _ & content & Hfile & Hparse) | (req & _ & ->)].
  - rewrite (get_google_credentials_cached env w content c) by done.
    by rewrite Hvalid.
  - rewrite (get_google_credentials_cached env _ (to_json env c) c);
      [by rewrite Hvalid | apply lookup_insert_eq | done].
Qed.

Lemma second_call_after_refresh :
  get_google_credentials desk
    {| fs := <["token.json" := render fresh]> (fs (installed stale));
       calls := [CRefresh stale; CWrite "token.json" (render fresh)] |}
  = (Ok fresh,
     {| fs := <["token.json" := render fresh]> (fs (installed stale));
        calls := [CRefresh stale; CWrite "token.json" (render fresh)] |}).
Proof.
  apply (second_call_is_silent desk (installed stale)); reflexivity.
Defined.

(** *** The search endpoint *)

(** X16. A request whose [pageSize] is null is not given the default:
    once the credentials are there and the service object is built,
    [min] raises [TypeError], the endpoint raises [HTTPException] 500
    with that message, and no files are listed. *)
Theorem null_page_size_is_a_server_error (env : Env)
    (request : SearchRequest) (w w1 : World) (c : Credentials) :
  get_google_credentials env w = (Ok c, w1) ->
  build env "drive" "v3" c = Ok tt ->
  pageSize request = None ->
  gdrive_search env request w
  = (Raise (HTTPException 500
       "'<' not supported between instances of 'int' and 'NoneType'"),
     logged w1 (CBuild "drive" "v3")).
Proof.
  intros Hc Hb Hn.
  by rewrite (gdrive_search_with_credentials env request w w1 c Hc), Hb, Hn.
Qed.

Lemma null_page_size_example :
  gdrive_search desk null_page_size (cached fresh)
  = (Raise (HTTPException 500
       "'<' not supported between instances of 'int' and 'NoneType'"),
     logged (cached fresh) (CBuild "drive" "v3")).
Proof.
  apply (null_page_size_is_a_server_error desk null_page_size (cached fresh)
           (cached fresh) fresh); reflexivity.
Defined.

(** X17. Whatever goes wrong in [gdrive_search] (credentials, building
    the service, the page size, the listing), what its caller sees is an
    [HTTPException] with status 500: no other exception and no other
    status leaves the endpoint. *)
Theorem every_search_failure_is_a_500 (env : Env) (request : SearchRequest)
    (w : World) (e : exn) :
  fst (gdrive_search env request w) = Raise e ->
  exists detail : string, e = HTTPException 500 detail.
Proof.
  unfold gdrive_search, try_except.
  match goal with |- context [bind ?a ?b w] =>
    destruct (bind a b w) as [[v|e'|] w'] end; simpl; try done.
  unfold http_500, raise. simpl. intros [= <-]. eauto.
Qed.

Lemma revoked_token_is_a_500 :
  exists detail : string,
    fst (gdrive_search (google false (Ok no_files)) ten_reports
           (cached stale))
    = Raise (HTTPException 500 detail).
Proof.
  destruct (every_search_failure_is_a_500 (google false (Ok no_files))
              ten_reports (cached stale)
              (HTTPException 500
                 "invalid_grant: Token has been expired or revoked."))
    as [detail Hd].
  - reflexivity.
  - exists detail. rewrite <- Hd. reflexivity.
Defined.

End GDriveMoreFacts.

(** ** Facts about the configuration and the other tools of src/server.py *)

Module AwsFacts.

Import Aws AwsCases.

(** *** [sorted] *)

Section Sorting.

Context {A : Type}.

Implicit Types (l : list (Z * A)) (x : A) (k : Z).

Lemma insert_by_key_perm k x l : insert_by_key k x l ≡ₚ (k, x) :: l.
Proof.
  induction l as [|[k' x'] l IH]; simpl; [done|].
  destruct (k <=? k'); [done|]. rewrite IH. apply Permutation_swap.
Qed.

Lemma sort_by_key_perm l : sort_by_key l ≡ₚ l.
Proof.
  induction l as [|[k x] l IH]; simpl; [done|].
  rewrite insert_by_key_perm. by rewrite IH.
Qed.

Lemma insert_by_key_sorted k x l :
  StronglySorted (fun a b => a.1 <= b.1) l ->
  StronglySorted (fun a b => a.1 <= b.1) (insert_by_key k x l).
Proof.
  induction l as [|[k' x'] l IH]; intros Hs; simpl.
  - repeat constructor.
  - apply StronglySorted_inv in Hs as [Hs Hall].
    destruct (Z.leb_spec k k') as [Hle|Hlt].
    + constructor; [by constructor|].
      constructor; [done|].
      eapply Forall_impl; [exact Hall|]. simpl. intros [k2 x2]. simpl. lia.
    + constructor; [by apply IH|].
      rewrite insert_by_key_perm. constructor; [simpl; lia | done].
Qed.

Lemma sort_by_key_sorted l :
  StronglySorted (fun a b => a.1 <= b.1) (sort_by_key l).
Proof.
  induction l as [|[k x] l IH]; simpl; [constructor|].
  by apply insert_by_key_sorted.
Qed.

Lemma insert_by_key_filter k x l (k0 : Z) :
  filter (fun kx => kx.1 = k0) (insert_by_key k x l)
  = filter (fun kx => kx.1 = k0) ((k, x) :: l).
Proof.
  induction l as [|[k' x'] l IH]; simpl; [done|].
  destruct (Z.leb_spec k k') as [Hle|Hlt]; [done|].
  rewrite filter_cons, IH, !filter_cons. simpl.
  destruct (decide (k' = k0)) as [->|]; [|done].
  destruct (decide (k = k0)) as [->|]; [lia|done].
Qed.

(** Elements with the same key keep the order they came in. *)
Lemma sort_by_key_stable l (k0 : Z) :
  filter (fun kx => kx.1 = k0) (sort_by_key l)
  = filter (fun kx => kx.1 = k0) l.
Proof.
  induction l as [|[k x] l IH]; simpl; [done|].
  rewrite insert_by_key_filter, !filter_cons, IH. done.
Qed.

End Sorting.

Section Decorated.

Context {A : Type} (f : A -> Z).

Lemma decorated_map (xs : list A) : decorated f (map (fun p => (f p, p)) xs).
Proof. induction xs; constructor; done. Qed.

Lemma decorated_sorted (l : list (Z * A)) :
  decorated f l ->
  StronglySorted (fun a b => a.1 <= b.1) l ->
  StronglySorted (fun a b => f a <= f b) (map snd l).
Proof.
  induction l as [|[k x] l IH]; intros Hd Hs; simpl; [constructor|].
  apply Forall_cons in Hd as [Hk Hd].
  apply StronglySorted_inv in Hs as [Hs Hall]. simpl in Hk. subst k.
  constructor; [by apply IH|].
  rewrite Forall_fmap. rewrite Forall_forall in Hall, Hd |- *.
  intros [k2 x2] Hin. simpl. specialize (Hall _ Hin). specialize (Hd _ Hin).
  simpl in *. lia.
Qed.

Lemma decorated_filter (l : list (Z * A)) (k0 : Z) :
  decorated f l ->
  filter (fun p => f p = k0) (map snd l)
  = map snd (filter (fun kx => kx.1 = k0) l).
Proof.
  induction l as [|[k x] l IH]; intros Hd; simpl; [done|].
  apply Forall_cons in Hd as [Hk Hd]. simpl in Hk. subst k.
  rewrite !filter_cons. simpl. rewrite IH by done.
  by destruct (decide (f x = k0)).
Qed.

End Decorated.

Lemma in_time_order_perm (points : list Datapoint) :
  in_time_order points ≡ₚ points.
Proof.
  unfold in_time_order. rewrite sort_by_key_perm.
  rewrite <- list_fmap_compose. simpl. by rewrite list_fmap_id.
Qed.

Lemma in_time_order_decorated (points : list Datapoint) :
  decorated stamp (sort_by_key (map (fun p => (stamp p, p)) points)).
Proof.
  unfold decorated. rewrite sort_by_key_perm. apply decorated_map.
Qed.

Lemma in_time_order_ascending (points : list Datapoint) :
  ascending (in_time_order points).
Proof.
  apply decorated_sorted;
    [apply in_time_order_decorated | apply sort_by_key_sorted].
Qed.

Lemma in_time_order_stable (points : list Datapoint) (t : Z) :
  filter (fun p => stamp p = t) (in_time_order points)
  = filter (fun p => stamp p = t) points.
Proof.
  unfold in_time_order.
  rewrite decorated_filter by apply in_time_order_decorated.
  rewrite sort_by_key_stable.
  rewrite <- (decorated_filter stamp) by apply decorated_map.
  rewrite <- list_fmap_compose. simpl. by rewrite list_fmap_id.
Qed.

(** *** Metrics *)

Section Metrics.

Variable env : Env.

Lemma with_keys_timed (points : list Datapoint) :
  Forall timed points ->
  with_keys by_timestamp points = Ok (map (fun p => (stamp p, p)) points).
Proof.
  induction points as [|p points IH]; intros H; [done|].
  apply Forall_cons in H as [[t Ht] H]. simpl.
  unfold by_timestamp at 1, stamp at 1. rewrite Ht. simpl.
  by rewrite IH.
Qed.

Lemma sorted_timed (points : list Datapoint) :
  Forall timed points ->
  sorted by_timestamp points = Ok (in_time_order points).
Proof. intros H. unfold sorted. by rewrite with_keys_timed. Qed.

Lemma in_time_order_timed (points : list Datapoint) :
  Forall timed points -> Forall timed (in_time_order points).
Proof. intros H. by rewrite in_time_order_perm. Qed.

Lemma for_each_invocations (points : list Datapoint) :
  Forall timed points ->
  for_each (invocations_point env) points
  = Ok (map (invocations_entry env) points).
Proof.
  induction points as [|p points IH]; intros H; [done|].
  apply Forall_cons in H as [[t Ht] H]. simpl.
  unfold invocations_point at 1, invocations_entry at 1, stamp.
  rewrite Ht. simpl. by rewrite IH.
Qed.

Lemma for_each_statistics (points : list Datapoint) :
  Forall timed points ->
  for_each (statistics_point env) points
  = Ok (map (statistics_entry env) points).
Proof.
  induction points as [|p points IH]; intros H; [done|].
  apply Forall_cons in H as [[t Ht] H]. simpl.
  unfold statistics_point at 1, statistics_entry at 1, stamp.
  rewrite Ht. simpl. by rewrite IH.
Qed.

Lemma serializable_opt_num (o : option number) : serializable (opt_num o) = true.
Proof. by destruct o. Qed.

Lemma serializable_opt_str (o : option string) : serializable (opt_str o) = true.
Proof. by destruct o. Qed.

Lemma serializable_invocations (points : list Datapoint) :
  serializable (PList (map (invocations_entry env) points)) = true.
Proof. simpl. induction points as [|p points IH]; [done|]. simpl. by rewrite IH. Qed.

Lemma serializable_statistics (points : list Datapoint) :
  serializable (PList (map (statistics_entry env) points)) = true.
Proof.
  simpl. induction points as [|p points IH]; [done|]. simpl.
  by rewrite !serializable_opt_num, serializable_opt_str, IH.
Qed.

End Metrics.

(** X18. [get_lambda_invocations] asks CloudWatch once, for the hourly
    sums of the function's invocations from [days] days ago until now,
    and returns one entry per datapoint of the answer, in ascending
    order of time, datapoints of equal time in the order of the answer;
    a datapoint without ['Sum'] counts 0 invocations. *)
Theorem invocations_come_in_time_order (env : Env) (function_name : string)
    (n_days : Z) (log : list call) (start_time : Z)
    (response : GetMetricStatisticsResponse) :
  datetime_sub env (utcnow env) (days n_days) = Ok start_time ->
  get_metric_statistics env (invocations_args env function_name start_time)
  = Ok response ->
  Forall timed (default [] (Datapoints response)) ->
  exists points : list Datapoint,
    get_lambda_invocations env function_name n_days log
    = (Ok (Dumps (PList (map (invocations_entry env) points))),
       log ++ [CGetMetricStatistics
                 (invocations_args env function_name start_time)]) /\
    points ≡ₚ default [] (Datapoints response) /\
    ascending points /\
    (forall t : Z,
        filter (fun p => stamp p = t) points
        = filter (fun p => stamp p = t) (default [] (Datapoints response))) /\
    (forall p : Datapoint,
        Sum p = None ->
        invocations_entry env p
        = PDict [ ("Timestamp", PStr (strftime env (stamp p)));
                  ("Invocations", PNum (Int 0)) ]).
Proof.
  intros Hsub Hans Htimed.
  exists (in_time_order (default [] (Datapoints response))).
  split; [|split; [apply in_time_order_perm|
           split; [apply in_time_order_ascending|
           split; [apply in_time_order_stable|]]]].
  - unfold get_lambda_invocations, try_except.
    unfold bind at 1. unfold lift at 1. rewrite Hsub.
    unfold bind at 1. unfold external at 1.
    fold (invocations_args env function_name start_time). rewrite Hans.
    unfold bind, lift. rewrite sorted_timed by done.
    rewrite for_each_invocations by (by apply in_time_order_timed).
    unfold json_dumps. by rewrite serializable_invocations.
  - intros p Hp. unfold invocations_entry. by rewrite Hp.
Qed.

Lemma three_points_in_order :
  exists points : list Datapoint,
    get_lambda_invocations (aws (Some three_points) None) "resize" 1 []
    = (Ok (Dumps (PList (map (invocations_entry
                                (aws (Some three_points) None)) points))),
       [CGetMetricStatistics
          (invocations_args (aws (Some three_points) None) "resize"
             (1700000000 - 86400))]) /\
    points ≡ₚ three_points /\
    ascending points.
Proof.
  destruct (invocations_come_in_time_order (aws (Some three_points) None)
              "resize" 1 [] (1700000000 - 86400)
              {| Datapoints := Some three_points |})
    as (points & Hrun & Hperm & Hasc & _).
  - reflexivity.
  - reflexivity.
  - repeat constructor; by eexists.
  - exists points. split; [exact Hrun|]. split; [exact Hperm | exact Hasc].
Defined.

(** X19. [cloudwatch_resource] reads the period as minutes, asks once
    for the average, maximum and minimum over that window in steps of
    the whole period in seconds, and returns the datapoints in
    ascending order of time; with no datapoints in the answer it
    returns the empty list, not an error. *)
Theorem statistics_come_in_time_order (env : Env)
    (namespace metric_name period : string) (log : list call)
    (period_mins start_time : Z) (response : GetMetricStatisticsResponse) :
  int env period = Ok period_mins ->
  datetime_sub env (utcnow env) (minutes period_mins) = Ok start_time ->
  get_metric_statistics env
    (statistics_args env namespace metric_name period_mins start_time)
  = Ok response ->
  Forall timed (default [] (Datapoints response)) ->
  exists points : list Datapoint,
    cloudwatch_resource env namespace metric_name period log
    = (Ok (Dumps (PList (map (statistics_entry env) points))),
       log ++ [CGetMetricStatistics
                 (statistics_args env namespace metric_name period_mins
                    start_time)]) /\
    points ≡ₚ default [] (Datapoints response) /\
    ascending points /\
    (default [] (Datapoints response) = [] -> points = []).
Proof.
  intros Hint Hsub Hans Htimed.
  exists (in_time_order (default [] (Datapoints response))).
  split; [|split; [apply in_time_order_perm|
           split; [apply in_time_order_ascending|]]].
  - unfold cloudwatch_resource, try_except.
    unfold bind at 1. unfold lift at 1. rewrite Hint.
    unfold bind at 1. unfold lift at 1. rewrite Hsub.
    unfold bind at 1. unfold external at 1.
    fold (statistics_args env namespace metric_name period_mins start_time).
    rewrite Hans.
    unfold bind, lift. rewrite sorted_timed by done.
    rewrite for_each_statistics by (by apply in_time_order_timed).
    unfold json_dumps. by rewrite serializable_statistics.
  - by intros ->.
Qed.

Lemma no_datapoints_is_an_empty_list :
  cloudwatch_resource (aws None None) "AWS/EC2" "CPUUtilization" "5" []
  = (Ok (Dumps (PList [])),
     [CGetMetricStatistics
        (statistics_args (aws None None) "AWS/EC2" "CPUUtilization" 5
           (1700000000 - 300))]).
Proof.
  destruct (statistics_come_in_time_order (aws None None) "AWS/EC2"
              "CPUUtilization" "5" [] 5 (1700000000 - 300)
              {| Datapoints := None |})
    as (points & Hrun & _ & _ & Hempty).
  - reflexivity.
  - reflexivity.
  - reflexivity.
  - constructor.
  - rewrite Hrun. by rewrite (Hempty eq_refl).
Defined.

(** X20. A period that [int] does not accept, or a window that the
    date arithmetic cannot represent, ends [cloudwatch_resource] with
    the error text before anything is asked of CloudWatch. *)
Theorem unreadable_period_asks_nothing (env : Env)
    (namespace metric_name period : string) (log : list call) (e : exn) :
  (int env period = Raise e \/
   exists period_mins : Z,
     int env period = Ok period_mins /\
     datetime_sub env (utcnow env) (minutes period_mins) = Raise e) ->
  cloudwatch_resource env namespace metric_name period log
  = (Ok (Text ("Error accessing CloudWatch metrics: " +:+ exn_str e)), log).
Proof.
  intros [Hint | (period_mins & Hint & Hsub)];
    unfold cloudwatch_resource, try_except, error_text.
  - unfold bind at 1. unfold lift at 1. by rewrite Hint.
  - unfold bind at 1. unfold lift at 1. rewrite Hint.
    unfold bind at 1. unfold lift at 1. by rewrite Hsub.
Qed.

Lemma period_in_words_asks_nothing :
  cloudwatch_resource (aws None None) "AWS/EC2" "CPUUtilization" "five" []
  = (Ok (Text ("Error accessing CloudWatch metrics: "
               +:+ "invalid literal for int() with base 10: 'five'")), []).
Proof.
  apply (unreadable_period_asks_nothing (aws None None) "AWS/EC2"
           "CPUUtilization" "five" []
           (Exn "ValueError"
              "invalid literal for int() with base 10: 'five'")).
  left. reflexivity.
Defined.

(** *** S3 *)

Lemma for_each_keys (keys : list string) :
  for_each (fun obj => getitem "Key" (Key obj)) (map object_of_key keys)
  = Ok keys.
Proof. induction keys as [|k keys IH]; [done|]. simpl. by rewrite IH. Qed.

Lemma serializable_strings (l : list string) :
  serializable (PList (map PStr l)) = true.
Proof. simpl. by induction l. Qed.

(** X21. [list_s3_objects] makes one listing request for the bucket and
    prefix and returns the keys of that answer in its order (the empty
    list when the answer has no ['Contents']).  It never looks at
    ['IsTruncated'] or the continuation token: of a listing that spans
    several pages only the first is returned. *)
Theorem only_the_first_page_is_listed (env : Env) (bucket prefix : string)
    (log : list call) (keys : list string) (truncated : option bool)
    (token : option string) (contents : option (list S3Object)) :
  default [] contents = map object_of_key keys ->
  list_objects_v2 env bucket prefix
  = Ok {| Contents := contents; IsTruncated := truncated;
          NextContinuationToken := token |} ->
  list_s3_objects env bucket prefix log
  = (Ok (Dumps (PList (map PStr keys))),
     log ++ [CListObjectsV2 bucket prefix]).
Proof.
  intros Hkeys Hans.
  unfold list_s3_objects, try_except, bind, external, lift.
  rewrite Hans. simpl. rewrite Hkeys, for_each_keys.
  unfold json_dumps. by rewrite serializable_strings.
Qed.

Lemma truncated_listing_is_cut :
  list_s3_objects (aws None None) "assets" "" []
  = (Ok (Dumps (PList [PStr "a"; PStr "b"])), [CListObjectsV2 "assets" ""]).
Proof.
  apply (only_the_first_page_is_listed (aws None None) "assets" "" []
           ["a"; "b"] (Some true) (Some "token-2")
           (Some [object_of_key "a"; object_of_key "b"]));
    reflexivity.
Defined.

(** X22. Of the fields [get_s3_object_info] reports, ['LastModified']
    is the only one whose absence is an error: without it the tool
    returns the error text of the [AttributeError]; with it, every other
    absent field is reported as null (the metadata as an empty
    dictionary). *)
Theorem last_modified_is_required (env : Env) (bucket key : string)
    (log : list call) (response : HeadObjectResponse) :
  head_object env bucket key = Ok response ->
  (LastModified response = None ->
   get_s3_object_info env bucket key log
   = (Ok (Text ("Error getting S3 object info: "
                +:+ "'NoneType' object has no attribute 'strftime'")),
      log ++ [CHeadObject bucket key])) /\
  (forall t : Z,
      LastModified response = Some t ->
      get_s3_object_info env bucket key log
      = (Ok (Dumps
               (PDict
                  [ ("ContentLength", opt_num (ContentLength response));
                    ("ContentType", opt_str (ContentType response));
                    ("LastModified", PStr (strftime env t));
                    ("Metadata",
                     PDict (map (fun kv => (kv.1, PStr kv.2))
                                (default [] (Metadata response))));
                    ("StorageClass", opt_str (StorageClass response));
                    ("ETag", opt_str (ETag response)) ])),
         log ++ [CHeadObject bucket key])).
Proof.
  intros Hans.
  unfold get_s3_object_info, try_except, bind, external, lift.
  rewrite Hans. split.
  - by intros ->.
  - intros t ->. unfold json_dumps.
    assert (Hser : forallb (fun kv : string * pyobj => serializable kv.2)
                     (map (fun kv : string * string => (kv.1, PStr kv.2))
                          (default [] (Metadata response))) = true)
      by (by induction (default [] (Metadata response))).
    simpl. rewrite !serializable_opt_str, serializable_opt_num. simpl.
    by rewrite Hser.
Qed.

Lemma object_without_date_is_an_error :
  get_s3_object_info (aws None None) "assets" "logo.png" []
  = (Ok (Text ("Error getting S3 object info: "
               +:+ "'NoneType' object has no attribute 'strftime'")),
     [CHeadObject "assets" "logo.png"]).
Proof.
  apply (proj1 (last_modified_is_required (aws None None) "assets"
                  "logo.png" []
                  {| ContentLength := Some (Int 12); ContentType := None;
                     LastModified := None; Metadata := None;
                     StorageClass := None; ETag := Some "etag" |}
                  eq_refl)).
  reflexivity.
Defined.

(** *** EC2 *)

Lemma serializable_name_of_tags (tags : list Tag) :
  serializable (name_of_tags tags) = true.
Proof.
  induction tags as [|t tags IH]; [done|]. simpl.
  destruct (tag_Key t) as [k|]; [|done].
  destruct (String.eqb k "Name"); [apply serializable_opt_str | done].
Qed.

Lemma serializable_instance_entry (i : Instance) :
  serializable (instance_entry i) = true.
Proof.
  unfold instance_entry. simpl.
  by rewrite !serializable_opt_str, serializable_name_of_tags.
Qed.

Lemma serializable_entries (l : list Instance) :
  forallb serializable (map instance_entry l) = true.
Proof.
  induction l as [|i l IH]; [done|].
  change (serializable (instance_entry i)
          && forallb serializable (map instance_entry l) = true).
  by rewrite serializable_instance_entry, IH.
Qed.

(** X23. When [describe_instances] answers, [list_ec2_instances] always
    returns a list (the encoder cannot fail on it) with exactly one
    entry per instance of the answer, reservation after reservation in
    the order of the answer; a reservation without instances adds
    nothing, and the ['NextToken'] of the answer is not followed. *)
Theorem every_instance_is_listed_once (env : Env) (log : list call)
    (response : DescribeInstancesResponse) :
  describe_instances env = Ok response ->
  list_ec2_instances env log
  = (Ok (Dumps (PList (map instance_entry (instances_of response)))),
     log ++ [CDescribeInstances]) /\
  length (map instance_entry (instances_of response))
  = sum_list (map (fun r => length (default [] (Instances r)))
                  (default [] (Reservations response))).
Proof.
  intros Hans. split.
  - unfold list_ec2_instances, try_except, bind, external, lift.
    rewrite Hans. unfold json_dumps, instances_of.
    assert (Heq : concat (map (fun reservation =>
                     map instance_entry (default [] (Instances reservation)))
                     (default [] (Reservations response)))
                  = map instance_entry
                      (concat (map (fun r => default [] (Instances r))
                                   (default [] (Reservations response))))).
    { induction (default [] (Reservations response)) as [|r rs IH];
        [done|]. simpl. by rewrite IH, map_app. }
    rewrite Heq. simpl serializable. by rewrite serializable_entries.
  - rewrite length_map. unfold instances_of.
    induction (default [] (Reservations response)) as [|r rs IH]; [done|].
    simpl. by rewrite length_app, IH.
Qed.

Lemma two_instances_listed :
  list_ec2_instances (aws None None) []
  = (Ok (Dumps (PList [instance_entry web; instance_entry worker])),
     [CDescribeInstances]).
Proof.
  apply (every_instance_is_listed_once (aws None None) []
           {| Reservations :=
                Some [ {| Instances := Some [web] |};
                       {| Instances := None |};
                       {| Instances := Some [worker] |} ];
              NextToken := Some "page-2" |}).
  reflexivity.
Defined.

Lemma name_of_tags_found (before after : list Tag) (tag : Tag) :
  Forall (fun t => tag_Key t <> Some "Name") before ->
  (tag_Key tag = Some "Name" ->
   name_of_tags (before ++ tag :: after) = opt_str (tag_Value tag)) /\
  name_of_tags before = PStr "".
Proof.
  intros Hbefore.
  assert (Hskip : forall rest,
             name_of_tags (before ++ rest) = name_of_tags rest).
  { intros rest. induction Hbefore as [|t before Ht _ IH]; [done|].
    simpl. destruct (tag_Key t) as [k|]; [|done].
    destruct (String.eqb k "Name") eqn:E; [|done].
    apply String.eqb_eq in E. by subst k. }
  split.
  - intros Htag. rewrite Hskip. simpl. by rewrite Htag.
  - rewrite <- (app_nil_r before). by rewrite Hskip.
Qed.

Lemma list_ec2_instances_entries (env : Env) (log : list call)
    (response : DescribeInstancesResponse) :
  describe_instances env = Ok response ->
  list_ec2_instances env log
  = (Ok (Dumps (PList (map instance_entry (instances_of response)))),
     log ++ [CDescribeInstances]).
Proof.
  intros Hans.
  unfold list_ec2_instances, try_except, bind, external, lift.
  rewrite Hans. unfold json_dumps, instances_of.
  assert (Heq : concat (map (fun reservation =>
                   map instance_entry (default [] (Instances reservation)))
                   (default [] (Reservations response)))
                = map instance_entry
                    (concat (map (fun r => default [] (Instances r))
                                 (default [] (Reservations response))))).
  { induction (default [] (Reservations response)) as [|r rs IH];
      [done|]. simpl. by rewrite IH, map_app. }
  rewrite Heq. simpl serializable. by rewrite serializable_entries.
Qed.

(** X24. In what [list_ec2_instances] returns, the entry of each
    instance ends with its ['Name']: the value of the first of the
    instance's tags whose key is ["Name"], null when that tag has no
    value, and the empty string when no tag has that key (or the
    instance has no tags). *)
Theorem name_is_the_first_Name_tag (env : Env) (log : list call)
    (response : DescribeInstancesResponse) :
  describe_instances env = Ok response ->
  exists entries : list pyobj,
    list_ec2_instances env log
    = (Ok (Dumps (PList entries)), log ++ [CDescribeInstances]) /\
    Forall2
      (fun (instance : Instance) (entry : pyobj) =>
         exists (fields : list (string * pyobj)) (name : pyobj),
           entry = PDict (fields ++ [("Name", name)]) /\
           length fields = 5%nat /\
           (forall (before after : list Tag) (tag : Tag),
               default [] (Tags instance) = before ++ tag :: after ->
               Forall (fun t => tag_Key t <> Some "Name") before ->
               tag_Key tag = Some "Name" ->
               name = match tag_Value tag with
                      | Some v => PStr v
                      | None => PNone
                      end) /\
           (Forall (fun t => tag_Key t <> Some "Name")
                   (default [] (Tags instance)) ->
            name = PStr ""))
      (instances_of response) entries.
Proof.
  intros Hans. exists (map instance_entry (instances_of response)).
  split; [by apply list_ec2_instances_entries|].
  apply Forall2_fmap_r, Forall_Forall2_diag, Forall_forall.
  intros instance _.
  exists [ ("InstanceId", opt_str (InstanceId instance));
           ("InstanceType", opt_str (InstanceType instance));
           ("State", opt_str (mjoin (State instance)));
           ("PublicIpAddress", opt_str (PublicIpAddress instance));
           ("PrivateIpAddress", opt_str (PrivateIpAddress instance)) ],
         (name_of_tags (default [] (Tags instance))).
  split; [done|]. split; [done|]. split.
  - intros before after tag -> Hbefore Htag.
    by apply name_of_tags_found.
  - intros Hnone.
    by apply (name_of_tags_found _ [] {| tag_Key := None; tag_Value := None |}).
Qed.

Lemma names_of_web_and_worker :
  exists fields1 fields2 : list (string * pyobj),
    list_ec2_instances (aws None None) []
    = (Ok (Dumps (PList [ PDict (fields1 ++ [("Name", PStr "web")]);
                          PDict (fields2 ++ [("Name", PStr "")]) ])),
       [CDescribeInstances]).
Proof.
  destruct (name_is_the_first_Name_tag (aws None None) []
              {| Reservations :=
                   Some [ {| Instances := Some [web] |};
                          {| Instances := None |};
                          {| Instances := Some [worker] |} ];
                 NextToken := Some "page-2" |} eq_refl)
    as (entries & Hrun & Hall).
  change (instances_of _) with [web; worker] in Hall.
  apply Forall2_cons_inv_l in Hall
    as (e1 & rest & (fields1 & name1 & -> & _ & Hfound & _) & Hall & ->).
  apply Forall2_cons_inv_l in Hall
    as (e2 & rest' & (fields2 & name2 & -> & _ & _ & Hnone) & Hall & ->).
  apply Forall2_nil_inv_l in Hall as ->.
  exists fields1, fields2. rewrite Hrun.
  rewrite (Hfound [ {| tag_Key := Some "env"; tag_Value := Some "prod" |} ]
             [] {| tag_Key := Some "Name"; tag_Value := Some "web" |}
             eq_refl ltac:(repeat constructor; discriminate) eq_refl).
  rewrite (Hnone ltac:(constructor)).
  reflexivity.
Defined.

(** X25. When the answer holds no status for the instance (as for an
    instance that is not running), [get_ec2_status] returns the plain
    text "No status information available for instance: <id>", which is
    not an error text. *)
Theorem no_status_is_reported_as_text (env : Env) (instance_id : string)
    (log : list call) (statuses : option (list InstanceStatus)) :
  describe_instance_status env [instance_id]
  = Ok {| InstanceStatuses := statuses |} ->
  default [] statuses = [] ->
  get_ec2_status env instance_id log
  = (Ok (Text ("No status information available for instance: "
               +:+ instance_id)),
     log ++ [CDescribeInstanceStatus [instance_id]]).
Proof.
  intros Hans Hnone.
  unfold get_ec2_status, try_except, bind, external.
  rewrite Hans. simpl.
  destruct statuses as [[|st sts]|]; simpl in Hnone; done.
Qed.

Lemma stopped_instance_has_no_status :
  get_ec2_status (aws None (Some [])) "i-02" []
  = (Ok (Text "No status information available for instance: i-02"),
     [CDescribeInstanceStatus ["i-02"]]).
Proof.
  apply (no_status_is_reported_as_text (aws None (Some [])) "i-02" []
           (Some [])); reflexivity.
Defined.

(** X26. [get_ec2_status] passes the events of the first status to the
    encoder as they came.  If they hold a [datetime] (as the
    ['NotBefore'] of a scheduled event does), the tool returns the error
    text of the encoder's [TypeError] instead of the status; if they
    hold none, it returns the status with those events. *)
Theorem scheduled_events_break_the_status (env : Env) (instance_id : string)
    (log : list call) (st : InstanceStatus) (others : list InstanceStatus) :
  describe_instance_status env [instance_id]
  = Ok {| InstanceStatuses := Some (st :: others) |} ->
  get_ec2_status env instance_id log
  = (if forallb serializable (default [] (Events st))
     then Ok (Dumps
                (PDict
                   [ ("InstanceId", opt_str (status_InstanceId st));
                     ("InstanceState", opt_str (mjoin (InstanceState st)));
                     ("InstanceStatus", opt_str (mjoin (InstanceStatus_ st)));
                     ("SystemStatus", opt_str (mjoin (SystemStatus st)));
                     ("Events", PList (default [] (Events st))) ]))
     else Ok (Text ("Error getting EC2 status: "
                    +:+ "Object of type datetime is not JSON serializable")),
     log ++ [CDescribeInstanceStatus [instance_id]]).
Proof.
  intros Hans.
  unfold get_ec2_status, try_except, bind, external, lift.
  rewrite Hans. simpl. unfold json_dumps. simpl.
  rewrite !serializable_opt_str. simpl. rewrite andb_true_r.
  by destruct (forallb serializable (default [] (Events st))).
Qed.

Lemma retirement_notice_breaks_the_status :
  get_ec2_status (aws None (Some [impaired])) "i-01" []
  = (Ok (Text ("Error getting EC2 status: "
               +:+ "Object of type datetime is not JSON serializable")),
     [CDescribeInstanceStatus ["i-01"]]).
Proof.
  apply (scheduled_events_break_the_status (aws None (Some [impaired]))
           "i-01" [] impaired []).
  reflexivity.
Defined.

(** *** Configuration *)

Lemma is_set_Some (o : option string) :
  is_set o = true -> exists v : string, o = Some v /\ v <> "".
Proof.
  destruct o as [v|]; [|done]. simpl. intros H. exists v. split; [done|].
  intros ->. done.
Qed.

Lemma dict_get_value {V} (k : string) (v : V) (d : dict V) :
  dict_get k d = Some v -> v ∈ d.*2.
Proof.
  induction d as [|[k' v'] d IH]; simpl; [done|].
  destruct (String.eqb k' k).
  - intros [= ->]. left.
  - intros H. right. by apply IH.
Qed.

(** X27. The credentials passed to the AWS clients are all or nothing:
    the configuration holds an access key exactly when it holds a
    secret key, a session token only together with them, and is empty
    as soon as the key or the secret is unset or empty (a session token
    alone is dropped); every value it holds is the non-empty value of
    the environment variable of that name. *)
Theorem credentials_are_all_or_nothing (environ : gmap string string) :
  (is_Some (dict_get "aws_access_key_id" (boto3_config environ)) <->
   is_Some (dict_get "aws_secret_access_key" (boto3_config environ))) /\
  (is_Some (dict_get "aws_session_token" (boto3_config environ)) ->
   is_Some (dict_get "aws_access_key_id" (boto3_config environ))) /\
  (is_set (environ !! "AWS_ACCESS_KEY_ID")
   && is_set (environ !! "AWS_SECRET_ACCESS_KEY") = false ->
   boto3_config environ = []) /\
  (forall (k v : string),
      dict_get k (boto3_config environ) = Some v -> v <> "") /\
  (forall v : string,
      (dict_get "aws_access_key_id" (boto3_config environ) = Some v ->
       environ !! "AWS_ACCESS_KEY_ID" = Some v) /\
      (dict_get "aws_secret_access_key" (boto3_config environ) = Some v ->
       environ !! "AWS_SECRET_ACCESS_KEY" = Some v) /\
      (dict_get "aws_session_token" (boto3_config environ) = Some v ->
       environ !! "AWS_SESSION_TOKEN" = Some v)).
Proof.
  unfold boto3_config.
  destruct (is_set (environ !! "AWS_ACCESS_KEY_ID")) eqn:Hi; simpl andb;
    cbv iota.
  2:{ simpl. split; [split; intros [? [=]]|]. split; [intros [? [=]]|].
      split; [done|]. split; [intros k v [=]|].
      intros v. repeat split; intros [=]. }
  destruct (is_set (environ !! "AWS_SECRET_ACCESS_KEY")) eqn:Hs; cbv iota.
  2:{ simpl. split; [split; intros [? [=]]|]. split; [intros [? [=]]|].
      split; [done|]. split; [intros k v [=]|].
      intros v. repeat split; intros [=]. }
  apply is_set_Some in Hi as (i & -> & Hi).
  apply is_set_Some in Hs as (sk & -> & Hs).
  destruct (is_set (environ !! "AWS_SESSION_TOKEN")) eqn:Ht.
  - apply is_set_Some in Ht as (t & -> & Ht).
    change (dict_set "aws_session_token" (default "" (Some t))
              (dict_set "aws_secret_access_key" (default "" (Some sk))
                 (dict_set "aws_access_key_id" (default "" (Some i)) [])))
      with [("aws_access_key_id", i); ("aws_secret_access_key", sk);
            ("aws_session_token", t)].
    split; [split; intros _; by eexists|]. split; [intros _; by eexists|].
    split; [done|]. split.
    + intros k v Hget. apply dict_get_value in Hget.
      repeat (apply elem_of_cons in Hget as [->|Hget]; [done|]).
      by apply elem_of_nil in Hget.
    + intros v. repeat split; by intros [= <-].
  - change (dict_set "aws_secret_access_key" (default "" (Some sk))
              (dict_set "aws_access_key_id" (default "" (Some i)) []))
      with [("aws_access_key_id", i); ("aws_secret_access_key", sk)].
    split; [split; intros _; by eexists|]. split; [intros [? [=]]|].
    split; [done|]. split.
    + intros k v Hget. apply dict_get_value in Hget.
      repeat (apply elem_of_cons in Hget as [->|Hget]; [done|]).
      by apply elem_of_nil in Hget.
    + intros v. repeat split; by intros [= <-].
Qed.

Example configured_has_both :
  boto3_config configured
  = [("aws_access_key_id", "AKIA"); ("aws_secret_access_key", "s3cr3t")].
Proof. vm_compute. reflexivity. Qed.

Example half_configured_has_none : boto3_config half_configured = [].
Proof. vm_compute. reflexivity. Qed.

End AwsFacts.

(** ** Facts about reading files and sheets *)

Module GDriveRestFacts.

Import GDrive GDriveRest.

Lemma chunks_fetched_app (l1 l2 : list call) :
  chunks_fetched (l1 ++ l2) = (chunks_fetched l1 + chunks_fetched l2)%nat.
Proof. unfold chunks_fetched. by rewrite List.filter_app, length_app. Qed.

Lemma chunks_fetched_base (l : list GDrive.call) :
  chunks_fetched (map Base l) = 0%nat.
Proof. by induction l. Qed.

Section Download.

Variable env : Env.

Lemma hands_over_tail (file_id : string) (log : list call) (bytes : string)
    (chunks : list string) :
  hands_over env file_id log (bytes :: chunks) ->
  next_chunk env file_id (chunks_fetched log)
  = Ok (bytes, bool_decide (chunks = [])) /\
  hands_over env file_id (log ++ [CNextChunk file_id]) chunks.
Proof.
  intros H. split.
  - specialize (H 0%nat bytes eq_refl). rewrite Nat.add_0_r in H.
    rewrite H. do 2 f_equal. apply bool_decide_ext. simpl.
    destruct chunks; simpl; split; intros; try done; lia.
  - intros i b Hi. specialize (H (S i) b Hi).
    rewrite chunks_fetched_app.
    replace (chunks_fetched [CNextChunk file_id]) with 1%nat by done.
    replace (chunks_fetched log + 1 + i)%nat
      with (chunks_fetched log + S i)%nat by lia.
    rewrite H. do 2 f_equal. apply bool_decide_ext. simpl. lia.
Qed.

(** The loop takes the chunks one after the other and stops with the
    one that reports done. *)
Lemma download_chunks (chunks : list string) :
  forall (budget : nat) (file_id : string) (fh : string) (w : World),
    chunks <> [] ->
    hands_over env file_id (calls w) chunks ->
    download env (length chunks + budget) file_id fh false w
    = (Ok (foldl (fun fh bytes => fh +:+ bytes) fh chunks),
       {| fs := fs w;
          calls := calls w ++ replicate (length chunks) (CNextChunk file_id) |}).
Proof.
  induction chunks as [|bytes chunks IH];
    intros budget file_id fh w Hne Hover; [done|].
  apply hands_over_tail in Hover as [Hfirst Hover].
  change (length (bytes :: chunks) + budget)%nat
    with (S (length chunks + budget)).
  simpl download. unfold bind at 1. unfold external at 1.
  rewrite Hfirst. simpl fst. simpl snd.
  destruct chunks as [|bytes' chunks'].
  - rewrite bool_decide_eq_true_2 by done. by destruct budget.
  - rewrite bool_decide_eq_false_2 by done.
    rewrite (IH budget file_id (fh +:+ bytes)
               {| fs := fs w; calls := calls w ++ [CNextChunk file_id] |})
      by done.
    simpl. by rewrite <- app_assoc.
Qed.

End Download.

(** X28. Once the credentials are there and the service is built,
    [gdrive_read_file] fetches the metadata once and then calls the
    downloader until it reports done, no further; it returns the name
    of the file and the decoding of all chunks joined in order.  When
    the joined bytes do not decode as UTF-8 the endpoint raises
    [HTTPException] 500 with the decoder's message, after the whole
    file has been downloaded. *)
Theorem file_is_read_chunk_by_chunk (env : Env) (budget : nat)
    (request : FileReadRequest) (w : World) (wa : GDrive.World)
    (c : Credentials) (meta : FileMetadata) (chunks : list string) :
  get_google_credentials (auth env)
    {| GDrive.fs := fs w; GDrive.calls := [] |} = (Ok c, wa) ->
  build (auth env) "drive" "v3" c = Ok tt ->
  files_get_execute env (fileId request) = Ok meta ->
  chunks <> [] ->
  hands_over env (fileId request) (calls w) chunks ->
  (length chunks <= budget)%nat ->
  snd (gdrive_read_file env budget request w)
  = {| fs := GDrive.fs wa;
       calls := calls (after_base w wa "drive" "v3")
                ++ CFilesGet (fileId request)
                   :: replicate (length chunks)
                                (CNextChunk (fileId request)) |} /\
  (forall (text file_name : string),
      decode_utf8 env (joined chunks) = Ok text ->
      name meta = Some file_name ->
      fst (gdrive_read_file env budget request w)
      = Ok {| filename := file_name; content := text |}) /\
  (forall e : exn,
      decode_utf8 env (joined chunks) = Raise e ->
      fst (gdrive_read_file env budget request w)
      = Raise (HTTPException 500 (exn_str e))).
Proof.
  intros Hc Hb Hmeta Hne Hover Hbudget.
  assert (Hrun : gdrive_read_file env budget request w
    = (match decode_utf8 env (joined chunks) with
       | Ok text =>
           match name meta with
           | Some file_name =>
               Ok {| filename := file_name; content := text |}
           | None => Raise (HTTPException 500 (exn_str (KeyError "name")))
           end
       | Raise e => Raise (HTTPException 500 (exn_str e))
       | Spin => Spin
       end,
       {| fs := GDrive.fs wa;
          calls := calls (after_base w wa "drive" "v3")
                   ++ CFilesGet (fileId request)
                      :: replicate (length chunks)
                                   (CNextChunk (fileId request)) |})).
  { unfold gdrive_read_file, try_except.
    unfold bind at 1. unfold base at 1. rewrite Hc.
    unfold bind at 1. unfold base at 1. unfold GDrive.external at 1.
    rewrite Hb. simpl GDrive.fs. simpl GDrive.calls.
    unfold bind at 1. unfold external at 1. rewrite Hmeta.
    unfold bind at 1.
    replace budget with (length chunks + (budget - length chunks))%nat
      by lia.
    rewrite (download_chunks env chunks).
    - fold (joined chunks). unfold bind, lift, after_base. simpl.
      rewrite <- !app_assoc. simpl.
      destruct (decode_utf8 env (joined chunks)) as [text|e|]; try done.
      by destruct (name meta).
    - done.
    - intros i bytes Hi. simpl calls.
      rewrite !chunks_fetched_app, chunks_fetched_base.
      replace (chunks_fetched [Base (CBuild "drive" "v3")]) with 0%nat
        by done.
      replace (chunks_fetched [CFilesGet (fileId request)]) with 0%nat
        by done.
      rewrite !Nat.add_0_r. by apply Hover. }
  rewrite Hrun. simpl. split; [done|]. split.
  - by intros text file_name -> ->.
  - by intros e ->.
Qed.

Lemma hello_world_in_two_chunks :
  snd (gdrive_read_file (drive ["hello "; "world"]) 10
         {| fileId := "f-1" |} (start fresh))
  = {| fs := GDrive.fs (cached fresh);
       calls := [ Base (CBuild "drive" "v3"); CFilesGet "f-1";
                  CNextChunk "f-1"; CNextChunk "f-1" ] |} /\
  fst (gdrive_read_file (drive ["hello "; "world"]) 10
         {| fileId := "f-1" |} (start fresh))
  = Ok {| filename := "notes.txt"; content := "hello world" |}.
Proof.
  destruct (file_is_read_chunk_by_chunk (drive ["hello "; "world"]) 10
              {| fileId := "f-1" |} (start fresh) (cached fresh) fresh
              {| name := Some "notes.txt" |} ["hello "; "world"])
    as (Hlog & Hok & _).
  - reflexivity.
  - reflexivity.
  - reflexivity.
  - discriminate.
  - intros i bytes Hi. destruct i as [|[|i]]; simpl in Hi; inversion Hi;
      reflexivity.
  - simpl; lia.
  - split; [exact Hlog | apply Hok; reflexivity].
Defined.

(** X29. [gsheets_read] chooses by [ranges] alone: with a non-empty
    list it makes one [batchGet] for exactly those ranges and returns
    its ['valueRanges']; with no list, or an empty one, it reads the
    fixed range ["A1:ZZ"] and returns its ['values'].  The [sheetId] of
    the request plays no part. *)
Theorem sheet_is_read_by_ranges_alone (env : Env)
    (request : SheetsReadRequest) (w : World) (wa : GDrive.World)
    (c : Credentials) :
  get_google_credentials (auth env)
    {| GDrive.fs := fs w; GDrive.calls := [] |} = (Ok c, wa) ->
  build (auth env) "sheets" "v4" c = Ok tt ->
  (forall (r : string) (rs : list string) (response : BatchGetResponse),
      ranges request = Some (r :: rs) ->
      values_batchGet_execute env (spreadsheetId request) (r :: rs)
      = Ok response ->
      gsheets_read env request w
      = (Ok (ValueRanges (default [] (valueRanges response))),
         {| fs := GDrive.fs wa;
            calls := calls (after_base w wa "sheets" "v4")
                     ++ [CValuesBatchGet (spreadsheetId request) (r :: rs)] |}))
  /\
  (forall response : ValuesResponse,
      ranges request = None \/ ranges request = Some [] ->
      values_get_execute env (spreadsheetId request) "A1:ZZ" = Ok response ->
      gsheets_read env request w
      = (Ok (Values (default [] (values response))),
         {| fs := GDrive.fs wa;
            calls := calls (after_base w wa "sheets" "v4")
                     ++ [CValuesGet (spreadsheetId request) "A1:ZZ"] |})).
Proof.
  intros Hc Hb. split.
  - intros r rs response Hr Hans.
    unfold gsheets_read, try_except.
    unfold bind at 1. unfold base at 1. rewrite Hc.
    unfold bind at 1. unfold base at 1. unfold GDrive.external at 1.
    rewrite Hb. rewrite Hr. simpl. unfold bind, external. simpl.
    by rewrite Hans.
  - intros response Hr Hans.
    unfold gsheets_read, try_except.
    unfold bind at 1. unfold base at 1. rewrite Hc.
    unfold bind at 1. unfold base at 1. unfold GDrive.external at 1.
    rewrite Hb.
    assert (Hgiven : given (ranges request) = false)
      by (by destruct Hr as [-> | ->]).
    rewrite Hgiven. simpl. unfold bind, external. simpl.
    by rewrite Hans.
Qed.

Lemma empty_ranges_read_the_first_sheet :
  gsheets_read (drive []) 
    {| spreadsheetId := "s-1"; ranges := Some []; sheetId := Some 7 |}
    (start fresh)
  = (Ok (Values [Aws.PList [Aws.PStr "a"; Aws.PStr "b"]]),
     {| fs := GDrive.fs (cached fresh);
        calls := [ Base (CBuild "sheets" "v4");
                   CValuesGet "s-1" "A1:ZZ" ] |}).
Proof.
  apply (proj2 (sheet_is_read_by_ranges_alone (drive [])
                  {| spreadsheetId := "s-1"; ranges := Some [];
                     sheetId := Some 7 |}
                  (start fresh) (cached fresh) fresh eq_refl eq_refl)
           {| values := Some [Aws.PList [Aws.PStr "a"; Aws.PStr "b"]] |}).
  - right. reflexivity.
  - reflexivity.
Defined.

End GDriveRestFacts.

(** ** Failing calls, tool by tool *)

Module FailureFacts.

Lemma aws_call_fails {A} (prefix : string) (c : Aws.call)
    (answer : result A) (post : A -> M (list Aws.call) Aws.output)
    (log : list Aws.call) (e : exn) :
  answer = Raise e ->
  try_except (bind (Aws.external c answer) post) (Aws.error_text prefix) log
  = (Ok (Aws.Text (prefix +:+ exn_str e)), log ++ [c]).
Proof. intros ->. reflexivity. Qed.

Lemma rest_call_fails {A} (prefix : string) (c : AwsRest.call)
    (answer : result A) (post : A -> M (list AwsRest.call) AwsRest.output)
    (log : list AwsRest.call) (e : exn) :
  answer = Raise e ->
  try_except (bind (AwsRest.external c answer) post)
             (AwsRest.error_text prefix) log
  = (Ok (AwsRest.Text (prefix +:+ exn_str e)), log ++ [c]).
Proof. intros ->. reflexivity. Qed.

Lemma s3_resource_read_fails (env : AwsRest.Env) (bucket key : string)
    (log : list AwsRest.call) (e : exn) :
  AwsRest.get_object env bucket key
  = Ok {| AwsRest.Body := Some (Raise e) |} ->
  AwsRest.s3_resource env bucket key log
  = (Ok (AwsRest.Text ("Error accessing S3: " +:+ exn_str e)),
     log ++ [AwsRest.CGetObject bucket key]).
Proof.
  intros H. unfold AwsRest.s3_resource, try_except, bind, AwsRest.external,
    lift. by rewrite H.
Qed.

Lemma cloudwatch_resource_call_fails (env : Aws.Env)
    (namespace metric_name period : string) (log : list Aws.call)
    (period_mins start_time : Z) (e : exn) :
  Aws.int env period = Ok period_mins ->
  Aws.datetime_sub env (Aws.utcnow env) (Aws.minutes period_mins)
  = Ok start_time ->
  Aws.get_metric_statistics env
    (AwsCases.statistics_args env namespace metric_name period_mins
       start_time) = Raise e ->
  Aws.cloudwatch_resource env namespace metric_name period log
  = (Ok (Aws.Text ("Error accessing CloudWatch metrics: " +:+ exn_str e)),
     log ++ [Aws.CGetMetricStatistics
               (AwsCases.statistics_args env namespace metric_name
                  period_mins start_time)]).
Proof.
  intros Hint Hsub Hans.
  unfold Aws.cloudwatch_resource, try_except.
  unfold bind at 1. unfold lift at 1. rewrite Hint.
  unfold bind at 1. unfold lift at 1. rewrite Hsub.
  unfold bind at 1. unfold Aws.external at 1.
  fold (AwsCases.statistics_args env namespace metric_name period_mins
          start_time).
  by rewrite Hans.
Qed.

Lemma get_lambda_invocations_call_fails (env : Aws.Env)
    (function_name : string) (n_days : Z) (log : list Aws.call)
    (start_time : Z) (e : exn) :
  Aws.datetime_sub env (Aws.utcnow env) (Aws.days n_days) = Ok start_time ->
  Aws.get_metric_statistics env
    (AwsCases.invocations_args env function_name start_time) = Raise e ->
  Aws.get_lambda_invocations env function_name n_days log
  = (Ok (Aws.Text ("Error getting Lambda invocations: " +:+ exn_str e)),
     log ++ [Aws.CGetMetricStatistics
               (AwsCases.invocations_args env function_name start_time)]).
Proof.
  intros Hsub Hans.
  unfold Aws.get_lambda_invocations, try_except.
  unfold bind at 1. unfold lift at 1. rewrite Hsub.
  unfold bind at 1. unfold Aws.external at 1.
  fold (AwsCases.invocations_args env function_name start_time).
  by rewrite Hans.
Qed.

(** *** The search endpoint *)

Lemma gdrive_search_build_fails (env : GDrive.Env)
    (request : GDrive.SearchRequest) (w w1 : GDrive.World)
    (c : GDrive.Credentials) (e : exn) :
  GDrive.get_google_credentials env w = (Ok c, w1) ->
  GDrive.build env "drive" "v3" c = Raise e ->
  GDrive.gdrive_search env request w
  = (Raise (HTTPException 500 (exn_str e)),
     GDrive.logged w1 (GDrive.CBuild "drive" "v3")).
Proof.
  intros Hc Hb.
  by rewrite (GDriveFacts.gdrive_search_with_credentials env request w w1 c
                Hc), Hb.
Qed.

Lemma gdrive_search_listing_fails (env : GDrive.Env)
    (request : GDrive.SearchRequest) (w w1 : GDrive.World)
    (c : GDrive.Credentials) (n : Z) (e : exn) :
  GDrive.get_google_credentials env w = (Ok c, w1) ->
  GDrive.build env "drive" "v3" c = Ok tt ->
  GDrive.pageSize request = Some n ->
  GDrive.files_list_execute env (GDrive.list_args request (Z.min n 100))
  = Raise e ->
  GDrive.gdrive_search env request w
  = (Raise (HTTPException 500 (exn_str e)),
     GDrive.logged (GDrive.logged w1 (GDrive.CBuild "drive" "v3"))
       (GDrive.CFilesList (GDrive.list_args request (Z.min n 100)))).
Proof.
  intros Hc Hb Hn He.
  by rewrite (GDriveFacts.gdrive_search_with_credentials env request w w1 c
                Hc), Hb, Hn, He.
Qed.

(** *** Reading files and sheets *)

Section Rest.

Import GDriveRest.

Variable env : Env.

Lemma download_breaks (chunks : list string) :
  forall (budget : nat) (file_id : string) (fh : string) (w : World)
         (e : exn),
    (forall (i : nat) (bytes : string),
        chunks !! i = Some bytes ->
        next_chunk env file_id (chunks_fetched (calls w) + i)
        = Ok (bytes, false)) ->
    next_chunk env file_id (chunks_fetched (calls w) + length chunks)
    = Raise e ->
    download env (length chunks + S budget) file_id fh false w
    = (Raise e,
       {| fs := fs w;
          calls := calls w
                   ++ replicate (S (length chunks)) (CNextChunk file_id) |}).
Proof.
  induction chunks as [|bytes chunks IH];
    intros budget file_id fh w e Hover Hbreak.
  - simpl in *. rewrite Nat.add_0_r in Hbreak.
    unfold bind, external. by rewrite Hbreak.
  - change (length (bytes :: chunks) + S budget)%nat
      with (S (length chunks + S budget)).
    simpl download. unfold bind at 1. unfold external at 1.
    pose proof (Hover 0%nat bytes eq_refl) as Hfirst.
    rewrite Nat.add_0_r in Hfirst. rewrite Hfirst. simpl fst. simpl snd.
    rewrite (IH budget file_id (fh +:+ bytes)
               {| fs := fs w; calls := calls w ++ [CNextChunk file_id] |} e).
    + simpl. by rewrite <- app_assoc.
    + intros i b Hi. simpl calls.
      rewrite GDriveRestFacts.chunks_fetched_app.
      replace (chunks_fetched [CNextChunk file_id]) with 1%nat by done.
      replace (chunks_fetched (calls w) + 1 + i)%nat
        with (chunks_fetched (calls w) + S i)%nat by lia.
      by apply (Hover (S i)).
    + simpl calls. rewrite GDriveRestFacts.chunks_fetched_app.
      replace (chunks_fetched [CNextChunk file_id]) with 1%nat by done.
      simpl length in Hbreak.
      by replace (chunks_fetched (calls w) + 1 + length chunks)%nat
        with (chunks_fetched (calls w) + S (length chunks))%nat by lia.
Qed.

Lemma read_file_credentials_fail (budget : nat) (request : FileReadRequest)
    (w : World) (wa : GDrive.World) (e : exn) :
  GDrive.get_google_credentials (auth env)
    {| GDrive.fs := fs w; GDrive.calls := [] |} = (Raise e, wa) ->
  gdrive_read_file env budget request w
  = (Raise (HTTPException 500 (exn_str e)),
     {| fs := GDrive.fs wa;
        calls := calls w ++ map Base (GDrive.calls wa) |}).
Proof.
  intros Hc. unfold gdrive_read_file, try_except.
  unfold bind at 1. unfold base at 1. by rewrite Hc.
Qed.

Lemma read_file_build_fails (budget : nat) (request : FileReadRequest)
    (w : World) (wa : GDrive.World) (c : GDrive.Credentials) (e : exn) :
  GDrive.get_google_credentials (auth env)
    {| GDrive.fs := fs w; GDrive.calls := [] |} = (Ok c, wa) ->
  GDrive.build (auth env) "drive" "v3" c = Raise e ->
  gdrive_read_file env budget request w
  = (Raise (HTTPException 500 (exn_str e)), after_base w wa "drive" "v3").
Proof.
  intros Hc Hb. unfold gdrive_read_file, try_except.
  unfold bind at 1. unfold base at 1. rewrite Hc.
  unfold bind at 1. unfold base at 1. unfold GDrive.external at 1.
  by rewrite Hb.
Qed.

Lemma read_file_get_fails (budget : nat) (request : FileReadRequest)
    (w : World) (wa : GDrive.World) (c : GDrive.Credentials) (e : exn) :
  GDrive.get_google_credentials (auth env)
    {| GDrive.fs := fs w; GDrive.calls := [] |} = (Ok c, wa) ->
  GDrive.build (auth env) "drive" "v3" c = Ok tt ->
  files_get_execute env (fileId request) = Raise e ->
  gdrive_read_file env budget request w
  = (Raise (HTTPException 500 (exn_str e)),
     {| fs := GDrive.fs wa;
        calls := calls (after_base w wa "drive" "v3")
                 ++ [CFilesGet (fileId request)] |}).
Proof.
  intros Hc Hb Hg. unfold gdrive_read_file, try_except.
  unfold bind at 1. unfold base at 1. rewrite Hc.
  unfold bind at 1. unfold base at 1. unfold GDrive.external at 1.
  rewrite Hb. unfold bind at 1. unfold external at 1. by rewrite Hg.
Qed.

Lemma read_file_chunk_fails (budget : nat) (request : FileReadRequest)
    (w : World) (wa : GDrive.World) (c : GDrive.Credentials)
    (meta : FileMetadata) (chunks : list string) (e : exn) :
  GDrive.get_google_credentials (auth env)
    {| GDrive.fs := fs w; GDrive.calls := [] |} = (Ok c, wa) ->
  GDrive.build (auth env) "drive" "v3" c = Ok tt ->
  files_get_execute env (fileId request) = Ok meta ->
  (forall (i : nat) (bytes : string),
      chunks !! i = Some bytes ->
      next_chunk env (fileId request) (chunks_fetched (calls w) + i)
      = Ok (bytes, false)) ->
  next_chunk env (fileId request)
    (chunks_fetched (calls w) + length chunks) = Raise e ->
  (length chunks < budget)%nat ->
  gdrive_read_file env budget request w
  = (Raise (HTTPException 500 (exn_str e)),
     {| fs := GDrive.fs wa;
        calls := calls (after_base w wa "drive" "v3")
                 ++ CFilesGet (fileId request)
                    :: replicate (S (length chunks))
                                 (CNextChunk (fileId request)) |}).
Proof.
  intros Hc Hb Hg Hover Hbreak Hbudget.
  unfold gdrive_read_file, try_except.
  unfold bind at 1. unfold base at 1. rewrite Hc.
  unfold bind at 1. unfold base at 1. unfold GDrive.external at 1.
  rewrite Hb. simpl GDrive.fs. simpl GDrive.calls.
  unfold bind at 1. unfold external at 1. rewrite Hg.
  unfold bind at 1.
  replace budget with (length chunks + S (budget - S (length chunks)))%nat
    by lia.
  assert (Hcount : forall n,
    (chunks_fetched
       (((calls w ++ map Base (GDrive.calls wa))
         ++ map Base ([] ++ [GDrive.CBuild "drive" "v3"]))
        ++ [CFilesGet (fileId request)]) + n)%nat
    = (chunks_fetched (calls w) + n)%nat).
  { intros n. rewrite !GDriveRestFacts.chunks_fetched_app,
      GDriveRestFacts.chunks_fetched_base.
    replace (chunks_fetched (map Base ([] ++ [GDrive.CBuild "drive" "v3"])))
      with 0%nat by done.
    replace (chunks_fetched [CFilesGet (fileId request)]) with 0%nat
      by done.
    lia. }
  rewrite (download_breaks chunks _ _ _ _ e).
  - unfold after_base. simpl. by rewrite <- !app_assoc.
  - intros i bytes Hi. simpl calls. rewrite Hcount. by apply Hover.
  - simpl calls. by rewrite Hcount.
Qed.

Lemma sheets_credentials_fail (request : SheetsReadRequest)
    (w : World) (wa : GDrive.World) (e : exn) :
  GDrive.get_google_credentials (auth env)
    {| GDrive.fs := fs w; GDrive.calls := [] |} = (Raise e, wa) ->
  gsheets_read env request w
  = (Raise (HTTPException 500 (exn_str e)),
     {| fs := GDrive.fs wa;
        calls := calls w ++ map Base (GDrive.calls wa) |}).
Proof.
  intros Hc. unfold gsheets_read, try_except.
  unfold bind at 1. unfold base at 1. by rewrite Hc.
Qed.

Lemma sheets_build_fails (request : SheetsReadRequest)
    (w : World) (wa : GDrive.World) (c : GDrive.Credentials) (e : exn) :
  GDrive.get_google_credentials (auth env)
    {| GDrive.fs := fs w; GDrive.calls := [] |} = (Ok c, wa) ->
  GDrive.build (auth env) "sheets" "v4" c = Raise e ->
  gsheets_read env request w
  = (Raise (HTTPException 500 (exn_str e)), after_base w wa "sheets" "v4").
Proof.
  intros Hc Hb. unfold gsheets_read, try_except.
  unfold bind at 1. unfold base at 1. rewrite Hc.
  unfold bind at 1. unfold base at 1. unfold GDrive.external at 1.
  by rewrite Hb.
Qed.

Lemma sheets_batch_get_fails (request : SheetsReadRequest)
    (w : World) (wa : GDrive.World) (c : GDrive.Credentials)
    (r : string) (rs : list string) (e : exn) :
  GDrive.get_google_credentials (auth env)
    {| GDrive.fs := fs w; GDrive.calls := [] |} = (Ok c, wa) ->
  GDrive.build (auth env) "sheets" "v4" c = Ok tt ->
  ranges request = Some (r :: rs) ->
  values_batchGet_execute env (spreadsheetId request) (r :: rs) = Raise e ->
  gsheets_read env request w
  = (Raise (HTTPException 500 (exn_str e)),
     {| fs := GDrive.fs wa;
        calls := calls (after_base w wa "sheets" "v4")
                 ++ [CValuesBatchGet (spreadsheetId request) (r :: rs)] |}).
Proof.
  intros Hc Hb Hr He. unfold gsheets_read, try_except.
  unfold bind at 1. unfold base at 1. rewrite Hc.
  unfold bind at 1. unfold base at 1. unfold GDrive.external at 1.
  rewrite Hb, Hr. simpl. unfold bind, external. simpl. by rewrite He.
Qed.

Lemma sheets_get_fails (request : SheetsReadRequest)
    (w : World) (wa : GDrive.World) (c : GDrive.Credentials) (e : exn) :
  GDrive.get_google_credentials (auth env)
    {| GDrive.fs := fs w; GDrive.calls := [] |} = (Ok c, wa) ->
  GDrive.build (auth env) "sheets" "v4" c = Ok tt ->
  ranges request = None \/ ranges request = Some [] ->
  values_get_execute env (spreadsheetId request) "A1:ZZ" = Raise e ->
  gsheets_read env request w
  = (Raise (HTTPException 500 (exn_str e)),
     {| fs := GDrive.fs wa;
        calls := calls (after_base w wa "sheets" "v4")
                 ++ [CValuesGet (spreadsheetId request) "A1:ZZ"] |}).
Proof.
  intros Hc Hb Hr He. unfold gsheets_read, try_except.
  unfold bind at 1. unfold base at 1. rewrite Hc.
  unfold bind at 1. unfold base at 1. unfold GDrive.external at 1.
  rewrite Hb.
  assert (Hgiven : given (ranges request) = false)
    by (by destruct Hr as [-> | ->]).
  rewrite Hgiven. simpl. unfold bind, external. simpl. by rewrite He.
Qed.

End Rest.

(** *** Updating a cell *)

Section Cell.

Import GDriveCell.

Variable env : Env.

Lemma update_credentials_fail (request : SheetsUpdateRequest)
    (w : World) (wa : GDrive.World) (e : exn) :
  GDrive.get_google_credentials (auth env)
    {| GDrive.fs := fs w; GDrive.calls := [] |} = (Raise e, wa) ->
  gsheets_update_cell env request w
  = (Raise (HTTPException 500 (exn_str e)),
     {| fs := GDrive.fs wa;
        calls := calls w ++ map Base (GDrive.calls wa) |}).
Proof.
  intros Hc. unfold gsheets_update_cell, try_except.
  unfold bind at 1. unfold base at 1. by rewrite Hc.
Qed.

Lemma update_build_fails (request : SheetsUpdateRequest)
    (w : World) (wa : GDrive.World) (c : GDrive.Credentials) (e : exn) :
  GDrive.get_google_credentials (auth env)
    {| GDrive.fs := fs w; GDrive.calls := [] |} = (Ok c, wa) ->
  GDrive.build (auth env) "sheets" "v4" c = Raise e ->
  gsheets_update_cell env request w
  = (Raise (HTTPException 500 (exn_str e)),
     {| fs := GDrive.fs wa;
        calls := (calls w ++ map Base (GDrive.calls wa))
                 ++ [Base (GDrive.CBuild "sheets" "v4")] |}).
Proof.
  intros Hc Hb. unfold gsheets_update_cell, try_except.
  unfold bind at 1. unfold base at 1. rewrite Hc.
  unfold bind at 1. unfold base at 1. unfold GDrive.external at 1.
  by rewrite Hb.
Qed.

Lemma update_call_fails (request : SheetsUpdateRequest)
    (w : World) (wa : GDrive.World) (c : GDrive.Credentials) (e : exn) :
  GDrive.get_google_credentials (auth env)
    {| GDrive.fs := fs w; GDrive.calls := [] |} = (Ok c, wa) ->
  GDrive.build (auth env) "sheets" "v4" c = Ok tt ->
  values_update_execute env (fileId request) (range request) "RAW"
    [[value request]] = Raise e ->
  gsheets_update_cell env request w
  = (Raise (HTTPException 500 (exn_str e)),
     {| fs := GDrive.fs wa;
        calls := ((calls w ++ map Base (GDrive.calls wa))
                  ++ [Base (GDrive.CBuild "sheets" "v4")])
                 ++ [CValuesUpdate (fileId request) (range request) "RAW"
                       [[value request]]] |}).
Proof.
  intros Hc Hb He. unfold gsheets_update_cell, try_except.
  unfold bind at 1. unfold base at 1. rewrite Hc.
  unfold bind at 1. unfold base at 1. unfold GDrive.external at 1.
  rewrite Hb. simpl. unfold bind, external. simpl. by rewrite He.
Qed.

End Cell.

End FailureFacts.

(** ** Failures of external calls, across both servers *)

Module ToolErrors.

Import GDrive GDriveFacts.

(** C5, as the code has it.  Each of the twenty-two resources and tools
    of [server.py] catches the failure of its external call (for the
    log query: of the submission or of any fetch; for the S3 resource:
    of the request or of reading the body) and returns, as its normal
    result, the text made of its own prefix and the message of the
    failure.  Each of the four endpoints of [gdrive_mcp_server.py]
    catches the failure (of obtaining the credentials, of building the
    service, of its request, of a chunk of the download) too, but raises
    an [HTTPException] with status 500 whose detail is the message.
    None repeats a call that failed: the log ends with the failing
    call. *)
Theorem failures_are_caught_and_not_retried :
  (forall (env : Server.Env) (log : list Server.call) (e : exn),
      Server.list_buckets env = Raise e ->
      Server.list_s3_buckets env log
      = (Ok (Server.Text ("Error listing S3 buckets: " +:+ exn_str e)),
         log ++ [Server.CListBuckets])) /\
  (forall (env : Server.Env) (budget : nat) (log_group_name query : string)
          (hours : Z) (log : list Server.call) (e : exn),
      Server.start_query env
        (Server.submitted env log_group_name query hours) = Raise e ->
      Server.run_cloudwatch_logs_query env budget log_group_name query
        hours log
      = (Ok (Server.Text
               ("Error running CloudWatch Logs query: " +:+ exn_str e)),
         log ++ [Server.CStartQuery
                   (Server.submitted env log_group_name query hours)])) /\
  (forall (env : Server.Env) (budget : nat) (log_group_name query : string)
          (hours : Z) (query_id : string) (log : list Server.call)
          (obs : list Server.GetQueryResultsResponse) (e : exn),
      Server.start_query env
        (Server.submitted env log_group_name query hours)
      = Ok {| Server.queryId := Some query_id |} ->
      Forall Server.running obs ->
      Server.answers env query_id log obs ->
      Server.get_query_results env (Server.fetches log + length obs) query_id
      = Raise e ->
      (length obs < budget)%nat ->
      Server.run_cloudwatch_logs_query env budget log_group_name query
        hours log
      = (Ok (Server.Text
               ("Error running CloudWatch Logs query: " +:+ exn_str e)),
         log ++ Server.CStartQuery
                  (Server.submitted env log_group_name query hours)
             :: Server.poll_calls query_id (S (length obs)))) /\
  (forall (env : Aws.Env) (bucket prefix : string) (log : list Aws.call) (e : exn),
      Aws.list_objects_v2 env bucket prefix = Raise e ->
      Aws.list_s3_objects env bucket prefix log
      = (Ok (Aws.Text ("Error listing S3 objects: " +:+ exn_str e)),
         log ++ [Aws.CListObjectsV2 bucket prefix])) /\
  (forall (env : Aws.Env) (bucket key : string) (log : list Aws.call) (e : exn),
      Aws.head_object env bucket key = Raise e ->
      Aws.get_s3_object_info env bucket key log
      = (Ok (Aws.Text ("Error getting S3 object info: " +:+ exn_str e)),
         log ++ [Aws.CHeadObject bucket key])) /\
  (forall (env : Aws.Env) (log : list Aws.call) (e : exn),
      Aws.describe_instances env = Raise e ->
      Aws.list_ec2_instances env log
      = (Ok (Aws.Text ("Error listing EC2 instances: " +:+ exn_str e)),
         log ++ [Aws.CDescribeInstances])) /\
  (forall (env : Aws.Env) (instance_id : string) (log : list Aws.call) (e : exn),
      Aws.describe_instance_status env [instance_id] = Raise e ->
      Aws.get_ec2_status env instance_id log
      = (Ok (Aws.Text ("Error getting EC2 status: " +:+ exn_str e)),
         log ++ [Aws.CDescribeInstanceStatus [instance_id]])) /\
  (forall (env : Aws.Env) (namespace metric_name period : string)
          (log : list Aws.call) (period_mins start_time : Z) (e : exn),
      Aws.int env period = Ok period_mins ->
      Aws.datetime_sub env (Aws.utcnow env) (Aws.minutes period_mins)
      = Ok start_time ->
      Aws.get_metric_statistics env
        (AwsCases.statistics_args env namespace metric_name period_mins
           start_time) = Raise e ->
      Aws.cloudwatch_resource env namespace metric_name period log
      = (Ok (Aws.Text
               ("Error accessing CloudWatch metrics: " +:+ exn_str e)),
         log ++ [Aws.CGetMetricStatistics
                   (AwsCases.statistics_args env namespace metric_name
                      period_mins start_time)])) /\
  (forall (env : Aws.Env) (function_name : string) (n_days : Z)
          (log : list Aws.call) (start_time : Z) (e : exn),
      Aws.datetime_sub env (Aws.utcnow env) (Aws.days n_days)
      = Ok start_time ->
      Aws.get_metric_statistics env
        (AwsCases.invocations_args env function_name start_time) = Raise e ->
      Aws.get_lambda_invocations env function_name n_days log
      = (Ok (Aws.Text ("Error getting Lambda invocations: " +:+ exn_str e)),
         log ++ [Aws.CGetMetricStatistics
                   (AwsCases.invocations_args env function_name
                      start_time)])) /\
  (forall (env : AwsRest.Env) (bucket key : string) (log : list AwsRest.call) (e : exn),
      AwsRest.get_object env bucket key = Raise e ->
      AwsRest.s3_resource env bucket key log
      = (Ok (AwsRest.Text ("Error accessing S3: " +:+ exn_str e)),
         log ++ [AwsRest.CGetObject bucket key])) /\
  (forall (env : AwsRest.Env) (table key_name key_value : string) (log : list AwsRest.call) (e : exn),
      AwsRest.get_item env table key_name key_value = Raise e ->
      AwsRest.dynamodb_resource env table key_name key_value log
      = (Ok (AwsRest.Text ("Error accessing DynamoDB: " +:+ exn_str e)),
         log ++ [AwsRest.CGetItem table key_name key_value])) /\
  (forall (env : AwsRest.Env) (log : list AwsRest.call) (e : exn),
      AwsRest.list_tables env = Raise e ->
      AwsRest.list_dynamodb_tables env log
      = (Ok (AwsRest.Text ("Error listing DynamoDB tables: " +:+ exn_str e)),
         log ++ [AwsRest.CListTables])) /\
  (forall (env : AwsRest.Env) (table key_name key_value : string) (limit : Z) (log : list AwsRest.call) (e : exn),
      AwsRest.query env table (key_name +:+ " = :value") key_value limit = Raise e ->
      AwsRest.query_dynamodb env table key_name key_value limit log
      = (Ok (AwsRest.Text ("Error querying DynamoDB: " +:+ exn_str e)),
         log ++ [AwsRest.CQuery table (key_name +:+ " = :value") key_value limit])) /\
  (forall (env : AwsRest.Env) (table : string) (log : list AwsRest.call) (e : exn),
      AwsRest.describe_table env table = Raise e ->
      AwsRest.describe_dynamodb_table env table log
      = (Ok (AwsRest.Text ("Error describing DynamoDB table: " +:+ exn_str e)),
         log ++ [AwsRest.CDescribeTable table])) /\
  (forall (env : AwsRest.Env) (namespace : string) (log : list AwsRest.call) (e : exn),
      AwsRest.list_metrics env namespace = Raise e ->
      AwsRest.list_cloudwatch_metrics env namespace log
      = (Ok (AwsRest.Text ("Error listing CloudWatch metrics: " +:+ exn_str e)),
         log ++ [AwsRest.CListMetrics namespace])) /\
  (forall (env : AwsRest.Env) (log : list AwsRest.call) (e : exn),
      AwsRest.describe_alarms env = Raise e ->
      AwsRest.get_cloudwatch_alarms env log
      = (Ok (AwsRest.Text ("Error getting CloudWatch alarms: " +:+ exn_str e)),
         log ++ [AwsRest.CDescribeAlarms])) /\
  (forall (env : AwsRest.Env) (function_name : string) (log : list AwsRest.call) (e : exn),
      AwsRest.get_function env function_name = Raise e ->
      AwsRest.lambda_resource env function_name log
      = (Ok (AwsRest.Text ("Error accessing Lambda function: " +:+ exn_str e)),
         log ++ [AwsRest.CGetFunction function_name])) /\
  (forall (env : AwsRest.Env) (log : list AwsRest.call) (e : exn),
      AwsRest.list_functions env = Raise e ->
      AwsRest.list_lambda_functions env log
      = (Ok (AwsRest.Text ("Error listing Lambda functions: " +:+ exn_str e)),
         log ++ [AwsRest.CListFunctions])) /\
  (forall (env : AwsRest.Env) (instance_id : string) (log : list AwsRest.call) (e : exn),
      AwsRest.describe_instances env [instance_id] = Raise e ->
      AwsRest.ec2_resource env instance_id log
      = (Ok (AwsRest.Text ("Error accessing EC2 instance: " +:+ exn_str e)),
         log ++ [AwsRest.CDescribeInstances [instance_id]])) /\
  (forall (env : AwsRest.Env) (role_name : string) (log : list AwsRest.call) (e : exn),
      AwsRest.get_role env role_name = Raise e ->
      AwsRest.iam_role_resource env role_name log
      = (Ok (AwsRest.Text ("Error accessing IAM role: " +:+ exn_str e)),
         log ++ [AwsRest.CGetRole role_name])) /\
  (forall (env : AwsRest.Env) (log : list AwsRest.call) (e : exn),
      AwsRest.list_roles env = Raise e ->
      AwsRest.list_iam_roles env log
      = (Ok (AwsRest.Text ("Error listing IAM roles: " +:+ exn_str e)),
         log ++ [AwsRest.CListRoles])) /\
  (forall (env : AwsRest.Env) (role_name : string) (log : list AwsRest.call) (e : exn),
      AwsRest.list_attached_role_policies env role_name = Raise e ->
      AwsRest.list_iam_policies env role_name log
      = (Ok (AwsRest.Text ("Error listing IAM policies: " +:+ exn_str e)),
         log ++ [AwsRest.CListAttachedRolePolicies role_name])) /\
  (forall (env : AwsRest.Env) (log : list AwsRest.call) (e : exn),
      AwsRest.describe_log_groups env = Raise e ->
      AwsRest.list_cloudwatch_log_groups env log
      = (Ok (AwsRest.Text ("Error listing CloudWatch log groups: " +:+ exn_str e)),
         log ++ [AwsRest.CDescribeLogGroups])) /\
  (forall (env : AwsRest.Env) (bucket key : string)
          (log : list AwsRest.call) (e : exn),
      AwsRest.get_object env bucket key
      = Ok {| AwsRest.Body := Some (Raise e) |} ->
      AwsRest.s3_resource env bucket key log
      = (Ok (AwsRest.Text ("Error accessing S3: " +:+ exn_str e)),
         log ++ [AwsRest.CGetObject bucket key])) /\
  (forall (env : GDrive.Env) (request : GDrive.SearchRequest)
          (w w1 : GDrive.World) (e : exn),
      GDrive.get_google_credentials env w = (Raise e, w1) ->
      GDrive.gdrive_search env request w
      = (Raise (HTTPException 500 (exn_str e)), w1)) /\
  (forall (env : GDrive.Env) (request : GDrive.SearchRequest)
          (w w1 : GDrive.World) (c : GDrive.Credentials) (e : exn),
      GDrive.get_google_credentials env w = (Ok c, w1) ->
      GDrive.build env "drive" "v3" c = Raise e ->
      GDrive.gdrive_search env request w
      = (Raise (HTTPException 500 (exn_str e)),
         GDrive.logged w1 (GDrive.CBuild "drive" "v3"))) /\
  (forall (env : GDrive.Env) (request : GDrive.SearchRequest)
          (w w1 : GDrive.World) (c : GDrive.Credentials) (n : Z) (e : exn),
      GDrive.get_google_credentials env w = (Ok c, w1) ->
      GDrive.build env "drive" "v3" c = Ok tt ->
      GDrive.pageSize request = Some n ->
      GDrive.files_list_execute env
        (GDrive.list_args request (Z.min n 100)) = Raise e ->
      GDrive.gdrive_search env request w
      = (Raise (HTTPException 500 (exn_str e)),
         GDrive.logged (GDrive.logged w1 (GDrive.CBuild "drive" "v3"))
           (GDrive.CFilesList (GDrive.list_args request (Z.min n 100))))) /\
  (forall (env : GDriveRest.Env) (budget : nat)
          (request : GDriveRest.FileReadRequest) (w : GDriveRest.World)
          (wa : GDrive.World) (e : exn),
      GDrive.get_google_credentials (GDriveRest.auth env)
        {| GDrive.fs := GDriveRest.fs w; GDrive.calls := [] |} = (Raise e, wa) ->
      GDriveRest.gdrive_read_file env budget request w
      = (Raise (HTTPException 500 (exn_str e)),
         {| GDriveRest.fs := GDrive.fs wa;
            GDriveRest.calls :=
              GDriveRest.calls w
              ++ map GDriveRest.Base (GDrive.calls wa) |})) /\
  (forall (env : GDriveRest.Env) (budget : nat)
          (request : GDriveRest.FileReadRequest) (w : GDriveRest.World)
          (wa : GDrive.World) (c : GDrive.Credentials) (e : exn),
      GDrive.get_google_credentials (GDriveRest.auth env)
        {| GDrive.fs := GDriveRest.fs w; GDrive.calls := [] |} = (Ok c, wa) ->
      GDrive.build (GDriveRest.auth env) "drive" "v3" c = Raise e ->
      GDriveRest.gdrive_read_file env budget request w
      = (Raise (HTTPException 500 (exn_str e)),
         GDriveRest.after_base w wa "drive" "v3")) /\
  (forall (env : GDriveRest.Env) (budget : nat)
          (request : GDriveRest.FileReadRequest) (w : GDriveRest.World)
          (wa : GDrive.World) (c : GDrive.Credentials) (e : exn),
      GDrive.get_google_credentials (GDriveRest.auth env)
        {| GDrive.fs := GDriveRest.fs w; GDrive.calls := [] |} = (Ok c, wa) ->
      GDrive.build (GDriveRest.auth env) "drive" "v3" c = Ok tt ->
      GDriveRest.files_get_execute env (GDriveRest.fileId request)
      = Raise e ->
      GDriveRest.gdrive_read_file env budget request w
      = (Raise (HTTPException 500 (exn_str e)),
         {| GDriveRest.fs := GDrive.fs wa;
            GDriveRest.calls :=
              GDriveRest.calls (GDriveRest.after_base w wa "drive" "v3")
              ++ [GDriveRest.CFilesGet (GDriveRest.fileId request)] |})) /\
  (forall (env : GDriveRest.Env) (budget : nat)
          (request : GDriveRest.FileReadRequest) (w : GDriveRest.World)
          (wa : GDrive.World) (c : GDrive.Credentials)
          (meta : GDriveRest.FileMetadata) (chunks : list string) (e : exn),
      GDrive.get_google_credentials (GDriveRest.auth env)
        {| GDrive.fs := GDriveRest.fs w; GDrive.calls := [] |} = (Ok c, wa) ->
      GDrive.build (GDriveRest.auth env) "drive" "v3" c = Ok tt ->
      GDriveRest.files_get_execute env (GDriveRest.fileId request)
      = Ok meta ->
      (forall (i : nat) (bytes : string),
          chunks !! i = Some bytes ->
          GDriveRest.next_chunk env (GDriveRest.fileId request)
            (GDriveRest.chunks_fetched (GDriveRest.calls w) + i)
          = Ok (bytes, false)) ->
      GDriveRest.next_chunk env (GDriveRest.fileId request)
        (GDriveRest.chunks_fetched (GDriveRest.calls w) + length chunks)
      = Raise e ->
      (length chunks < budget)%nat ->
      GDriveRest.gdrive_read_file env budget request w
      = (Raise (HTTPException 500 (exn_str e)),
         {| GDriveRest.fs := GDrive.fs wa;
            GDriveRest.calls :=
              GDriveRest.calls (GDriveRest.after_base w wa "drive" "v3")
              ++ GDriveRest.CFilesGet (GDriveRest.fileId request)
                 :: replicate (S (length chunks))
                      (GDriveRest.CNextChunk (GDriveRest.fileId request)) |})) /\
  (forall (env : GDriveRest.Env) (request : GDriveRest.SheetsReadRequest)
          (w : GDriveRest.World) (wa : GDrive.World) (e : exn),
      GDrive.get_google_credentials (GDriveRest.auth env)
        {| GDrive.fs := GDriveRest.fs w; GDrive.calls := [] |} = (Raise e, wa) ->
      GDriveRest.gsheets_read env request w
      = (Raise (HTTPException 500 (exn_str e)),
         {| GDriveRest.fs := GDrive.fs wa;
            GDriveRest.calls :=
              GDriveRest.calls w
              ++ map GDriveRest.Base (GDrive.calls wa) |})) /\
  (forall (env : GDriveRest.Env) (request : GDriveRest.SheetsReadRequest)
          (w : GDriveRest.World) (wa : GDrive.World)
          (c : GDrive.Credentials) (e : exn),
      GDrive.get_google_credentials (GDriveRest.auth env)
        {| GDrive.fs := GDriveRest.fs w; GDrive.calls := [] |} = (Ok c, wa) ->
      GDrive.build (GDriveRest.auth env) "sheets" "v4" c = Raise e ->
      GDriveRest.gsheets_read env request w
      = (Raise (HTTPException 500 (exn_str e)),
         GDriveRest.after_base w wa "sheets" "v4")) /\
  (forall (env : GDriveRest.Env) (request : GDriveRest.SheetsReadRequest)
          (w : GDriveRest.World) (wa : GDrive.World)
          (c : GDrive.Credentials) (r : string) (rs : list string) (e : exn),
      GDrive.get_google_credentials (GDriveRest.auth env)
        {| GDrive.fs := GDriveRest.fs w; GDrive.calls := [] |} = (Ok c, wa) ->
      GDrive.build (GDriveRest.auth env) "sheets" "v4" c = Ok tt ->
      GDriveRest.ranges request = Some (r :: rs) ->
      GDriveRest.values_batchGet_execute env
        (GDriveRest.spreadsheetId request) (r :: rs) = Raise e ->
      GDriveRest.gsheets_read env request w
      = (Raise (HTTPException 500 (exn_str e)),
         {| GDriveRest.fs := GDrive.fs wa;
            GDriveRest.calls :=
              GDriveRest.calls (GDriveRest.after_base w wa "sheets" "v4")
              ++ [GDriveRest.CValuesBatchGet
                    (GDriveRest.spreadsheetId request) (r :: rs)] |})) /\
  (forall (env : GDriveRest.Env) (request : GDriveRest.SheetsReadRequest)
          (w : GDriveRest.World) (wa : GDrive.World)
          (c : GDrive.Credentials) (e : exn),
      GDrive.get_google_credentials (GDriveRest.auth env)
        {| GDrive.fs := GDriveRest.fs w; GDrive.calls := [] |} = (Ok c, wa) ->
      GDrive.build (GDriveRest.auth env) "sheets" "v4" c = Ok tt ->
      GDriveRest.ranges request = None
      \/ GDriveRest.ranges request = Some [] ->
      GDriveRest.values_get_execute env
        (GDriveRest.spreadsheetId request) "A1:ZZ" = Raise e ->
      GDriveRest.gsheets_read env request w
      = (Raise (HTTPException 500 (exn_str e)),
         {| GDriveRest.fs := GDrive.fs wa;
            GDriveRest.calls :=
              GDriveRest.calls (GDriveRest.after_base w wa "sheets" "v4")
              ++ [GDriveRest.CValuesGet
                    (GDriveRest.spreadsheetId request) "A1:ZZ"] |})) /\
  (forall (env : GDriveCell.Env) (request : GDriveCell.SheetsUpdateRequest)
          (w : GDriveCell.World) (wa : GDrive.World) (e : exn),
      GDrive.get_google_credentials (GDriveCell.auth env)
        {| GDrive.fs := GDriveCell.fs w; GDrive.calls := [] |} = (Raise e, wa) ->
      GDriveCell.gsheets_update_cell env request w
      = (Raise (HTTPException 500 (exn_str e)),
         {| GDriveCell.fs := GDrive.fs wa;
            GDriveCell.calls :=
              GDriveCell.calls w
              ++ map GDriveCell.Base (GDrive.calls wa) |})) /\
  (forall (env : GDriveCell.Env) (request : GDriveCell.SheetsUpdateRequest)
          (w : GDriveCell.World) (wa : GDrive.World)
          (c : GDrive.Credentials) (e : exn),
      GDrive.get_google_credentials (GDriveCell.auth env)
        {| GDrive.fs := GDriveCell.fs w; GDrive.calls := [] |} = (Ok c, wa) ->
      GDrive.build (GDriveCell.auth env) "sheets" "v4" c = Raise e ->
      GDriveCell.gsheets_update_cell env request w
      = (Raise (HTTPException 500 (exn_str e)),
         {| GDriveCell.fs := GDrive.fs wa;
            GDriveCell.calls :=
              (GDriveCell.calls w ++ map GDriveCell.Base (GDrive.calls wa))
              ++ [GDriveCell.Base (GDrive.CBuild "sheets" "v4")] |})) /\
  (forall (env : GDriveCell.Env) (request : GDriveCell.SheetsUpdateRequest)
          (w : GDriveCell.World) (wa : GDrive.World)
          (c : GDrive.Credentials) (e : exn),
      GDrive.get_google_credentials (GDriveCell.auth env)
        {| GDrive.fs := GDriveCell.fs w; GDrive.calls := [] |} = (Ok c, wa) ->
      GDrive.build (GDriveCell.auth env) "sheets" "v4" c = Ok tt ->
      GDriveCell.values_update_execute env (GDriveCell.fileId request)
        (GDriveCell.range request) "RAW" [[GDriveCell.value request]]
      = Raise e ->
      GDriveCell.gsheets_update_cell env request w
      = (Raise (HTTPException 500 (exn_str e)),
         {| GDriveCell.fs := GDrive.fs wa;
            GDriveCell.calls :=
              ((GDriveCell.calls w ++ map GDriveCell.Base (GDrive.calls wa))
               ++ [GDriveCell.Base (GDrive.CBuild "sheets" "v4")])
              ++ [GDriveCell.CValuesUpdate (GDriveCell.fileId request)
                    (GDriveCell.range request) "RAW"
                    [[GDriveCell.value request]]] |})).
Proof.
  repeat match goal with |- _ /\ _ => split end.
  - apply ServerFacts.list_s3_buckets_fails.
  - apply ServerFacts.submission_fails.
  - apply ServerFacts.fetch_fails.
  - intros; unfold Aws.list_s3_objects; by apply FailureFacts.aws_call_fails.
  - intros; unfold Aws.get_s3_object_info; by apply FailureFacts.aws_call_fails.
  - intros; unfold Aws.list_ec2_instances; by apply FailureFacts.aws_call_fails.
  - intros; unfold Aws.get_ec2_status; by apply FailureFacts.aws_call_fails.
  - apply FailureFacts.cloudwatch_resource_call_fails.
  - apply FailureFacts.get_lambda_invocations_call_fails.
  - intros; unfold AwsRest.s3_resource; by apply FailureFacts.rest_call_fails.
  - intros; unfold AwsRest.dynamodb_resource; by apply FailureFacts.rest_call_fails.
  - intros; unfold AwsRest.list_dynamodb_tables; by apply FailureFacts.rest_call_fails.
  - intros; unfold AwsRest.query_dynamodb; by apply FailureFacts.rest_call_fails.
  - intros; unfold AwsRest.describe_dynamodb_table; by apply FailureFacts.rest_call_fails.
  - intros; unfold AwsRest.list_cloudwatch_metrics; by apply FailureFacts.rest_call_fails.
  - intros; unfold AwsRest.get_cloudwatch_alarms; by apply FailureFacts.rest_call_fails.
  - intros; unfold AwsRest.lambda_resource; by apply FailureFacts.rest_call_fails.
  - intros; unfold AwsRest.list_lambda_functions; by apply FailureFacts.rest_call_fails.
  - intros; unfold AwsRest.ec2_resource; by apply FailureFacts.rest_call_fails.
  - intros; unfold AwsRest.iam_role_resource; by apply FailureFacts.rest_call_fails.
  - intros; unfold AwsRest.list_iam_roles; by apply FailureFacts.rest_call_fails.
  - intros; unfold AwsRest.list_iam_policies; by apply FailureFacts.rest_call_fails.
  - intros; unfold AwsRest.list_cloudwatch_log_groups; by apply FailureFacts.rest_call_fails.
  - apply FailureFacts.s3_resource_read_fails.
  - apply GDriveFacts.gdrive_search_credentials_fail.
  - apply FailureFacts.gdrive_search_build_fails.
  - apply FailureFacts.gdrive_search_listing_fails.
  - apply FailureFacts.read_file_credentials_fail.
  - apply FailureFacts.read_file_build_fails.
  - apply FailureFacts.read_file_get_fails.
  - apply FailureFacts.read_file_chunk_fails.
  - apply FailureFacts.sheets_credentials_fail.
  - apply FailureFacts.sheets_build_fails.
  - apply FailureFacts.sheets_batch_get_fails.
  - apply FailureFacts.sheets_get_fails.
  - apply FailureFacts.update_credentials_fail.
  - apply FailureFacts.update_build_fails.
  - apply FailureFacts.update_call_fails.
Qed.

(** A Drive that fails makes [gdrive_search] raise; a logs service and
    a DynamoDB that fail make their tools return a text. *)
Lemma failing_services :
  gdrive_search (google true (Raise quota_exceeded)) ten_reports
    (cached fresh)
  = (Raise (HTTPException 500 "User rate limit exceeded."),
     logged (logged (cached fresh) (CBuild "drive" "v3"))
            (CFilesList (list_args ten_reports 10))) /\
  Server.run_cloudwatch_logs_query Server.unreachable 5 "/aws/lambda/app"
    "fields @message" 24 []
  = (Ok (Server.Text "Error running CloudWatch Logs query: no route"),
     [Server.CStartQuery
        (Server.submitted Server.unreachable "/aws/lambda/app"
           "fields @message" 24)]) /\
  AwsRest.query_dynamodb RestCases.down "orders" "customer" "c-7" 10 []
  = (Ok (AwsRest.Text "Error querying DynamoDB: no route"),
     [AwsRest.CQuery "orders" "customer = :value" "c-7" 10]).
Proof.
  destruct failures_are_caught_and_not_retried
    as (_ & Hsubmit & _ & _ & _ & _ & _ & _ & _ & _ & _ & _ & Hquery & _
      & _ & _ & _ & _ & _ & _ & _ & _ & _ & _ & _ & _ & Hsearch & _ &
      _ & _ & _ & _ & _ & _ & _ & _ & _ & _).
  split; [|split].
  - apply (Hsearch (google true (Raise quota_exceeded)) ten_reports
             (cached fresh) (cached fresh) fresh 10 quota_exceeded);
      reflexivity.
  - apply (Hsubmit Server.unreachable 5%nat "/aws/lambda/app"
             "fields @message" 24 []
             (Exn "EndpointConnectionError" "no route")).
    reflexivity.
  - apply (Hquery RestCases.down "orders" "customer" "c-7" 10 []
             RestCases.no_route).
    reflexivity.
Defined.

(** C5 as stated fails for [gdrive_search]: when the listing fails, the
    caller gets no value back, text or other, but an exception. *)
Lemma gdrive_search_raises_to_its_caller :
  fst (gdrive_search (google true (Raise quota_exceeded)) ten_reports
         (cached fresh))
  = Raise (HTTPException 500 "User rate limit exceeded.") /\
  ~ (exists v : SearchResult,
        fst (gdrive_search (google true (Raise quota_exceeded)) ten_reports
               (cached fresh)) = Ok v).
Proof.
  assert (H : fst (gdrive_search (google true (Raise quota_exceeded))
                     ten_reports (cached fresh))
              = Raise (HTTPException 500 "User rate limit exceeded."))
    by (vm_compute; reflexivity).
  split; [exact H|]. intros [v Hv]. rewrite H in Hv. discriminate.
Qed.

End ToolErrors.
